(** * gloom: a shallow embedding of [src/main.cpp]

    The program opens an SDL window with an OpenGL context, uploads one
    quad, builds one shader program and redraws until a quit event is
    polled.  Everything the program does is a call into SDL, glad/OpenGL
    or the C++ standard library, so the embedding is a small monad that

    - threads the program's global variables (explicit state passing),
    - records the calls into SDL, glad and OpenGL, the output on
      [std::cout] and the opening of files, with their arguments, in a trace,
    - takes the values returned by the outside world from an [Env],
    - and stops early on [exit], on a read of a variable that was never
      assigned, on an exception (the program catches none), or when the fuel
      bounding [MainLoop] is used up.

    [GLClearAllErrors] and [GLCheckErrorStatus] are defined in main.cpp and
    called from nowhere (the macro [GLCheck] that would call them is never
    used); they are modelled apart from the program. *)

From Stdlib Require Import ZArith QArith List String Ascii Bool Arith Lia.
From Stdlib Require Import DecimalString.
From Equations Require Import Equations.
Import ListNotations.

Local Open Scope string_scope.
Local Open Scope list_scope.
Local Open Scope Z_scope.

(** ** Types and constants of the third-party headers *)

Definition GLuint := Z.
Definition GLenum := Z.
Definition GLint := Z.
(** A [GLfloat] literal is kept as the decimal number written in the source;
    the program never computes with floats. *)
Definition GLfloat := Q.
Definition pointer := Z.
Definition nullptr : pointer := 0.

(** Values of the OpenGL enumerants (Khronos registry, as in glad.h). *)
Definition GL_FALSE : Z := 0.
Definition GL_TRIANGLES : GLenum := 0x0004.
Definition GL_DEPTH_BUFFER_BIT : Z := 0x00000100.
Definition GL_COLOR_BUFFER_BIT : Z := 0x00004000.
Definition GL_CULL_FACE : GLenum := 0x0B44.
Definition GL_DEPTH_TEST : GLenum := 0x0B71.
Definition GL_UNSIGNED_INT : GLenum := 0x1405.
Definition GL_FLOAT : GLenum := 0x1406.
Definition GL_VENDOR : GLenum := 0x1F00.
Definition GL_RENDERER : GLenum := 0x1F01.
Definition GL_VERSION : GLenum := 0x1F02.
Definition GL_ARRAY_BUFFER : GLenum := 0x8892.
Definition GL_ELEMENT_ARRAY_BUFFER : GLenum := 0x8893.
Definition GL_STATIC_DRAW : GLenum := 0x88E4.
Definition GL_FRAGMENT_SHADER : GLenum := 0x8B30.
Definition GL_VERTEX_SHADER : GLenum := 0x8B31.
Definition GL_COMPILE_STATUS : GLenum := 0x8B81.
Definition GL_INFO_LOG_LENGTH : GLenum := 0x8B84.
Definition GL_SHADING_LANGUAGE_VERSION : GLenum := 0x8B8C.

(** Values of the SDL2 constants (SDL.h, SDL_video.h, SDL_events.h). *)
Definition SDL_INIT_VIDEO : Z := 0x00000020.
Definition SDL_WINDOW_OPENGL : Z := 0x00000002.
Definition SDL_GL_DOUBLEBUFFER : Z := 5.
Definition SDL_GL_DEPTH_SIZE : Z := 6.
Definition SDL_GL_CONTEXT_MAJOR_VERSION : Z := 17.
Definition SDL_GL_CONTEXT_MINOR_VERSION : Z := 18.
Definition SDL_GL_CONTEXT_PROFILE_MASK : Z := 21.
Definition SDL_GL_CONTEXT_PROFILE_CORE : Z := 0x0001.
Definition SDL_QUIT : Z := 0x100.

Definition sizeof_GLfloat : Z := 4.
Definition sizeof_GLuint : Z := 4.

(** Of an [SDL_Event] the program reads the [type] field only. *)
Record SDL_Event : Type := mkEvent { type : Z }.

(** The newline character, and [std::endl] (the flush is not modelled). *)
Definition newline : string := String "010"%char EmptyString.
Definition endl : string := newline.

(** ** External calls

    One constructor per library function the program calls, carrying the
    arguments the program passes.  [SDL_PollEvent] also carries what the call
    delivered: [Some e] when it returned 1 and stored [e], [None] when it
    returned 0.  [cout] is one [operator<<] on [std::cout], and
    [ifstream_open] the construction of a [std::ifstream] on a file (the
    reads from the stream and its closing are not recorded). *)
Inductive Call : Type :=
| SDL_Init (flags : Z)
| SDL_GL_SetAttribute (attr value : Z)
| SDL_CreateWindow (title : string) (x y w h flags : Z)
| SDL_GL_CreateContext (window : pointer)
| gladLoadGLLoader
| SDL_PollEvent (e : option SDL_Event)
| SDL_GL_SwapWindow (window : pointer)
| SDL_DestroyWindow (window : pointer)
| SDL_Quit
| cout (text : string)
| ifstream_open (filename : string)
| glGetString (name : GLenum)
| glCreateShader (shaderType : GLenum)
| glShaderSource (shader : GLuint) (count : Z) (src : string)
| glCompileShader (shader : GLuint)
| glGetShaderiv (shader : GLuint) (pname : GLenum)
| glGetShaderInfoLog (shader : GLuint) (bufSize : GLint)
| glDeleteShader (shader : GLuint)
| glCreateProgram
| glAttachShader (program shader : GLuint)
| glLinkProgram (program : GLuint)
| glValidateProgram (program : GLuint)
| glDetachShader (program shader : GLuint)
| glGenVertexArrays (n : Z)
| glBindVertexArray (array : GLuint)
| glGenBuffers (n : Z)
| glBindBuffer (target : GLenum) (buffer : GLuint)
| glBufferData_GLfloat (target : GLenum) (size : Z) (data : list GLfloat) (usage : GLenum)
| glBufferData_GLuint (target : GLenum) (size : Z) (data : list GLuint) (usage : GLenum)
| glEnableVertexAttribArray (index : GLuint)
| glVertexAttribPointer (index : GLuint) (size : GLint) (ty : GLenum)
    (normalized : Z) (stride : Z) (offset : Z)
| glDisableVertexAttribArray (index : GLuint)
| glDisable (cap : GLenum)
| glViewport (x y width height : Z)
| glClearColor (red green blue alpha : GLfloat)
| glClear (mask : Z)
| glUseProgram (program : GLuint)
| glDrawElements (mode : GLenum) (count : Z) (ty : GLenum) (indices : Z).

(** ** The outside world

    What the libraries answer.  Nothing is assumed about the answers. *)
Record Env : Type := mkEnv {
  (** return value of [SDL_Init] *)
  env_SDL_Init : Z;
  (** window returned by [SDL_CreateWindow] *)
  env_SDL_CreateWindow : pointer;
  (** context returned by [SDL_GL_CreateContext] *)
  env_SDL_GL_CreateContext : pointer;
  (** return value of [gladLoadGLLoader] *)
  env_gladLoadGLLoader : Z;
  env_glGetString : GLenum -> string;
  (** name written by [glGenVertexArrays] *)
  env_glGenVertexArrays : GLuint;
  (** name written by the n-th call of [glGenBuffers] *)
  env_glGenBuffers : nat -> GLuint;
  (** content of a file, [None] when it cannot be opened *)
  env_file : string -> option string;
  env_glCreateProgram : GLuint;
  env_glCreateShader : GLenum -> GLuint;
  (** what [glGetShaderiv] writes for [GL_COMPILE_STATUS] and for
      [GL_INFO_LOG_LENGTH] of a shader object with a source text; [None]
      when it writes nothing, as it does for a name that is no shader
      object, so that the variable given to it keeps having no value *)
  env_compile_status : GLuint -> string -> option GLint;
  env_info_log_length : GLuint -> string -> option GLint;
  (** the info log of a shader object with a source text; [None] when
      [glGetShaderInfoLog] writes nothing, whatever the buffer *)
  env_info_log : GLuint -> string -> option string;
  (** what stands in the memory that [new char[n]] returns in the call of
      [CompileShader] for a shader object, as long as nothing is written to
      it: the characters found from its start on *)
  env_new_char : GLuint -> GLint -> string;
  (** the events [SDL_PollEvent] delivers during the n-th call of [Input]
      before it returns 0 *)
  env_events : nat -> list SDL_Event
}.

(** ** Program state: the globals of main.cpp, and two counters of the
    model that say which answer of [Env] comes next. *)
Record State : Type := mkState {
  gScreenWidth : Z;
  gScreenHeight : Z;
  gGraphicsApplicationWindow : pointer;
  gOpenGLContext : pointer;
  gQuit : bool;
  gGraphicsPipelineShaderProgram : GLuint;
  gVertexArrayObject : GLuint;
  gVertexBufferObject : GLuint;
  gIndexBufferObject : GLuint;
  inputs_done : nat;
  buffers_generated : nat
}.

(** The initializers of the globals. *)
Definition initial_state : State :=
  {| gScreenWidth := 640;
     gScreenHeight := 480;
     gGraphicsApplicationWindow := nullptr;
     gOpenGLContext := nullptr;
     gQuit := false;
     gGraphicsPipelineShaderProgram := 0;
     gVertexArrayObject := 0;
     gVertexBufferObject := 0;
     gIndexBufferObject := 0;
     inputs_done := 0;
     buffers_generated := 0 |}.

Definition set_gGraphicsApplicationWindow (v : pointer) (s : State) : State :=
  mkState (gScreenWidth s) (gScreenHeight s) v (gOpenGLContext s) (gQuit s)
    (gGraphicsPipelineShaderProgram s) (gVertexArrayObject s)
    (gVertexBufferObject s) (gIndexBufferObject s)
    (inputs_done s) (buffers_generated s).

Definition set_gOpenGLContext (v : pointer) (s : State) : State :=
  mkState (gScreenWidth s) (gScreenHeight s) (gGraphicsApplicationWindow s) v
    (gQuit s) (gGraphicsPipelineShaderProgram s) (gVertexArrayObject s)
    (gVertexBufferObject s) (gIndexBufferObject s)
    (inputs_done s) (buffers_generated s).

Definition set_gQuit (v : bool) (s : State) : State :=
  mkState (gScreenWidth s) (gScreenHeight s) (gGraphicsApplicationWindow s)
    (gOpenGLContext s) v (gGraphicsPipelineShaderProgram s)
    (gVertexArrayObject s) (gVertexBufferObject s) (gIndexBufferObject s)
    (inputs_done s) (buffers_generated s).

Definition set_gGraphicsPipelineShaderProgram (v : GLuint) (s : State) : State :=
  mkState (gScreenWidth s) (gScreenHeight s) (gGraphicsApplicationWindow s)
    (gOpenGLContext s) (gQuit s) v (gVertexArrayObject s)
    (gVertexBufferObject s) (gIndexBufferObject s)
    (inputs_done s) (buffers_generated s).

Definition set_gVertexArrayObject (v : GLuint) (s : State) : State :=
  mkState (gScreenWidth s) (gScreenHeight s) (gGraphicsApplicationWindow s)
    (gOpenGLContext s) (gQuit s) (gGraphicsPipelineShaderProgram s) v
    (gVertexBufferObject s) (gIndexBufferObject s)
    (inputs_done s) (buffers_generated s).

Definition set_gVertexBufferObject (v : GLuint) (s : State) : State :=
  mkState (gScreenWidth s) (gScreenHeight s) (gGraphicsApplicationWindow s)
    (gOpenGLContext s) (gQuit s) (gGraphicsPipelineShaderProgram s)
    (gVertexArrayObject s) v (gIndexBufferObject s)
    (inputs_done s) (buffers_generated s).

Definition set_gIndexBufferObject (v : GLuint) (s : State) : State :=
  mkState (gScreenWidth s) (gScreenHeight s) (gGraphicsApplicationWindow s)
    (gOpenGLContext s) (gQuit s) (gGraphicsPipelineShaderProgram s)
    (gVertexArrayObject s) (gVertexBufferObject s) v
    (inputs_done s) (buffers_generated s).

Definition next_input (s : State) : State :=
  mkState (gScreenWidth s) (gScreenHeight s) (gGraphicsApplicationWindow s)
    (gOpenGLContext s) (gQuit s) (gGraphicsPipelineShaderProgram s)
    (gVertexArrayObject s) (gVertexBufferObject s) (gIndexBufferObject s)
    (S (inputs_done s)) (buffers_generated s).

Definition next_buffer (s : State) : State :=
  mkState (gScreenWidth s) (gScreenHeight s) (gGraphicsApplicationWindow s)
    (gOpenGLContext s) (gQuit s) (gGraphicsPipelineShaderProgram s)
    (gVertexArrayObject s) (gVertexBufferObject s) (gIndexBufferObject s)
    (inputs_done s) (S (buffers_generated s)).

(** ** The monad *)

(** Why a computation stopped before its end. *)
Inductive Stop : Type :=
| Exited (status : Z)             (* [exit(status)] was called *)
| UninitRead (variable : string)  (* the named variable was read before
                                     anything was assigned to it *)
| Aborted                         (* an exception was thrown, and nothing
                                     in the program catches one *)
| OutOfFuel.                      (* the loop bound of the model was reached *)

Inductive Result (A : Type) : Type :=
| Normal (a : A) (s : State)   (* the code ran to its end *)
| Stopped (why : Stop).
Arguments Normal {A} a s.
Arguments Stopped {A} why.

(** A computation maps a state to the calls it made and how it ended. *)
Definition M (A : Type) : Type := State -> list Call * Result A.

Definition ret {A} (a : A) : M A := fun s => ([], Normal a s).

Definition bind {A B} (m : M A) (k : A -> M B) : M B :=
  fun s =>
    match m s with
    | (t1, Normal a s1) => let (t2, r) := k a s1 in (t1 ++ t2, r)
    | (t1, Stopped why) => (t1, Stopped why)
    end.

Declare Scope prog_scope.
Delimit Scope prog_scope with prog.
Notation "x <- m ;; k" := (bind m (fun x => k))
  (at level 61, m at next level, right associativity) : prog_scope.
Notation "m ;; k" := (bind m (fun _ => k))
  (at level 61, right associativity) : prog_scope.
Local Open Scope prog_scope.

Definition call (c : Call) : M unit := fun s => ([c], Normal tt s).
Definition get {A} (g : State -> A) : M A := fun s => ([], Normal (g s) s).
Definition modify (f : State -> State) : M unit := fun s => ([], Normal tt (f s)).
Definition stop {A} (why : Stop) : M A := fun _ => ([], Stopped why).
Definition exit {A} (status : Z) : M A := stop (Exited status).
Definition out_of_fuel {A} : M A := stop OutOfFuel.
(** An exception leaves [main]: [std::terminate]. *)
Definition throw {A} : M A := stop Aborted.

(** Reading a local variable that may not have been assigned. *)
Definition read {A} (variable : string) (v : option A) : M A :=
  match v with
  | Some a => ret a
  | None => stop (UninitRead variable)
  end.

Definition when (b : bool) (m : M unit) : M unit := if b then m else ret tt.

Definition trace_of {A} (x : list Call * Result A) : list Call := fst x.
Definition result_of {A} (x : list Call * Result A) : Result A := snd x.

(** ** [std::getline] on an input file stream

    A stream is the text not read yet.  At the end of the file
    [std::getline] fails; otherwise it moves the characters before the next
    newline into [line] and discards that newline (or stops at the end of
    the file): [take_line] gives the line and the rest of the stream. *)
Fixpoint take_line (stream : string) : string * string :=
  match stream with
  | EmptyString => (EmptyString, EmptyString)
  | String c rest =>
      if Ascii.eqb c "010"%char then (EmptyString, rest)
      else let (line, rest') := take_line rest in (String c line, rest')
  end.

(** The loop [while (std::getline(myFile, line)) result += line + '\n';],
    which ends when the stream is empty. *)
Equations? read_lines (stream : string) (result : string) : string
  by wf (String.length stream) lt :=
  read_lines EmptyString result := result;
  read_lines (String c rest) result :=
    read_lines (snd (take_line (String c rest)))
               (result ++ fst (take_line (String c rest)) ++ newline).
Proof.
  assert (shorter : forall text,
             (String.length (snd (take_line text)) <= String.length text)%nat).
  { induction text as [|d text IH]; simpl; [lia|].
    destruct (Ascii.eqb d "010"%char); simpl; [lia|].
    destruct (take_line text) as [line rest']. simpl in *. lia. }
  simpl. destruct (Ascii.eqb c "010"%char); simpl; [lia|].
  specialize (shorter rest).
  destruct (take_line rest) as [line rest']. simpl in *. lia.
Defined.

(** ** C strings

    What is read through a [const char*] that points at the characters of a
    text: the characters before the first NUL. *)
Fixpoint c_str (text : string) : string :=
  match text with
  | EmptyString => EmptyString
  | String c rest =>
      if Ascii.eqb c "000"%char then EmptyString else String c (c_str rest)
  end.

(** What [std::cout << errorMessages] reads, as a C string, from a buffer
    of [bufSize] characters after [glGetShaderInfoLog]: the log cut down to
    [bufSize - 1] characters, which is followed by a NUL; or, when there was
    no log to write or no room for a single character, what stood there
    before, [stale]. *)
Definition buffer_text (stale : string) (bufSize : GLint) (log : option string)
  : string :=
  match log with
  | None => c_str stale
  | Some text =>
      if bufSize <=? 0 then c_str stale
      else c_str (substring 0 (Z.to_nat (bufSize - 1)) text)
  end.

Section Program.

Variable env : Env.

(** [LoadShaderAsString]: the file is opened; when that fails the loop is
    skipped and the initial value of [result] is returned. *)
Definition LoadShaderAsString (filename : string) : M string :=
  let result := EmptyString in
  call (ifstream_open filename) ;;
  match env_file env filename with
  | Some myFile => ret (read_lines myFile result)
  | None => ret result
  end.

(** [GetOpenGLVersionInfo] *)
Definition GetOpenGLVersionInfo : M unit :=
  call (cout "Vendor: ") ;; call (glGetString GL_VENDOR) ;;
  call (cout (env_glGetString env GL_VENDOR)) ;; call (cout endl) ;;
  call (cout "Renderer: ") ;; call (glGetString GL_RENDERER) ;;
  call (cout (env_glGetString env GL_RENDERER)) ;; call (cout endl) ;;
  call (cout "Version: ") ;; call (glGetString GL_VERSION) ;;
  call (cout (env_glGetString env GL_VERSION)) ;; call (cout endl) ;;
  call (cout "Shading Language: ") ;;
  call (glGetString GL_SHADING_LANGUAGE_VERSION) ;;
  call (cout (env_glGetString env GL_SHADING_LANGUAGE_VERSION)) ;;
  call (cout endl).

(** [CompileShader].  [shaderObject], [result] and [length] are declared
    without initializer: [shaderObject] is assigned in two branches only, and
    the other two get a value only if [glGetShaderiv] writes one.
    [glShaderSource] is given [source.c_str()] and no length, so it reads a C
    string.  [new char[length]] throws [std::bad_array_new_length] when
    [length] is negative (an allocation of a size that is not negative is
    taken to succeed, like every other allocation of the program).  The
    buffer is printed whether or not [glGetShaderInfoLog] wrote to it; when
    it did not, what is printed is what the memory held. *)
Definition CompileShader (type : GLuint) (source : string) : M GLuint :=
  shaderObject <-
    (if type =? GL_VERTEX_SHADER then
       call (glCreateShader GL_VERTEX_SHADER) ;;
       ret (Some (env_glCreateShader env GL_VERTEX_SHADER))
     else if type =? GL_FRAGMENT_SHADER then
       call (glCreateShader GL_FRAGMENT_SHADER) ;;
       ret (Some (env_glCreateShader env GL_FRAGMENT_SHADER))
     else ret None) ;;
  let src := c_str source in
  shader <- read "shaderObject" shaderObject ;;
  call (glShaderSource shader 1 src) ;;
  call (glCompileShader shader) ;;
  call (glGetShaderiv shader GL_COMPILE_STATUS) ;;
  result <- read "result" (env_compile_status env shader src) ;;
  if result =? GL_FALSE then
    call (glGetShaderiv shader GL_INFO_LOG_LENGTH) ;;
    length <- read "length" (env_info_log_length env shader src) ;;
    when (length <? 0) throw ;;
    call (glGetShaderInfoLog shader length) ;;
    let errorMessages :=
      buffer_text (env_new_char env shader length) length
        (env_info_log env shader src) in
    (if type =? GL_VERTEX_SHADER then
       call (cout ("ERROR: GL_VERTEX_SHADER compilation failed!" ++ newline)) ;;
       call (cout errorMessages) ;; call (cout newline)
     else if type =? GL_FRAGMENT_SHADER then
       call (cout ("ERROR: GL_FRAGMENT_SHADER compilation failed!" ++ newline)) ;;
       call (cout errorMessages) ;; call (cout newline)
     else ret tt) ;;
    call (glDeleteShader shader) ;;
    ret 0
  else
    ret shader.

(** [CreateShaderProgram] *)
Definition CreateShaderProgram (vertexShaderSource fragmentShaderSource : string)
  : M GLuint :=
  call glCreateProgram ;;
  let programObject := env_glCreateProgram env in
  myVertexShader <- CompileShader GL_VERTEX_SHADER vertexShaderSource ;;
  myFragmentShader <- CompileShader GL_FRAGMENT_SHADER fragmentShaderSource ;;
  call (glAttachShader programObject myVertexShader) ;;
  call (glAttachShader programObject myFragmentShader) ;;
  call (glLinkProgram programObject) ;;
  call (glValidateProgram programObject) ;;
  call (glDetachShader programObject myVertexShader) ;;
  call (glDetachShader programObject myFragmentShader) ;;
  call (glDeleteShader myVertexShader) ;;
  call (glDeleteShader myFragmentShader) ;;
  ret programObject.

(** [CreateGraphicsPipeline] *)
Definition CreateGraphicsPipeline : M unit :=
  vertexShaderSource <- LoadShaderAsString "./shaders/vert.glsl" ;;
  fragmentShaderSource <- LoadShaderAsString "./shaders/frag.glsl" ;;
  program <- CreateShaderProgram vertexShaderSource fragmentShaderSource ;;
  modify (set_gGraphicsPipelineShaderProgram program).

(** The two constant vectors of [VertexSpecification]. *)
Definition vertexData : list GLfloat :=
  [ (* 0 - Vertex *)
    -0.5; -0.5; 0.0;
     1.0;  0.0; 0.0;
    (* 1 - Vertex *)
     0.5; -0.5; 0.0;
     0.0;  1.0; 0.0;
    (* 2 - Vertex *)
    -0.5;  0.5; 0.0;
     0.0;  0.0; 1.0;
    (* 3 - Vertex *)
     0.5;  0.5; 0.0;
     0.0;  1.0; 0.0 ]%Q.

Definition indexBufferData : list GLuint := [2; 0; 1; 3; 2; 1].

(** [VertexSpecification] *)
Definition VertexSpecification : M unit :=
  call (glGenVertexArrays 1) ;;
  modify (set_gVertexArrayObject (env_glGenVertexArrays env)) ;;
  vao <- get gVertexArrayObject ;;
  call (glBindVertexArray vao) ;;
  call (glGenBuffers 1) ;;
  n <- get buffers_generated ;;
  modify (fun s => next_buffer (set_gVertexBufferObject (env_glGenBuffers env n) s)) ;;
  vbo <- get gVertexBufferObject ;;
  call (glBindBuffer GL_ARRAY_BUFFER vbo) ;;
  call (glBufferData_GLfloat GL_ARRAY_BUFFER
          (Z.of_nat (List.length vertexData) * sizeof_GLfloat)
          vertexData GL_STATIC_DRAW) ;;
  call (glGenBuffers 1) ;;
  n <- get buffers_generated ;;
  modify (fun s => next_buffer (set_gIndexBufferObject (env_glGenBuffers env n) s)) ;;
  ibo <- get gIndexBufferObject ;;
  call (glBindBuffer GL_ELEMENT_ARRAY_BUFFER ibo) ;;
  call (glBufferData_GLuint GL_ELEMENT_ARRAY_BUFFER
          (Z.of_nat (List.length indexBufferData) * sizeof_GLuint)
          indexBufferData GL_STATIC_DRAW) ;;
  call (glEnableVertexAttribArray 0) ;;
  call (glVertexAttribPointer 0 3 GL_FLOAT GL_FALSE (sizeof_GLfloat * 6) 0) ;;
  call (glEnableVertexAttribArray 1) ;;
  call (glVertexAttribPointer 1 3 GL_FLOAT GL_FALSE (sizeof_GLfloat * 6)
          (sizeof_GLfloat * 3)) ;;
  call (glBindVertexArray 0) ;;
  call (glDisableVertexAttribArray 0) ;;
  call (glDisableVertexAttribArray 1).

(** [InitializeProgram] *)
Definition InitializeProgram : M unit :=
  call (SDL_Init SDL_INIT_VIDEO) ;;
  when (env_SDL_Init env <? 0)
    (call (cout "SDL2 could not initialize video subsystem") ;;
     call (cout endl) ;;
     exit 1) ;;
  call (SDL_GL_SetAttribute SDL_GL_CONTEXT_MAJOR_VERSION 4) ;;
  call (SDL_GL_SetAttribute SDL_GL_CONTEXT_MINOR_VERSION 1) ;;
  call (SDL_GL_SetAttribute SDL_GL_CONTEXT_PROFILE_MASK SDL_GL_CONTEXT_PROFILE_CORE) ;;
  call (SDL_GL_SetAttribute SDL_GL_DOUBLEBUFFER 1) ;;
  call (SDL_GL_SetAttribute SDL_GL_DEPTH_SIZE 2) ;;
  width <- get gScreenWidth ;;
  height <- get gScreenHeight ;;
  call (SDL_CreateWindow "OpenGL Window" 0 0 width height SDL_WINDOW_OPENGL) ;;
  modify (set_gGraphicsApplicationWindow (env_SDL_CreateWindow env)) ;;
  window <- get gGraphicsApplicationWindow ;;
  when (window =? nullptr)
    (call (cout "SDL Window was not able to be created") ;;
     call (cout endl) ;;
     exit 1) ;;
  window <- get gGraphicsApplicationWindow ;;
  call (SDL_GL_CreateContext window) ;;
  modify (set_gOpenGLContext (env_SDL_GL_CreateContext env)) ;;
  context <- get gOpenGLContext ;;
  when (context =? nullptr)
    (call (cout "OpenGL context could not be created") ;;
     call (cout endl) ;;
     exit 1) ;;
  call gladLoadGLLoader ;;
  when (env_gladLoadGLLoader env =? 0)
    (call (cout "glad was not initialized") ;;
     call (cout endl) ;;
     exit 1) ;;
  GetOpenGLVersionInfo.

(** The loop of [Input], over the events that are pending. *)
Fixpoint Input_loop (pending : list SDL_Event) : M unit :=
  match pending with
  | [] => call (SDL_PollEvent None)
  | e :: rest =>
      call (SDL_PollEvent (Some e)) ;;
      when (type e =? SDL_QUIT)
        (call (cout "Goodbye!") ;;
         call (cout endl) ;;
         modify (set_gQuit true)) ;;
      Input_loop rest
  end.

(** [Input] *)
Definition Input : M unit :=
  n <- get inputs_done ;;
  modify next_input ;;
  Input_loop (env_events env n).

(** [PreDraw] *)
Definition PreDraw : M unit :=
  call (glDisable GL_DEPTH_TEST) ;;
  call (glDisable GL_CULL_FACE) ;;
  width <- get gScreenWidth ;;
  height <- get gScreenHeight ;;
  call (glViewport 0 0 width height) ;;
  call (glClearColor 0.03%Q 0.05%Q 0.27%Q 1.0%Q) ;;
  call (glClear (Z.lor GL_DEPTH_BUFFER_BIT GL_COLOR_BUFFER_BIT)) ;;
  program <- get gGraphicsPipelineShaderProgram ;;
  call (glUseProgram program).

(** [Draw] *)
Definition Draw : M unit :=
  vao <- get gVertexArrayObject ;;
  call (glBindVertexArray vao) ;;
  vbo <- get gVertexBufferObject ;;
  call (glBindBuffer GL_ARRAY_BUFFER vbo) ;;
  call (glDrawElements GL_TRIANGLES 6 GL_UNSIGNED_INT 0) ;;
  call (glUseProgram 0).

(** The body of the loop of [MainLoop]. *)
Definition MainLoop_body : M unit :=
  Input ;;
  PreDraw ;;
  Draw ;;
  window <- get gGraphicsApplicationWindow ;;
  call (SDL_GL_SwapWindow window).

(** [MainLoop]: [while (!gQuit) { ... }], at most [fuel] iterations. *)
Fixpoint MainLoop (fuel : nat) : M unit :=
  quit <- get gQuit ;;
  if negb quit then
    match fuel with
    | O => out_of_fuel
    | S fuel' => MainLoop_body ;; MainLoop fuel'
    end
  else ret tt.

(** [CleanUp] *)
Definition CleanUp : M unit :=
  window <- get gGraphicsApplicationWindow ;;
  call (SDL_DestroyWindow window) ;;
  call SDL_Quit.

(** [main]; the value is the status [main] returns. *)
Definition main (fuel : nat) : M Z :=
  InitializeProgram ;;
  VertexSpecification ;;
  CreateGraphicsPipeline ;;
  MainLoop fuel ;;
  CleanUp ;;
  ret 0.

End Program.

(** * Definitions for the statements *)

(** ** Counting calls in a trace *)

Definition count_calls (p : Call -> bool) (t : list Call) : nat :=
  List.length (filter p t).

Definition is_glBufferData (c : Call) : bool :=
  match c with
  | glBufferData_GLfloat _ _ _ _ | glBufferData_GLuint _ _ _ _ => true
  | _ => false
  end.
Definition is_glDrawElements (c : Call) : bool :=
  match c with glDrawElements _ _ _ _ => true | _ => false end.
Definition is_glCompileShader (c : Call) : bool :=
  match c with glCompileShader _ => true | _ => false end.
Definition is_glLinkProgram (c : Call) : bool :=
  match c with glLinkProgram _ => true | _ => false end.
Definition is_SDL_PollEvent (c : Call) : bool :=
  match c with SDL_PollEvent _ => true | _ => false end.
Definition is_SDL_GL_SwapWindow (c : Call) : bool :=
  match c with SDL_GL_SwapWindow _ => true | _ => false end.

(** ** Lines of a text *)

(** The lines of a text, as the words of the specification have them: the
    text is cut at its newline characters, and a newline at the very end
    closes the last line without opening another one. *)
Fixpoint file_lines (text : string) : list string :=
  match text with
  | EmptyString => []
  | String c rest =>
      if Ascii.eqb c "010"%char then EmptyString :: file_lines rest
      else match file_lines rest with
           | [] => [String c EmptyString]
           | l :: ls => String c l :: ls
           end
  end.

(** Every line followed by one newline, all concatenated. *)
Definition join_lines (lines : list string) : string :=
  String.concat EmptyString (map (fun l => l ++ newline)%string lines).

Definition shader_source (env : Env) (filename : string) : string :=
  match env_file env filename with
  | Some text => join_lines (file_lines text)
  | None => EmptyString
  end.

(** The calls of one [CompileShader] with [GL_VERTEX_SHADER] or
    [GL_FRAGMENT_SHADER], as far as it gets: the four that are always made,
    and those of the branch taken when the compile status is [GL_FALSE]. *)
Definition compile_calls (env : Env) (ty : GLenum) (message : string)
  (source : string) : list Call :=
  let shader := env_glCreateShader env ty in
  [glCreateShader ty; glShaderSource shader 1 (c_str source);
   glCompileShader shader; glGetShaderiv shader GL_COMPILE_STATUS] ++
  match env_compile_status env shader (c_str source) with
  | None => []
  | Some result =>
      if result =? GL_FALSE then
        glGetShaderiv shader GL_INFO_LOG_LENGTH ::
        match env_info_log_length env shader (c_str source) with
        | None => []
        | Some length =>
            if length <? 0 then []
            else
              [glGetShaderInfoLog shader length; cout message;
               cout (buffer_text (env_new_char env shader length) length
                       (env_info_log env shader (c_str source)));
               cout newline; glDeleteShader shader]
        end
      else []
  end.

(** Why that call of [CompileShader] stops, if it does: the compile status
    was not written; or the shader did not compile and the length of the log
    was not written, or is negative. *)
Definition compile_stop (env : Env) (ty : GLenum) (source : string)
  : option Stop :=
  let shader := env_glCreateShader env ty in
  match env_compile_status env shader (c_str source) with
  | None => Some (UninitRead "result")
  | Some result =>
      if result =? GL_FALSE then
        match env_info_log_length env shader (c_str source) with
        | None => Some (UninitRead "length")
        | Some length => if length <? 0 then Some Aborted else None
        end
      else None
  end.

(** What it returns when it does not stop. *)
Definition compile_value (env : Env) (ty : GLenum) (source : string) : GLuint :=
  let shader := env_glCreateShader env ty in
  match env_compile_status env shader (c_str source) with
  | Some result => if result =? GL_FALSE then 0 else shader
  | None => shader
  end.

Definition vertex_message : string :=
  ("ERROR: GL_VERTEX_SHADER compilation failed!" ++ newline)%string.
Definition fragment_message : string :=
  ("ERROR: GL_FRAGMENT_SHADER compilation failed!" ++ newline)%string.

Definition link_calls (program vs fs : GLuint) : list Call :=
  [glAttachShader program vs; glAttachShader program fs;
   glLinkProgram program; glValidateProgram program;
   glDetachShader program vs; glDetachShader program fs;
   glDeleteShader vs; glDeleteShader fs].

(** Why [CreateShaderProgram] stops, if it does, and its calls as far as it
    gets. *)
Definition program_stop (env : Env) (vsrc fsrc : string) : option Stop :=
  match compile_stop env GL_VERTEX_SHADER vsrc with
  | Some why => Some why
  | None => compile_stop env GL_FRAGMENT_SHADER fsrc
  end.

Definition program_calls (env : Env) (vsrc fsrc : string) : list Call :=
  glCreateProgram ::
  compile_calls env GL_VERTEX_SHADER vertex_message vsrc ++
  match compile_stop env GL_VERTEX_SHADER vsrc with
  | Some _ => []
  | None =>
      compile_calls env GL_FRAGMENT_SHADER fragment_message fsrc ++
      match compile_stop env GL_FRAGMENT_SHADER fsrc with
      | Some _ => []
      | None =>
          link_calls (env_glCreateProgram env)
            (compile_value env GL_VERTEX_SHADER vsrc)
            (compile_value env GL_FRAGMENT_SHADER fsrc)
      end
  end.

Definition vert_path : string := "./shaders/vert.glsl".
Definition frag_path : string := "./shaders/frag.glsl".

Definition pipeline_stop (env : Env) : option Stop :=
  program_stop env (shader_source env vert_path) (shader_source env frag_path).

(** [CreateGraphicsPipeline] runs to its end. *)
Definition pipeline_ok (env : Env) : bool :=
  match pipeline_stop env with
  | None => true
  | Some _ => false
  end.

Definition pipeline_calls (env : Env) : list Call :=
  [ifstream_open vert_path; ifstream_open frag_path] ++
  program_calls env (shader_source env vert_path) (shader_source env frag_path).

Definition upload_calls (env : Env) (s : State) : list Call :=
  [glGenVertexArrays 1;
   glBindVertexArray (env_glGenVertexArrays env);
   glGenBuffers 1;
   glBindBuffer GL_ARRAY_BUFFER (env_glGenBuffers env (buffers_generated s));
   glBufferData_GLfloat GL_ARRAY_BUFFER 96 vertexData GL_STATIC_DRAW;
   glGenBuffers 1;
   glBindBuffer GL_ELEMENT_ARRAY_BUFFER (env_glGenBuffers env (S (buffers_generated s)));
   glBufferData_GLuint GL_ELEMENT_ARRAY_BUFFER 24 indexBufferData GL_STATIC_DRAW;
   glEnableVertexAttribArray 0;
   glVertexAttribPointer 0 3 GL_FLOAT GL_FALSE 24 0;
   glEnableVertexAttribArray 1;
   glVertexAttribPointer 1 3 GL_FLOAT GL_FALSE 24 12;
   glBindVertexArray 0;
   glDisableVertexAttribArray 0;
   glDisableVertexAttribArray 1].

Definition upload_state (env : Env) (s : State) : State :=
  mkState (gScreenWidth s) (gScreenHeight s) (gGraphicsApplicationWindow s)
    (gOpenGLContext s) (gQuit s) (gGraphicsPipelineShaderProgram s)
    (env_glGenVertexArrays env)
    (env_glGenBuffers env (buffers_generated s))
    (env_glGenBuffers env (S (buffers_generated s)))
    (inputs_done s) (S (S (buffers_generated s))).

Definition teardown_calls (s : State) : list Call :=
  [SDL_DestroyWindow (gGraphicsApplicationWindow s); SDL_Quit].

Definition attribute_calls : list Call :=
  [SDL_GL_SetAttribute SDL_GL_CONTEXT_MAJOR_VERSION 4;
   SDL_GL_SetAttribute SDL_GL_CONTEXT_MINOR_VERSION 1;
   SDL_GL_SetAttribute SDL_GL_CONTEXT_PROFILE_MASK SDL_GL_CONTEXT_PROFILE_CORE;
   SDL_GL_SetAttribute SDL_GL_DOUBLEBUFFER 1;
   SDL_GL_SetAttribute SDL_GL_DEPTH_SIZE 2].

Definition version_calls (env : Env) : list Call :=
  [cout "Vendor: "; glGetString GL_VENDOR;
   cout (env_glGetString env GL_VENDOR); cout endl;
   cout "Renderer: "; glGetString GL_RENDERER;
   cout (env_glGetString env GL_RENDERER); cout endl;
   cout "Version: "; glGetString GL_VERSION;
   cout (env_glGetString env GL_VERSION); cout endl;
   cout "Shading Language: "; glGetString GL_SHADING_LANGUAGE_VERSION;
   cout (env_glGetString env GL_SHADING_LANGUAGE_VERSION); cout endl].

Definition create_window_call (s : State) : Call :=
  SDL_CreateWindow "OpenGL Window" 0 0 (gScreenWidth s) (gScreenHeight s)
    SDL_WINDOW_OPENGL.

(** The four checks of [InitializeProgram], all passed. *)
Definition init_ok (env : Env) : bool :=
  negb (env_SDL_Init env <? 0) &&
  negb (env_SDL_CreateWindow env =? nullptr) &&
  negb (env_SDL_GL_CreateContext env =? nullptr) &&
  negb (env_gladLoadGLLoader env =? 0).

(** The calls of [InitializeProgram], up to the first check that fails. *)
Definition init_calls (env : Env) (s : State) : list Call :=
  SDL_Init SDL_INIT_VIDEO ::
  if env_SDL_Init env <? 0 then
    [cout "SDL2 could not initialize video subsystem"; cout endl]
  else
    attribute_calls ++ create_window_call s ::
    if env_SDL_CreateWindow env =? nullptr then
      [cout "SDL Window was not able to be created"; cout endl]
    else
      SDL_GL_CreateContext (env_SDL_CreateWindow env) ::
      if env_SDL_GL_CreateContext env =? nullptr then
        [cout "OpenGL context could not be created"; cout endl]
      else
        gladLoadGLLoader ::
        if env_gladLoadGLLoader env =? 0 then
          [cout "glad was not initialized"; cout endl]
        else version_calls env.

Definition init_state (env : Env) (s : State) : State :=
  set_gOpenGLContext (env_SDL_GL_CreateContext env)
    (set_gGraphicsApplicationWindow (env_SDL_CreateWindow env) s).

Definition is_quit (e : SDL_Event) : bool := type e =? SDL_QUIT.

(** A quit event is among those delivered to the n-th call of [Input]. *)
Definition quit_pending (env : Env) (n : nat) : bool :=
  existsb is_quit (env_events env n).

(** The calls of [Input] for a queue of pending events: every event is
    polled, a quit event is answered by the farewell, and the last poll
    finds the queue empty. *)
Definition Input_calls (pending : list SDL_Event) : list Call :=
  flat_map (fun e => SDL_PollEvent (Some e) ::
                     if is_quit e then [cout "Goodbye!"; cout endl] else [])
           pending
  ++ [SDL_PollEvent None].

Definition PreDraw_calls (s : State) : list Call :=
  [glDisable GL_DEPTH_TEST;
   glDisable GL_CULL_FACE;
   glViewport 0 0 (gScreenWidth s) (gScreenHeight s);
   glClearColor 0.03%Q 0.05%Q 0.27%Q 1.0%Q;
   glClear (Z.lor GL_DEPTH_BUFFER_BIT GL_COLOR_BUFFER_BIT);
   glUseProgram (gGraphicsPipelineShaderProgram s)].

Definition Draw_calls (s : State) : list Call :=
  [glBindVertexArray (gVertexArrayObject s);
   glBindBuffer GL_ARRAY_BUFFER (gVertexBufferObject s);
   glDrawElements GL_TRIANGLES 6 GL_UNSIGNED_INT 0;
   glUseProgram 0].

(** What a frame does after [Input]. *)
Definition render_calls (s : State) : list Call :=
  PreDraw_calls s ++ Draw_calls s ++
  [SDL_GL_SwapWindow (gGraphicsApplicationWindow s)].

(** The state with the two fields the loop changes replaced. *)
Definition set_loop (quit : bool) (n : nat) (s : State) : State :=
  mkState (gScreenWidth s) (gScreenHeight s) (gGraphicsApplicationWindow s)
    (gOpenGLContext s) quit (gGraphicsPipelineShaderProgram s)
    (gVertexArrayObject s) (gVertexBufferObject s) (gIndexBufferObject s)
    n (buffers_generated s).

(** The calls of [count] consecutive frames, the first of which sees the
    events of the n-th [Input]. *)
Definition frames_calls (env : Env) (render : list Call) (n count : nat)
  : list Call :=
  flat_map (fun i => Input_calls (env_events env i) ++ render) (seq n count).

(** The state in which the loop is entered, and the calls made until then. *)
Definition ready_state (env : Env) (s : State) : State :=
  set_gGraphicsPipelineShaderProgram (env_glCreateProgram env)
    (upload_state env (init_state env s)).

Definition startup_calls (env : Env) (s : State) : list Call :=
  init_calls env s ++ upload_calls env (init_state env s) ++ pipeline_calls env.

(** [GL_TRIANGLES] assembles one triangle from every three indices. *)
Fixpoint triangles (indices : list GLuint) : list (GLuint * GLuint * GLuint) :=
  match indices with
  | a :: b :: c :: rest => (a, b, c) :: triangles rest
  | _ => []
  end.

Definition is_glVertexAttribPointer (c : Call) : bool :=
  match c with glVertexAttribPointer _ _ _ _ _ _ => true | _ => false end.

Definition vertex_upload : Call :=
  glBufferData_GLfloat GL_ARRAY_BUFFER (4 * 6 * sizeof_GLfloat) vertexData
    GL_STATIC_DRAW.
Definition index_upload : Call :=
  glBufferData_GLuint GL_ELEMENT_ARRAY_BUFFER (6 * sizeof_GLuint)
    indexBufferData GL_STATIC_DRAW.
Definition quad_draw : Call := glDrawElements GL_TRIANGLES 6 GL_UNSIGNED_INT 0.

(** What OpenGL reads for a vertex through an attribute pointer into a buffer
    of floats: [size] floats, [offset] bytes into the record of the vertex,
    the records being [stride] bytes apart. *)
Definition fetch (pointer : Call) (data : list GLfloat) (vertex : GLuint)
  : list GLfloat :=
  match pointer with
  | glVertexAttribPointer _ size _ _ stride offset =>
      firstn (Z.to_nat size)
        (skipn (Z.to_nat ((vertex * stride + offset) / sizeof_GLfloat)) data)
  | _ => []
  end.

Definition position_pointer : Call :=
  glVertexAttribPointer 0 3 GL_FLOAT GL_FALSE (6 * sizeof_GLfloat) 0.
Definition colour_pointer : Call :=
  glVertexAttribPointer 1 3 GL_FLOAT GL_FALSE (6 * sizeof_GLfloat)
    (3 * sizeof_GLfloat).

(** Twice the signed area of the triangle with corners [a], [b], [c] in the
    plane of the first two coordinates: positive when they turn counter
    clockwise, zero when they are on one line. *)
Definition doubled_area (a b c : list GLfloat) : Q :=
  match a, b, c with
  | ax :: ay :: _, bx :: by' :: _, cx :: cy :: _ =>
      ((bx - ax) * (cy - ay) - (by' - ay) * (cx - ax))%Q
  | _, _, _ => 0%Q
  end.

(** The same for a triangle of indices into the vertex buffer. *)
Definition triangle_area (t : GLuint * GLuint * GLuint) : Q :=
  let '(i, j, k) := t in
  doubled_area (fetch position_pointer vertexData i)
    (fetch position_pointer vertexData j)
    (fetch position_pointer vertexData k).

(** The edges of a triangle of indices, each with the smaller index first. *)
Definition edges (t : GLuint * GLuint * GLuint) : list (GLuint * GLuint) :=
  let '(i, j, k) := t in
  map (fun e : GLuint * GLuint =>
         let (a, b) := e in if a <? b then (a, b) else (b, a))
      [(i, j); (j, k); (k, i)].

Definition edge_eqb (e f : GLuint * GLuint) : bool :=
  (fst e =? fst f) && (snd e =? snd f).

(** ** Sample worlds, for running the program *)

(** A world in which the vertex shader file holds two lines, the second
    without a final newline, the fragment shader file cannot be opened, the
    fragment shader (object 1) does not compile, and the events of each frame
    are given. *)
Definition sample_world (init window context glad : Z)
  (events : nat -> list SDL_Event) : Env :=
  {| env_SDL_Init := init;
     env_SDL_CreateWindow := window;
     env_SDL_GL_CreateContext := context;
     env_gladLoadGLLoader := glad;
     env_glGetString := fun _ => "?"%string;
     env_glGenVertexArrays := 1;
     env_glGenBuffers := fun n => Z.of_nat (S n);
     env_file := fun f =>
       if String.eqb f "./shaders/vert.glsl"
       then Some ("#version 410 core" ++ newline ++ "void main() {}")%string
       else None;
     env_glCreateProgram := 3;
     env_glCreateShader := fun ty => if ty =? GL_VERTEX_SHADER then 2 else 1;
     env_compile_status := fun shader _ => Some (if shader =? 1 then 0 else 1);
     env_info_log_length := fun _ _ => Some 6;
     env_info_log := fun _ _ => Some "empty"%string;
     env_new_char := fun _ _ => "#$%"%string;
     env_events := events |}.

(** A key press in the second frame, the quit event in the third. *)
Definition quit_in_third_frame (n : nat) : list SDL_Event :=
  match n with
  | 1%nat => [mkEvent 0x300]
  | 2%nat => [mkEvent SDL_QUIT]
  | _ => []
  end.

Definition quit_at_once (n : nat) : list SDL_Event :=
  match n with
  | 0%nat => [mkEvent SDL_QUIT]
  | _ => []
  end.

Definition good_world : Env := sample_world 0 0x1000 0x2000 1 quit_in_third_frame.
Definition no_video_world : Env := sample_world (-1) 0x1000 0x2000 1 quit_in_third_frame.
Definition no_window_world : Env := sample_world 0 nullptr 0x2000 1 quit_in_third_frame.
Definition no_context_world : Env := sample_world 0 0x1000 nullptr 1 quit_in_third_frame.
Definition no_glad_world : Env := sample_world 0 0x1000 0x2000 0 quit_in_third_frame.
Definition impatient_world : Env := sample_world 0 0x1000 0x2000 1 quit_at_once.

(** A world with another OpenGL shader compiler. *)
Definition with_compiler (env : Env) (create : GLenum -> GLuint)
  (status length : GLuint -> string -> option GLint)
  (log : GLuint -> string -> option string) : Env :=
  {| env_SDL_Init := env_SDL_Init env;
     env_SDL_CreateWindow := env_SDL_CreateWindow env;
     env_SDL_GL_CreateContext := env_SDL_GL_CreateContext env;
     env_gladLoadGLLoader := env_gladLoadGLLoader env;
     env_glGetString := env_glGetString env;
     env_glGenVertexArrays := env_glGenVertexArrays env;
     env_glGenBuffers := env_glGenBuffers env;
     env_file := env_file env;
     env_glCreateProgram := env_glCreateProgram env;
     env_glCreateShader := create;
     env_compile_status := status;
     env_info_log_length := length;
     env_info_log := log;
     env_new_char := env_new_char env;
     env_events := env_events env |}.

(** The good world, but [glCreateShader] fails: it returns 0, which names no
    shader object, so that [glGetShaderiv] writes nothing. *)
Definition no_shader_world : Env :=
  with_compiler good_world (fun _ => 0) (fun _ _ => None) (fun _ _ => None)
    (fun _ _ => None).

(** The good world, but the length of the info log is reported as -1. *)
Definition negative_length_world : Env :=
  with_compiler good_world (env_glCreateShader good_world)
    (env_compile_status good_world) (fun _ _ => Some (-1))
    (env_info_log good_world).

(** The good world, but the info log is empty and its length reported as 0. *)
Definition empty_log_world : Env :=
  with_compiler good_world (env_glCreateShader good_world)
    (env_compile_status good_world) (fun _ _ => Some 0)
    (fun _ _ => Some EmptyString).

Fixpoint ends_with_newline (text : string) : bool :=
  match text with
  | EmptyString => false
  | String c EmptyString => Ascii.eqb c "010"%char
  | String _ rest => ends_with_newline rest
  end.



(** The quit flag in the state a computation ends in, if it ends normally. *)
Definition final_quit {A} (x : list Call * Result A) : option bool :=
  match result_of x with
  | Normal _ s' => Some (gQuit s')
  | _ => None
  end.

Inductive Phase : Type :=
| Initialization | BufferUpload | ShaderBuild | RenderLoop | Teardown.

Definition Phase_eqb (p q : Phase) : bool :=
  match p, q with
  | Initialization, Initialization | BufferUpload, BufferUpload
  | ShaderBuild, ShaderBuild | RenderLoop, RenderLoop
  | Teardown, Teardown => true
  | _, _ => false
  end.

(** The phase a call belongs to: the one function of main.cpp, among
    [InitializeProgram], [VertexSpecification], [CreateGraphicsPipeline],
    [MainLoop] and [CleanUp], from which the call is made.  [cout],
    [glBindVertexArray] and [glBindBuffer] are called from several of them
    and tell nothing. *)
Definition phase_of (c : Call) : option Phase :=
  match c with
  | SDL_Init _ | SDL_GL_SetAttribute _ _ | SDL_CreateWindow _ _ _ _ _ _
  | SDL_GL_CreateContext _ | gladLoadGLLoader | glGetString _ =>
      Some Initialization
  | glGenVertexArrays _ | glGenBuffers _
  | glBufferData_GLfloat _ _ _ _ | glBufferData_GLuint _ _ _ _
  | glEnableVertexAttribArray _ | glVertexAttribPointer _ _ _ _ _ _
  | glDisableVertexAttribArray _ =>
      Some BufferUpload
  | ifstream_open _ | glCreateProgram | glCreateShader _
  | glShaderSource _ _ _ | glCompileShader _ | glGetShaderiv _ _
  | glGetShaderInfoLog _ _ | glDeleteShader _ | glAttachShader _ _
  | glLinkProgram _ | glValidateProgram _ | glDetachShader _ _ =>
      Some ShaderBuild
  | SDL_PollEvent _ | glDisable _ | glViewport _ _ _ _
  | glClearColor _ _ _ _ | glClear _ | glUseProgram _
  | glDrawElements _ _ _ _ | SDL_GL_SwapWindow _ =>
      Some RenderLoop
  | SDL_DestroyWindow _ | SDL_Quit =>
      Some Teardown
  | cout _ | glBindVertexArray _ | glBindBuffer _ _ => None
  end.

Definition marks (t : list Call) : list Phase :=
  flat_map (fun c => match phase_of c with Some p => [p] | None => [] end) t.

(** A run of equal phases counts once. *)
Fixpoint compress_from (last : option Phase) (l : list Phase) : list Phase :=
  match l with
  | [] => []
  | p :: rest =>
      if match last with Some q => Phase_eqb q p | None => false end
      then compress_from last rest
      else p :: compress_from (Some p) rest
  end.

(** The phases a trace goes through, in order; a phase that is left and
    entered again appears again. *)
Definition phases (t : list Call) : list Phase := compress_from None (marks t).

(** The body of the loop, [k] times over. *)
Fixpoint iterate_body (env : Env) (k : nat) : M unit :=
  match k with
  | O => ret tt
  | S k' => MainLoop_body env ;; iterate_body env k'
  end.


(** * The rest of main.cpp, and definitions for more statements *)

(** ** The error routines

    [GLClearAllErrors] and [GLCheckErrorStatus] are called from nowhere, and
    are modelled on their own: [glGetError] is the sequence of its answers,
    and the state is the number of answers asked for so far. *)
Definition GL_NO_ERROR : GLenum := 0.

(** The tabulator, and [operator<<] applied to an integer. *)
Definition tab : string := String "009"%char EmptyString.
Definition decimal (z : Z) : string := NilZero.string_of_int (Z.to_int z).

(** [GLClearAllErrors]: [while (glGetError() != GL_NO_ERROR) {}], at most
    [fuel] calls of [glGetError]. *)
Fixpoint GLClearAllErrors (glGetError : nat -> GLenum) (fuel asked : nat)
  : option nat :=
  match fuel with
  | O => None
  | S fuel' =>
      if negb (glGetError asked =? GL_NO_ERROR)
      then GLClearAllErrors glGetError fuel' (S asked)
      else Some (S asked)
  end.

(** [GLCheckErrorStatus]: the body of its [while] returns, so the condition
    is evaluated once.  The value is what was printed, the result, and the
    number of answers asked for. *)
Definition GLCheckErrorStatus (glGetError : nat -> GLenum)
  (function : string) (line : Z) (asked : nat) : list Call * bool * nat :=
  let error := glGetError asked in
  if negb (error =? 0) then
    ([cout "OpenGL Error:"; cout (decimal error);
      cout (tab ++ "Line: "); cout (decimal line);
      cout (tab ++ "function: "); cout function; cout endl],
     true, S asked)
  else ([], false, S asked).

(** ** Recognizers *)

Definition is_goodbye (c : Call) : bool :=
  match c with cout text => String.eqb text "Goodbye!" | _ => false end.
Definition is_cout (c : Call) : bool :=
  match c with cout _ => true | _ => false end.
Definition is_glViewport (c : Call) : bool :=
  match c with glViewport _ _ _ _ => true | _ => false end.
Definition is_SDL_CreateWindow (c : Call) : bool :=
  match c with SDL_CreateWindow _ _ _ _ _ _ => true | _ => false end.
Definition is_glShaderSource (c : Call) : bool :=
  match c with glShaderSource _ _ _ => true | _ => false end.
Definition is_vertex_attribute (c : Call) : bool :=
  match c with
  | glEnableVertexAttribArray _ | glVertexAttribPointer _ _ _ _ _ _ => true
  | _ => false
  end.
Definition is_glDisableVertexAttribArray (c : Call) : bool :=
  match c with glDisableVertexAttribArray _ => true | _ => false end.

(** The calls into OpenGL, which need the function pointers that
    [gladLoadGLLoader] loads. *)
Definition is_gl_call (c : Call) : bool :=
  match c with
  | SDL_Init _ | SDL_GL_SetAttribute _ _ | SDL_CreateWindow _ _ _ _ _ _
  | SDL_GL_CreateContext _ | gladLoadGLLoader | SDL_PollEvent _
  | SDL_GL_SwapWindow _ | SDL_DestroyWindow _ | SDL_Quit
  | cout _ | ifstream_open _ => false
  | _ => true
  end.

(** The window a call is given, and whether it is the window that
    [SDL_CreateWindow] returned, and not null. *)
Definition window_argument (c : Call) : option pointer :=
  match c with
  | SDL_GL_CreateContext w | SDL_GL_SwapWindow w | SDL_DestroyWindow w => Some w
  | _ => None
  end.

Definition window_ok (env : Env) (c : Call) : bool :=
  match window_argument c with
  | Some w => (w =? env_SDL_CreateWindow env) && negb (w =? nullptr)
  | None => true
  end.

(** ** What is bound when a call is made

    The object most recently given to [glBindVertexArray], to [glBindBuffer]
    for each of the two targets the program uses, and to [glUseProgram]. *)
Record Bindings : Type := mkBindings {
  vertex_array : option GLuint;
  array_buffer : option GLuint;
  element_array_buffer : option GLuint;
  program_in_use : option GLuint
}.

Definition no_bindings : Bindings := mkBindings None None None None.

Definition bind_step (b : Bindings) (c : Call) : Bindings :=
  match c with
  | glBindVertexArray array =>
      mkBindings (Some array) (array_buffer b) (element_array_buffer b)
        (program_in_use b)
  | glBindBuffer target buffer =>
      if target =? GL_ARRAY_BUFFER then
        mkBindings (vertex_array b) (Some buffer) (element_array_buffer b)
          (program_in_use b)
      else if target =? GL_ELEMENT_ARRAY_BUFFER then
        mkBindings (vertex_array b) (array_buffer b) (Some buffer)
          (program_in_use b)
      else b
  | glUseProgram program =>
      mkBindings (vertex_array b) (array_buffer b) (element_array_buffer b)
        (Some program)
  | _ => b
  end.

Definition bindings_after (t : list Call) (b : Bindings) : Bindings :=
  fold_left bind_step t b.

(** The bindings in force at each call of a trace that [p] selects. *)
Fixpoint bindings_at (p : Call -> bool) (t : list Call) (b : Bindings)
  : list Bindings :=
  match t with
  | [] => []
  | c :: t' => (if p c then [b] else []) ++ bindings_at p t' (bind_step b c)
  end.

(** ** Shader objects *)

(** The call names the shader object [shader]. *)
Definition mentions_shader (shader : GLuint) (c : Call) : bool :=
  match c with
  | glShaderSource x _ _ | glCompileShader x | glGetShaderiv x _
  | glGetShaderInfoLog x _ | glDeleteShader x
  | glAttachShader _ x | glDetachShader _ x => x =? shader
  | _ => false
  end.

Definition is_delete_of (shader : GLuint) (c : Call) : bool :=
  match c with glDeleteShader x => x =? shader | _ => false end.

Definition is_attach (c : Call) : bool :=
  match c with glAttachShader _ _ => true | _ => false end.
Definition is_detach (c : Call) : bool :=
  match c with glDetachShader _ _ => true | _ => false end.

(** The last call of a trace that [p] selects. *)
Definition last_call (p : Call -> bool) (t : list Call) : option Call :=
  hd_error (rev (filter p t)).

(** ** Texts with a NUL character *)

Fixpoint has_NUL (text : string) : bool :=
  match text with
  | EmptyString => false
  | String c rest => Ascii.eqb c "000"%char || has_NUL rest
  end.

(** ** More sample worlds *)

(** Two quit events, with a key press between them, in the first frame. *)
Definition quit_twice (n : nat) : list SDL_Event :=
  match n with
  | 0%nat => [mkEvent SDL_QUIT; mkEvent 0x300; mkEvent SDL_QUIT]
  | _ => []
  end.

Definition insistent_world : Env := sample_world 0 0x1000 0x2000 1 quit_twice.

(** A world without shader files, in which the vertex shader (object 2)
    compiles and the fragment shader (object 1) does not. *)
Definition no_files_world : Env :=
  {| env_SDL_Init := 0;
     env_SDL_CreateWindow := 0x1000;
     env_SDL_GL_CreateContext := 0x2000;
     env_gladLoadGLLoader := 1;
     env_glGetString := fun _ => "?"%string;
     env_glGenVertexArrays := 1;
     env_glGenBuffers := fun n => Z.of_nat (S n);
     env_file := fun _ => None;
     env_glCreateProgram := 3;
     env_glCreateShader := fun ty => if ty =? GL_VERTEX_SHADER then 2 else 1;
     env_compile_status := fun shader _ => Some (if shader =? 1 then 0 else 1);
     env_info_log_length := fun _ _ => Some 10;
     env_info_log := fun _ _ => Some "no main()"%string;
     env_new_char := fun _ _ => "#$%"%string;
     env_events := quit_at_once |}.

(** Answers of [glGetError]: two errors, then none, then one more error. *)
Definition sample_errors (n : nat) : GLenum :=
  match n with
  | 0%nat => 0x0500
  | 1%nat => 0x0502
  | 3%nat => 0x0501
  | _ => GL_NO_ERROR
  end.

(** * Properties *)

(** ** How [bind] composes traces and results *)

Lemma bind_Normal {A B} (m : M A) (k : A -> M B) s t a s1 :
  m s = (t, Normal a s1) ->
  bind m k s = (t ++ trace_of (k a s1), result_of (k a s1)).
Proof.
  intros H. unfold bind, trace_of, result_of. rewrite H.
  destruct (k a s1); reflexivity.
Qed.

Lemma bind_Stopped {A B} (m : M A) (k : A -> M B) s t why :
  m s = (t, Stopped why) -> bind m k s = (t, Stopped why).
Proof. intros H. unfold bind. rewrite H. reflexivity. Qed.

Lemma pair_trace_result {A} (x : list Call * Result A) :
  x = (trace_of x, result_of x).
Proof. destruct x; reflexivity. Qed.

(** ** Counting calls, joining lines *)

Lemma count_calls_app p t u :
  count_calls p (t ++ u) = (count_calls p t + count_calls p u)%nat.
Proof. unfold count_calls. rewrite filter_app, length_app. reflexivity. Qed.

Lemma append_nil_r (a : string) : (a ++ EmptyString)%string = a.
Proof. induction a; simpl; congruence. Qed.

Lemma append_assoc (a b c : string) :
  ((a ++ b) ++ c)%string = (a ++ (b ++ c))%string.
Proof. induction a; simpl; congruence. Qed.

Lemma join_lines_cons l ls :
  join_lines (l :: ls) = (l ++ newline ++ join_lines ls)%string.
Proof.
  unfold join_lines. simpl. destruct ls as [|l' ls]; simpl.
  - reflexivity.
  - rewrite append_assoc. reflexivity.
Qed.

(** One round of [std::getline] reads exactly the first line. *)
Lemma file_lines_take_line c rest :
  file_lines (String c rest) =
  fst (take_line (String c rest)) :: file_lines (snd (take_line (String c rest))).
Proof.
  revert c. induction rest as [|d rest IH]; intros c.
  - simpl. destruct (Ascii.eqb c "010"%char); reflexivity.
  - change (file_lines (String c (String d rest))) with
      (if Ascii.eqb c "010"%char then EmptyString :: file_lines (String d rest)
       else match file_lines (String d rest) with
            | [] => [String c EmptyString]
            | l :: ls => String c l :: ls
            end).
    change (take_line (String c (String d rest))) with
      (if Ascii.eqb c "010"%char then (EmptyString, String d rest)
       else let (line, rest') := take_line (String d rest) in (String c line, rest')).
    destruct (Ascii.eqb c "010"%char).
    + reflexivity.
    + rewrite (IH d). destruct (take_line (String d rest)) as [line rest'].
      reflexivity.
Qed.

Lemma read_lines_join (stream result : string) :
  read_lines stream result = (result ++ join_lines (file_lines stream))%string.
Proof.
  funelim (read_lines stream result).
  - simpl. rewrite append_nil_r. reflexivity.
  - match goal with
    | IH : read_lines _ _ = (_ ++ join_lines _)%string |- _ => rewrite IH
    end.
    rewrite file_lines_take_line, join_lines_cons.
    rewrite !append_assoc. reflexivity.
Qed.

Lemma LoadShaderAsString_spec env filename s :
  LoadShaderAsString env filename s =
  ([ifstream_open filename], Normal (shader_source env filename) s).
Proof.
  unfold LoadShaderAsString, shader_source.
  destruct (env_file env filename) as [text|]; [|reflexivity].
  change (join_lines (file_lines text))
    with (EmptyString ++ join_lines (file_lines text))%string.
  rewrite <- read_lines_join. reflexivity.
Qed.

(** ** The straight-line functions, call by call *)

Lemma CompileShader_vertex env source s :
  CompileShader env GL_VERTEX_SHADER source s =
  (compile_calls env GL_VERTEX_SHADER vertex_message source,
   match compile_stop env GL_VERTEX_SHADER source with
   | Some why => Stopped why
   | None => Normal (compile_value env GL_VERTEX_SHADER source) s
   end).
Proof.
  unfold CompileShader, compile_calls, compile_stop, compile_value, bind.
  change (GL_VERTEX_SHADER =? GL_VERTEX_SHADER) with true.
  cbn -[buffer_text c_str Z.eqb Z.ltb].
  destruct (env_compile_status env (env_glCreateShader env GL_VERTEX_SHADER)
              (c_str source)) as [result|]; [|reflexivity].
  cbn -[buffer_text c_str Z.eqb Z.ltb].
  destruct (result =? GL_FALSE); [|reflexivity].
  cbn -[buffer_text c_str Z.eqb Z.ltb].
  destruct (env_info_log_length env (env_glCreateShader env GL_VERTEX_SHADER)
              (c_str source)) as [len|]; [|reflexivity].
  cbn -[buffer_text c_str Z.eqb Z.ltb].
  destruct (len <? 0); reflexivity.
Qed.

Lemma CompileShader_fragment env source s :
  CompileShader env GL_FRAGMENT_SHADER source s =
  (compile_calls env GL_FRAGMENT_SHADER fragment_message source,
   match compile_stop env GL_FRAGMENT_SHADER source with
   | Some why => Stopped why
   | None => Normal (compile_value env GL_FRAGMENT_SHADER source) s
   end).
Proof.
  unfold CompileShader, compile_calls, compile_stop, compile_value, bind.
  change (GL_FRAGMENT_SHADER =? GL_VERTEX_SHADER) with false.
  change (GL_FRAGMENT_SHADER =? GL_FRAGMENT_SHADER) with true.
  cbn -[buffer_text c_str Z.eqb Z.ltb].
  destruct (env_compile_status env (env_glCreateShader env GL_FRAGMENT_SHADER)
              (c_str source)) as [result|]; [|reflexivity].
  cbn -[buffer_text c_str Z.eqb Z.ltb].
  destruct (result =? GL_FALSE); [|reflexivity].
  cbn -[buffer_text c_str Z.eqb Z.ltb].
  destruct (env_info_log_length env (env_glCreateShader env GL_FRAGMENT_SHADER)
              (c_str source)) as [len|]; [|reflexivity].
  cbn -[buffer_text c_str Z.eqb Z.ltb].
  destruct (len <? 0); reflexivity.
Qed.

Lemma CompileShader_other env ty source s :
  ty <> GL_VERTEX_SHADER -> ty <> GL_FRAGMENT_SHADER ->
  CompileShader env ty source s = ([], Stopped (UninitRead "shaderObject")).
Proof.
  intros Hv Hf. unfold CompileShader, bind.
  apply Z.eqb_neq in Hv, Hf. rewrite Hv, Hf. reflexivity.
Qed.

Lemma CreateShaderProgram_spec env vsrc fsrc s :
  CreateShaderProgram env vsrc fsrc s =
  (program_calls env vsrc fsrc,
   match program_stop env vsrc fsrc with
   | Some why => Stopped why
   | None => Normal (env_glCreateProgram env) s
   end).
Proof.
  unfold CreateShaderProgram, program_calls, program_stop.
  unfold bind at 1. cbn [call].
  assert (Hv := CompileShader_vertex env vsrc s).
  destruct (compile_stop env GL_VERTEX_SHADER vsrc) as [why|].
  - rewrite (bind_Stopped _ _ _ _ _ Hv). rewrite app_nil_r. reflexivity.
  - rewrite (bind_Normal _ _ _ _ _ _ Hv).
    unfold trace_of, result_of.
    assert (Hf := CompileShader_fragment env fsrc s).
    destruct (compile_stop env GL_FRAGMENT_SHADER fsrc) as [why|].
    + rewrite (bind_Stopped _ _ _ _ _ Hf). rewrite app_nil_r. reflexivity.
    + rewrite (bind_Normal _ _ _ _ _ _ Hf). reflexivity.
Qed.

Lemma CreateGraphicsPipeline_spec env s :
  CreateGraphicsPipeline env s =
  (pipeline_calls env,
   match pipeline_stop env with
   | Some why => Stopped why
   | None =>
       Normal tt (set_gGraphicsPipelineShaderProgram (env_glCreateProgram env) s)
   end).
Proof.
  unfold CreateGraphicsPipeline, pipeline_calls, pipeline_stop.
  rewrite (bind_Normal _ _ _ _ _ _ (LoadShaderAsString_spec env _ s)).
  unfold trace_of, result_of.
  rewrite (bind_Normal _ _ _ _ _ _ (LoadShaderAsString_spec env _ s)).
  unfold trace_of, result_of.
  assert (Hp := CreateShaderProgram_spec env (shader_source env vert_path)
                  (shader_source env frag_path) s).
  destruct (program_stop env _ _) as [why|].
  - rewrite (bind_Stopped _ _ _ _ _ Hp). reflexivity.
  - rewrite (bind_Normal _ _ _ _ _ _ Hp).
    unfold trace_of, result_of, modify. simpl.
    rewrite app_nil_r. reflexivity.
Qed.

Lemma pipeline_ok_stop env : pipeline_ok env = true <-> pipeline_stop env = None.
Proof.
  unfold pipeline_ok. destruct (pipeline_stop env); split; congruence.
Qed.

(** [pipeline_ok] says that [CreateGraphicsPipeline] returns. *)
Lemma pipeline_ok_returns env s :
  pipeline_ok env = true <->
  exists t s', CreateGraphicsPipeline env s = (t, Normal tt s').
Proof.
  rewrite CreateGraphicsPipeline_spec. unfold pipeline_ok.
  destruct (pipeline_stop env) as [why|]; split.
  - discriminate.
  - intros [t [s' H]]. discriminate H.
  - intros _. eexists. eexists. reflexivity.
  - reflexivity.
Qed.

Lemma VertexSpecification_spec env s :
  VertexSpecification env s = (upload_calls env s, Normal tt (upload_state env s)).
Proof. reflexivity. Qed.

Lemma CleanUp_spec s : CleanUp s = (teardown_calls s, Normal tt s).
Proof. reflexivity. Qed.

(** *** [InitializeProgram] *)

Lemma InitializeProgram_spec env s :
  InitializeProgram env s =
  (init_calls env s,
   if init_ok env then Normal tt (init_state env s) else Stopped (Exited 1)).
Proof.
  unfold InitializeProgram, init_calls, init_ok.
  cbn -[Z.eqb Z.ltb].
  destruct (env_SDL_Init env <? 0); [reflexivity|].
  cbn -[Z.eqb Z.ltb].
  destruct (env_SDL_CreateWindow env =? nullptr); [reflexivity|].
  cbn -[Z.eqb Z.ltb].
  destruct (env_SDL_GL_CreateContext env =? nullptr); [reflexivity|].
  cbn -[Z.eqb Z.ltb].
  destruct (env_gladLoadGLLoader env =? 0); reflexivity.
Qed.

(** *** One frame *)

Lemma PreDraw_spec s : PreDraw s = (PreDraw_calls s, Normal tt s).
Proof. reflexivity. Qed.

Lemma Draw_spec s : Draw s = (Draw_calls s, Normal tt s).
Proof. reflexivity. Qed.

Lemma Input_loop_spec pending : forall s,
  Input_loop pending s =
  (Input_calls pending,
   Normal tt (set_loop (gQuit s || existsb is_quit pending) (inputs_done s) s)).
Proof.
  induction pending as [|e rest IH]; intros s.
  - simpl. rewrite orb_false_r. destruct s; reflexivity.
  - cbn [Input_loop]. unfold bind at 1. cbn [call].
    unfold Input_calls. cbn [flat_map existsb]. fold (Input_calls rest).
    change (type e =? SDL_QUIT) with (is_quit e).
    unfold when. destruct (is_quit e).
    + unfold bind at 1. cbn -[Input_loop Input_calls].
      rewrite IH. cbn [gQuit set_gQuit].
      rewrite orb_true_r. reflexivity.
    + unfold bind at 1. cbn -[Input_loop Input_calls].
      rewrite IH. reflexivity.
Qed.

Lemma Input_spec env s :
  Input env s =
  (Input_calls (env_events env (inputs_done s)),
   Normal tt (set_loop (gQuit s || quit_pending env (inputs_done s))
                       (S (inputs_done s)) s)).
Proof.
  unfold Input, bind, get, modify. cbn -[Input_loop Input_calls].
  rewrite Input_loop_spec. reflexivity.
Qed.

Lemma MainLoop_body_spec env s :
  MainLoop_body env s =
  (Input_calls (env_events env (inputs_done s)) ++ render_calls s,
   Normal tt (set_loop (gQuit s || quit_pending env (inputs_done s))
                       (S (inputs_done s)) s)).
Proof.
  unfold MainLoop_body.
  rewrite (bind_Normal _ _ _ _ _ _ (Input_spec env s)).
  reflexivity.
Qed.

(** *** The loop *)

Lemma MainLoop_quit env fuel s :
  gQuit s = true -> MainLoop env fuel s = ([], Normal tt s).
Proof.
  intros H. destruct fuel; unfold MainLoop, bind, get; rewrite H; reflexivity.
Qed.

Lemma MainLoop_out_of_fuel env s :
  gQuit s = false -> MainLoop env 0 s = ([], Stopped OutOfFuel).
Proof. intros H. unfold MainLoop, bind, get. rewrite H. reflexivity. Qed.

Lemma MainLoop_step env fuel s :
  gQuit s = false ->
  MainLoop env (S fuel) s = bind (MainLoop_body env) (fun _ => MainLoop env fuel) s.
Proof.
  intros H. cbn [MainLoop]. unfold bind at 1, get. rewrite H. cbn [negb].
  destruct ((MainLoop_body env;; MainLoop env fuel) s). reflexivity.
Qed.

Lemma frames_calls_S env render n count :
  frames_calls env render n (S count) =
  (Input_calls (env_events env n) ++ render) ++
  frames_calls env render (S n) count.
Proof. reflexivity. Qed.

(** The loop stops at the end of the first frame that polls a quit event. *)
Lemma MainLoop_runs env k : forall s fuel,
  gQuit s = false ->
  (forall j, (j < k)%nat -> quit_pending env (inputs_done s + j) = false) ->
  quit_pending env (inputs_done s + k) = true ->
  (k < fuel)%nat ->
  MainLoop env fuel s =
  (frames_calls env (render_calls s) (inputs_done s) (S k),
   Normal tt (set_loop true (inputs_done s + S k) s)).
Proof.
  induction k as [|k IH]; intros s fuel Hq Hbefore Hat Hfuel;
    (destruct fuel as [|fuel]; [lia|]);
    rewrite (MainLoop_step _ _ _ Hq),
            (bind_Normal _ _ _ _ _ _ (MainLoop_body_spec env s)), Hq;
    cbn [orb].
  - rewrite Nat.add_0_r in Hat. rewrite Hat.
    rewrite MainLoop_quit by reflexivity.
    unfold trace_of, result_of; cbn [fst snd].
    rewrite frames_calls_S. cbn [frames_calls seq flat_map].
    rewrite Nat.add_1_r. reflexivity.
  - assert (H0 : quit_pending env (inputs_done s) = false).
    { rewrite <- (Nat.add_0_r (inputs_done s)). apply Hbefore. lia. }
    rewrite H0.
    rewrite (IH (set_loop false (S (inputs_done s)) s) fuel).
    + unfold trace_of, result_of; cbn [fst snd].
      rewrite frames_calls_S. cbn [inputs_done set_loop].
      f_equal. f_equal. unfold set_loop; cbn. f_equal. lia.
    + reflexivity.
    + intros j Hj. cbn [inputs_done set_loop].
      replace (S (inputs_done s) + j)%nat with (inputs_done s + S j)%nat by lia.
      apply Hbefore. lia.
    + cbn [inputs_done set_loop].
      replace (S (inputs_done s) + k)%nat with (inputs_done s + S k)%nat by lia.
      exact Hat.
    + lia.
Qed.

(** Without a quit event the loop is still running when the fuel is gone. *)
Lemma MainLoop_no_quit env fuel : forall s,
  gQuit s = false ->
  (forall j, (j < fuel)%nat -> quit_pending env (inputs_done s + j) = false) ->
  MainLoop env fuel s =
  (frames_calls env (render_calls s) (inputs_done s) fuel, Stopped OutOfFuel).
Proof.
  induction fuel as [|fuel IH]; intros s Hq Hnone.
  - rewrite MainLoop_out_of_fuel by assumption. reflexivity.
  - rewrite (MainLoop_step _ _ _ Hq),
            (bind_Normal _ _ _ _ _ _ (MainLoop_body_spec env s)), Hq.
    cbn [orb].
    assert (H0 : quit_pending env (inputs_done s) = false).
    { rewrite <- (Nat.add_0_r (inputs_done s)). apply Hnone. lia. }
    rewrite H0.
    rewrite (IH (set_loop false (S (inputs_done s)) s)).
    + unfold trace_of, result_of; cbn [fst snd].
      rewrite frames_calls_S. reflexivity.
    + reflexivity.
    + intros j Hj. cbn [inputs_done set_loop].
      replace (S (inputs_done s) + j)%nat with (inputs_done s + S j)%nat by lia.
      apply Hnone. lia.
Qed.

(** The first index at which a boolean sequence is true. *)
Lemma first_true (p : nat -> bool) (k : nat) :
  p k = true ->
  exists k0, (k0 <= k)%nat /\ p k0 = true /\
             forall j, (j < k0)%nat -> p j = false.
Proof.
  induction k as [k IH] using lt_wf_ind. intros Hk.
  destruct (existsb p (seq 0 k)) eqn:E.
  - apply existsb_exists in E. destruct E as [j [Hin Hj]].
    apply in_seq in Hin.
    destruct (IH j ltac:(lia) Hj) as [k0 [Hle [Hp Hmin]]].
    exists k0. repeat split; [lia | assumption | assumption].
  - exists k. repeat split; [lia | assumption |].
    intros j Hj. destruct (p j) eqn:Ej; [|reflexivity].
    assert (existsb p (seq 0 k) = true).
    { apply existsb_exists. exists j. split; [apply in_seq; lia | assumption]. }
    congruence.
Qed.

(** Whatever the events are, the trace of the loop is a whole number of
    frames, and the loop either is still running when the fuel is gone or
    returns with the quit flag set. *)
Lemma MainLoop_shape env fuel : forall s,
  exists n, (n <= fuel)%nat /\
    trace_of (MainLoop env fuel s) =
      frames_calls env (render_calls s) (inputs_done s) n /\
    (result_of (MainLoop env fuel s) = Stopped OutOfFuel \/
     result_of (MainLoop env fuel s) =
       Normal tt (set_loop true (inputs_done s + n) s)).
Proof.
  induction fuel as [|fuel IH]; intros s; destruct (gQuit s) eqn:Hq.
  - exists 0%nat. rewrite MainLoop_quit by assumption.
    split; [lia|]. split; [reflexivity|]. right.
    destruct s; cbn in *; subst. unfold set_loop; cbn.
    rewrite Nat.add_0_r. reflexivity.
  - exists 0%nat. rewrite MainLoop_out_of_fuel by assumption.
    split; [lia|]. split; [reflexivity|]. left. reflexivity.
  - exists 0%nat. rewrite MainLoop_quit by assumption.
    split; [lia|]. split; [reflexivity|]. right.
    destruct s; cbn in *; subst. unfold set_loop; cbn.
    rewrite Nat.add_0_r. reflexivity.
  - rewrite (MainLoop_step _ _ _ Hq),
            (bind_Normal _ _ _ _ _ _ (MainLoop_body_spec env s)), Hq.
    cbn [orb].
    destruct (IH (set_loop (quit_pending env (inputs_done s)) (S (inputs_done s)) s))
      as [n [Hn [Ht Hr]]].
    exists (S n). split; [lia|].
    unfold trace_of, result_of in *; cbn [fst snd].
    rewrite Ht. split.
    + rewrite frames_calls_S. reflexivity.
    + destruct Hr as [Hr|Hr]; rewrite Hr; [left; reflexivity|right].
      unfold set_loop; cbn. do 2 f_equal. lia.
Qed.

(** *** [main] *)

Lemma main_init_failed env fuel s :
  init_ok env = false -> main env fuel s = (init_calls env s, Stopped (Exited 1)).
Proof.
  intros H. unfold main. apply bind_Stopped.
  rewrite InitializeProgram_spec, H. reflexivity.
Qed.

Lemma main_pipeline_stopped env fuel s why :
  init_ok env = true -> pipeline_stop env = Some why ->
  main env fuel s = (startup_calls env s, Stopped why).
Proof.
  intros H Hp. unfold main, startup_calls.
  assert (Hi := InitializeProgram_spec env s). rewrite H in Hi.
  rewrite (bind_Normal _ _ _ _ _ _ Hi).
  rewrite (bind_Normal _ _ _ _ _ _ (VertexSpecification_spec env _)).
  assert (Hc := CreateGraphicsPipeline_spec env (upload_state env (init_state env s))).
  rewrite Hp in Hc.
  rewrite (bind_Stopped _ _ _ _ _ Hc).
  unfold trace_of, result_of; cbn [fst snd]. reflexivity.
Qed.

Lemma main_startup env fuel s :
  init_ok env = true -> pipeline_ok env = true ->
  main env fuel s =
  (startup_calls env s ++
   trace_of ((MainLoop env fuel ;; CleanUp ;; ret 0) (ready_state env s)),
   result_of ((MainLoop env fuel ;; CleanUp ;; ret 0) (ready_state env s))).
Proof.
  intros H Hp. apply pipeline_ok_stop in Hp. unfold main, startup_calls.
  assert (Hi := InitializeProgram_spec env s). rewrite H in Hi.
  rewrite (bind_Normal _ _ _ _ _ _ Hi).
  rewrite (bind_Normal _ _ _ _ _ _ (VertexSpecification_spec env _)).
  assert (Hc := CreateGraphicsPipeline_spec env (upload_state env (init_state env s))).
  rewrite Hp in Hc.
  rewrite (bind_Normal _ _ _ _ _ _ Hc).
  unfold trace_of, result_of; cbn [fst snd].
  rewrite <- !app_assoc. reflexivity.
Qed.

Lemma main_returns env fuel s loop s' :
  init_ok env = true -> pipeline_ok env = true ->
  MainLoop env fuel (ready_state env s) = (loop, Normal tt s') ->
  main env fuel s =
  (startup_calls env s ++ loop ++ teardown_calls s', Normal 0 s').
Proof.
  intros H Hp Hl. rewrite main_startup by assumption.
  rewrite (bind_Normal _ _ _ _ _ _ Hl).
  reflexivity.
Qed.

Lemma main_running env fuel s loop :
  init_ok env = true -> pipeline_ok env = true ->
  MainLoop env fuel (ready_state env s) = (loop, Stopped OutOfFuel) ->
  main env fuel s = (startup_calls env s ++ loop, Stopped OutOfFuel).
Proof.
  intros H Hp Hl. rewrite main_startup by assumption.
  rewrite (bind_Stopped _ _ _ _ _ Hl).
  reflexivity.
Qed.

(** Every run of [main] has one of four forms. *)
Lemma main_cases env fuel s :
  (init_ok env = false /\ main env fuel s = (init_calls env s, Stopped (Exited 1))) \/
  (exists why, init_ok env = true /\ pipeline_stop env = Some why /\
     main env fuel s = (startup_calls env s, Stopped why)) \/
  (exists n, (n <= fuel)%nat /\ init_ok env = true /\ pipeline_ok env = true /\
     main env fuel s =
     (startup_calls env s ++
      frames_calls env (render_calls (ready_state env s)) (inputs_done s) n,
      Stopped OutOfFuel)) \/
  (exists n, (n <= fuel)%nat /\ init_ok env = true /\ pipeline_ok env = true /\
     main env fuel s =
     (startup_calls env s ++
      frames_calls env (render_calls (ready_state env s)) (inputs_done s) n ++
      teardown_calls (ready_state env s),
      Normal 0 (set_loop true (inputs_done s + n) (ready_state env s)))).
Proof.
  destruct (init_ok env) eqn:Hok.
  - right. destruct (pipeline_stop env) as [why|] eqn:Hstop.
    + left. exists why. repeat split. apply main_pipeline_stopped; assumption.
    + right. apply pipeline_ok_stop in Hstop.
      destruct (MainLoop_shape env fuel (ready_state env s)) as [n [Hn [Ht Hr]]].
      destruct (MainLoop env fuel (ready_state env s)) as [loop r] eqn:Hl.
      unfold trace_of, result_of in Ht, Hr; cbn [fst snd] in Ht, Hr.
      change (inputs_done (ready_state env s)) with (inputs_done s) in Ht, Hr.
      destruct Hr as [Hr|Hr]; subst loop r.
      * left. exists n. split; [assumption|]. split; [reflexivity|].
        split; [assumption|]. apply main_running; assumption.
      * right. exists n. split; [assumption|]. split; [reflexivity|].
        split; [assumption|].
        apply (main_returns env fuel s _ _ Hok Hstop Hl).
  - left. split; [reflexivity|]. apply main_init_failed. assumption.
Qed.

(** ** Filtering the calls of the loop *)

Lemma filter_Input_calls (p : Call -> bool) pending :
  (forall e, p (SDL_PollEvent e) = false) ->
  (forall text, p (cout text) = false) ->
  filter p (Input_calls pending) = [].
Proof.
  intros Hpoll Hcout. unfold Input_calls. rewrite filter_app.
  cbn [filter]. rewrite Hpoll, app_nil_r.
  induction pending as [|e rest IH]; [reflexivity|].
  cbn [flat_map]. rewrite filter_app, IH, app_nil_r.
  cbn [filter]. rewrite Hpoll.
  destruct (is_quit e); [|reflexivity].
  cbn [filter]. rewrite !Hcout. reflexivity.
Qed.

Lemma filter_frames_calls (p : Call -> bool) env render count : forall n,
  (forall e, p (SDL_PollEvent e) = false) ->
  (forall text, p (cout text) = false) ->
  filter p (frames_calls env render n count) =
  List.concat (repeat (filter p render) count).
Proof.
  induction count as [|count IH]; intros n Hpoll Hcout; [reflexivity|].
  rewrite frames_calls_S, !filter_app, filter_Input_calls by assumption.
  rewrite IH by assumption. reflexivity.
Qed.

Lemma concat_repeat_nil {A} (n : nat) : List.concat (repeat (@nil A) n) = [].
Proof. induction n; [reflexivity|]. cbn. assumption. Qed.

Lemma concat_repeat_one {A} (a : A) (n : nat) :
  List.concat (repeat [a] n) = repeat a n.
Proof. induction n; [reflexivity|]. cbn. f_equal. assumption. Qed.

Lemma count_calls_frames (p : Call -> bool) env render count n :
  (forall e, p (SDL_PollEvent e) = false) ->
  (forall text, p (cout text) = false) ->
  count_calls p (frames_calls env render n count) =
  (count * count_calls p render)%nat.
Proof.
  intros Hpoll Hcout. unfold count_calls.
  rewrite filter_frames_calls by assumption.
  induction count as [|count IH]; [reflexivity|].
  cbn [repeat List.concat]. rewrite length_app, IH. reflexivity.
Qed.

(** The trace of every run of [main], in one equation. *)
Lemma main_trace env fuel s :
  exists n tail,
    (n <= fuel)%nat /\
    (tail = [] \/ tail = teardown_calls (ready_state env s)) /\
    trace_of (main env fuel s) =
    init_calls env s ++
    if init_ok env then
      upload_calls env (init_state env s) ++ pipeline_calls env ++
      frames_calls env (render_calls (ready_state env s)) (inputs_done s) n ++
      tail
    else [].
Proof.
  destruct (main_cases env fuel s)
    as [[Hok Hm] | [[why [Hok [Hstop Hm]]] |
        [[n [Hn [Hok [Hp Hm]]]] | [n [Hn [Hok [Hp Hm]]]]]]];
    rewrite Hm, Hok; unfold trace_of; cbn [fst].
  - exists 0%nat, []. split; [lia|]. split; [left; reflexivity|].
    rewrite app_nil_r. reflexivity.
  - exists 0%nat, []. split; [lia|]. split; [left; reflexivity|].
    unfold startup_calls. cbn [frames_calls]. rewrite !app_nil_r. reflexivity.
  - exists n, []. split; [assumption|]. split; [left; reflexivity|].
    unfold startup_calls. rewrite app_nil_r, <- !app_assoc. reflexivity.
  - exists n, (teardown_calls (ready_state env s)).
    split; [assumption|]. split; [right; reflexivity|].
    unfold startup_calls. rewrite <- !app_assoc. reflexivity.
Qed.

Ltac init_cases env :=
  unfold init_calls, init_ok;
  destruct (env_SDL_Init env <? 0);
  [| destruct (env_SDL_CreateWindow env =? nullptr);
     [| destruct (env_SDL_GL_CreateContext env =? nullptr);
        [| destruct (env_gladLoadGLLoader env =? 0)]]].

(** The cases of one [CompileShader], then of the two of the pipeline. *)
Ltac compile_cases_at env shader text :=
  let result := fresh "result" in
  let len := fresh "len" in
  destruct (env_compile_status env shader text) as [result|];
  [ destruct (result =? GL_FALSE);
    [ destruct (env_info_log_length env shader text) as [len|];
      [ destruct (len <? 0) | ]
    | ]
  | ].

Ltac compile_cases env ty src :=
  compile_cases_at env (env_glCreateShader env ty) (c_str src).

Ltac pipeline_cases env :=
  unfold pipeline_calls, program_calls, compile_calls, compile_stop,
    compile_value;
  cbv zeta;
  compile_cases env GL_VERTEX_SHADER (shader_source env vert_path);
  compile_cases env GL_FRAGMENT_SHADER (shader_source env frag_path).

(** ** The geometry *)

Lemma uploads_of_main env fuel s :
  filter is_glBufferData (trace_of (main env fuel s)) =
  if init_ok env then [vertex_upload; index_upload] else [].
Proof.
  destruct (main_trace env fuel s) as [n [tail [_ [Htail Ht]]]]. rewrite Ht.
  assert (Hi : filter is_glBufferData (init_calls env s) = [])
    by (init_cases env; reflexivity).
  assert (Hp : filter is_glBufferData (pipeline_calls env) = [])
    by (pipeline_cases env; reflexivity).
  assert (Htl : filter is_glBufferData tail = [])
    by (destruct Htail; subst tail; reflexivity).
  rewrite filter_app, Hi. destruct (init_ok env); [|reflexivity].
  rewrite !filter_app, Hp, Htl, filter_frames_calls by reflexivity.
  change (filter is_glBufferData (render_calls (ready_state env s))) with (@nil Call).
  rewrite concat_repeat_nil. reflexivity.
Qed.

Lemma draws_of_main env fuel s :
  exists n, (n <= fuel)%nat /\
    filter is_glDrawElements (trace_of (main env fuel s)) = repeat quad_draw n.
Proof.
  destruct (main_trace env fuel s) as [n [tail [Hn [Htail Ht]]]]. rewrite Ht.
  assert (Hi : filter is_glDrawElements (init_calls env s) = [])
    by (init_cases env; reflexivity).
  assert (Hp : filter is_glDrawElements (pipeline_calls env) = [])
    by (pipeline_cases env; reflexivity).
  assert (Htl : filter is_glDrawElements tail = [])
    by (destruct Htail; subst tail; reflexivity).
  rewrite filter_app, Hi. destruct (init_ok env).
  - exists n. split; [assumption|].
    rewrite !filter_app, Hp, Htl, filter_frames_calls by reflexivity.
    change (filter is_glDrawElements (render_calls (ready_state env s)))
      with [quad_draw].
    rewrite concat_repeat_one, app_nil_r. reflexivity.
  - exists 0%nat. split; [lia|]. reflexivity.
Qed.

(** C4: the geometry is one fixed quad.  [vertexData] holds 4 vertices of 6
    floats, laid out as 3 position floats then 3 colour floats with a stride
    of 6 floats: read through the two attribute pointers, the positions are
    the four corners of the square of side 1 around the origin, in the plane
    z = 0, and the colours are red, green, blue and green.
    [indexBufferData] is [2; 0; 1; 3; 2; 1], whose indices are all below 4:
    two triangles, each of area 1/2 and turning counter clockwise, which have
    the edge between vertices 1 and 2 in common and no other, with vertex 0
    on one side of it and vertex 3 on the other, and whose areas add up to
    that of the square.  [Draw] issues one
    [glDrawElements(GL_TRIANGLES, 6, GL_UNSIGNED_INT, 0)]; and in every run of
    [main], whatever the outside world answers, nothing else is ever uploaded
    or drawn. *)
Theorem C4_hardcoded_quad :
  vertexData =
    [ -0.5; -0.5; 0.0;   1.0; 0.0; 0.0;
       0.5; -0.5; 0.0;   0.0; 1.0; 0.0;
      -0.5;  0.5; 0.0;   0.0; 0.0; 1.0;
       0.5;  0.5; 0.0;   0.0; 1.0; 0.0 ]%Q /\
  List.length vertexData = (4 * 6)%nat /\
  indexBufferData = [2; 0; 1; 3; 2; 1] /\
  List.length indexBufferData = 6%nat /\
  forallb (fun i => (0 <=? i) && (i <? 4)) indexBufferData = true /\
  triangles indexBufferData = [(2, 0, 1); (3, 2, 1)] /\
  (forall env s,
     filter is_glBufferData (trace_of (VertexSpecification env s)) =
       [vertex_upload; index_upload] /\
     filter is_glVertexAttribPointer (trace_of (VertexSpecification env s)) =
       [glVertexAttribPointer 0 3 GL_FLOAT GL_FALSE (6 * sizeof_GLfloat) 0;
        glVertexAttribPointer 1 3 GL_FLOAT GL_FALSE (6 * sizeof_GLfloat)
          (3 * sizeof_GLfloat)]) /\
  (forall s, filter is_glDrawElements (trace_of (Draw s)) = [quad_draw]) /\
  (forall env fuel s,
     filter is_glBufferData (trace_of (main env fuel s)) =
       (if init_ok env then [vertex_upload; index_upload] else []) /\
     exists n, filter is_glDrawElements (trace_of (main env fuel s)) =
               repeat quad_draw n) /\
  vertex_upload =
    glBufferData_GLfloat GL_ARRAY_BUFFER 96
      [ -0.5; -0.5; 0.0;   1.0; 0.0; 0.0;
         0.5; -0.5; 0.0;   0.0; 1.0; 0.0;
        -0.5;  0.5; 0.0;   0.0; 0.0; 1.0;
         0.5;  0.5; 0.0;   0.0; 1.0; 0.0 ]%Q GL_STATIC_DRAW /\
  index_upload =
    glBufferData_GLuint GL_ELEMENT_ARRAY_BUFFER 24 [2; 0; 1; 3; 2; 1]
      GL_STATIC_DRAW /\
  map (fetch position_pointer vertexData) [0; 1; 2; 3] =
    [ [-0.5; -0.5; 0.0]; [0.5; -0.5; 0.0];
      [-0.5;  0.5; 0.0]; [0.5;  0.5; 0.0] ]%Q /\
  map (fetch colour_pointer vertexData) [0; 1; 2; 3] =
    [ [1.0; 0.0; 0.0]; [0.0; 1.0; 0.0];
      [0.0; 0.0; 1.0]; [0.0; 1.0; 0.0] ]%Q /\
  forallb (fun t => Qeq_bool (triangle_area t) 1%Q)
    (triangles indexBufferData) = true /\
  filter (fun e => existsb (edge_eqb e) (edges (3, 2, 1))) (edges (2, 0, 1)) =
    [(1, 2)] /\
  Qeq_bool (triangle_area (2, 1, 0)) (-1)%Q = true /\
  Qeq_bool (triangle_area (2, 1, 3)) 1%Q = true /\
  Qeq_bool (fold_right Qplus 0%Q (map triangle_area (triangles indexBufferData)))
    (2 * (1 * 1))%Q = true.
Proof.
  repeat split; try reflexivity.
  - apply uploads_of_main.
  - destruct (draws_of_main env fuel s) as [n [_ H]]. exists n. exact H.
Qed.

(** ** [LoadShaderAsString] as a function of the file *)

Lemma file_lines_nil text : file_lines text = [] -> text = EmptyString.
Proof.
  destruct text as [|c rest]; [reflexivity|]. simpl.
  destruct (Ascii.eqb c "010"%char); [discriminate|].
  destruct (file_lines rest); discriminate.
Qed.

(** Reading a text line by line and closing every line with a newline gives
    the text back, with a newline added at the end if it lacked one. *)
Lemma join_file_lines text :
  join_lines (file_lines text) =
  match text with
  | EmptyString => EmptyString
  | _ => if ends_with_newline text then text else (text ++ newline)%string
  end.
Proof.
  induction text as [|c rest IH]; [reflexivity|].
  cbn [file_lines].
  destruct (Ascii.eqb c "010"%char) eqn:Ec.
  - apply Ascii.eqb_eq in Ec. subst c.
    rewrite join_lines_cons, IH.
    destruct rest as [|d rest]; [reflexivity|].
    change (ends_with_newline (String "010" (String d rest)))
      with (ends_with_newline (String d rest)).
    destruct (ends_with_newline (String d rest)); reflexivity.
  - destruct (file_lines rest) as [|l ls] eqn:El.
    + apply file_lines_nil in El. subst rest.
      cbn [ends_with_newline]. rewrite Ec. reflexivity.
    + destruct rest as [|d rest]; [discriminate|].
      change (ends_with_newline (String c (String d rest)))
        with (ends_with_newline (String d rest)).
      rewrite join_lines_cons. rewrite join_lines_cons in IH.
      cbn [append]. rewrite IH.
      destruct (ends_with_newline (String d rest)); reflexivity.
Qed.

(** C9: [LoadShaderAsString] always returns normally, having done nothing
    but try to open the file.  When the file cannot be opened the result is
    the empty string; otherwise it is the lines of the file, each followed by
    exactly one newline, concatenated (which is the text of the file, plus a
    final newline when the last line had none). *)
Theorem C9_LoadShaderAsString env filename s :
  LoadShaderAsString env filename s =
    ([ifstream_open filename],
     Normal match env_file env filename with
            | None => EmptyString
            | Some text =>
                String.concat EmptyString (map (fun l => l ++ newline)%string (file_lines text))
            end s) /\
  match env_file env filename with
  | None => True
  | Some text =>
      String.concat EmptyString (map (fun l => l ++ newline)%string (file_lines text)) =
      match text with
      | EmptyString => EmptyString
      | _ => if ends_with_newline text then text else (text ++ newline)%string
      end
  end.
Proof.
  split.
  - rewrite LoadShaderAsString_spec. unfold shader_source, join_lines.
    reflexivity.
  - destruct (env_file env filename) as [text|]; [|exact I].
    apply join_file_lines.
Qed.

(** ** [CompileShader] and the unassigned handle *)

Lemma compile_stop_assigned env ty source :
  compile_stop env ty source <> Some (UninitRead "shaderObject").
Proof.
  unfold compile_stop; cbv zeta.
  compile_cases env ty source; discriminate.
Qed.

Lemma program_stop_assigned env vsrc fsrc :
  program_stop env vsrc fsrc <> Some (UninitRead "shaderObject").
Proof.
  unfold program_stop.
  destruct (compile_stop env GL_VERTEX_SHADER vsrc) as [why|] eqn:E.
  - rewrite <- E. apply compile_stop_assigned.
  - apply compile_stop_assigned.
Qed.

(** C8: [CompileShader] reads [shaderObject] without its having been
    assigned exactly when [type] is neither [GL_VERTEX_SHADER] nor
    [GL_FRAGMENT_SHADER]; [CreateShaderProgram], its only caller, passes
    these two types (the second call and the linking are reached when the
    call before returns), so neither it nor [main] ever makes that read. *)
Theorem C8_shader_handle_assigned :
  (forall env ty source s,
     result_of (CompileShader env ty source s) = Stopped (UninitRead "shaderObject") <->
     ty <> GL_VERTEX_SHADER /\ ty <> GL_FRAGMENT_SHADER) /\
  (forall env vsrc fsrc s,
     CreateShaderProgram env vsrc fsrc s =
     match result_of (CompileShader env GL_VERTEX_SHADER vsrc s) with
     | Normal vs _ =>
         match result_of (CompileShader env GL_FRAGMENT_SHADER fsrc s) with
         | Normal fs _ =>
             (glCreateProgram ::
              trace_of (CompileShader env GL_VERTEX_SHADER vsrc s) ++
              trace_of (CompileShader env GL_FRAGMENT_SHADER fsrc s) ++
              link_calls (env_glCreateProgram env) vs fs,
              Normal (env_glCreateProgram env) s)
         | Stopped why =>
             (glCreateProgram ::
              trace_of (CompileShader env GL_VERTEX_SHADER vsrc s) ++
              trace_of (CompileShader env GL_FRAGMENT_SHADER fsrc s),
              Stopped why)
         end
     | Stopped why =>
         (glCreateProgram ::
          trace_of (CompileShader env GL_VERTEX_SHADER vsrc s),
          Stopped why)
     end /\
     result_of (CreateShaderProgram env vsrc fsrc s) <>
       Stopped (UninitRead "shaderObject")) /\
  (forall env fuel s, result_of (main env fuel s) <> Stopped (UninitRead "shaderObject")).
Proof.
  split; [|split].
  - intros env ty source s. split.
    + intros H. split; intros ->.
      * rewrite CompileShader_vertex in H. unfold result_of in H; cbn [snd] in H.
        destruct (compile_stop env GL_VERTEX_SHADER source) as [why|] eqn:E;
          [|discriminate].
        injection H as ->. exact (compile_stop_assigned _ _ _ E).
      * rewrite CompileShader_fragment in H. unfold result_of in H; cbn [snd] in H.
        destruct (compile_stop env GL_FRAGMENT_SHADER source) as [why|] eqn:E;
          [|discriminate].
        injection H as ->. exact (compile_stop_assigned _ _ _ E).
    + intros [Hv Hf]. rewrite CompileShader_other by assumption. reflexivity.
  - intros env vsrc fsrc s. split.
    + rewrite CreateShaderProgram_spec, CompileShader_vertex, CompileShader_fragment.
      unfold program_calls, program_stop, trace_of, result_of; cbn [fst snd].
      destruct (compile_stop env GL_VERTEX_SHADER vsrc) as [why|];
        [rewrite app_nil_r; reflexivity|].
      destruct (compile_stop env GL_FRAGMENT_SHADER fsrc) as [why|];
        [rewrite app_nil_r; reflexivity|].
      reflexivity.
    + rewrite CreateShaderProgram_spec. unfold result_of; cbn [snd].
      destruct (program_stop env vsrc fsrc) as [why|] eqn:E; [|discriminate].
      intros H. injection H as ->. exact (program_stop_assigned _ _ _ E).
  - intros env fuel s.
    destruct (main_cases env fuel s)
      as [[_ Hm] | [[why [_ [Hstop Hm]]] | [[n [_ [_ [_ Hm]]]] | [n [_ [_ [_ Hm]]]]]]];
      rewrite Hm; try discriminate.
    unfold result_of; cbn [snd]. intros H. injection H as ->.
    exact (program_stop_assigned _ _ _ Hstop).
Qed.

(** A call with [GL_GEOMETRY_SHADER] (0x8DD9) makes the read. *)
Lemma C8_shader_handle_assigned_witness :
  result_of (CompileShader good_world 0x8DD9 EmptyString initial_state) = Stopped (UninitRead "shaderObject").
Proof.
  apply (proj1 C8_shader_handle_assigned). split; discriminate.
Defined.

(** ** The frame *)

(** C3: one iteration of the loop polls every pending event (until the poll
    that finds the queue empty), clears the framebuffer, binds the shader
    program and the vertex array, issues one indexed draw call and swaps the
    window buffers, in this order and whatever the state; while the quit flag
    is false [MainLoop] runs this iteration and loops, and when the flag is
    true it does nothing more; so the trace of the loop is this sequence,
    frame after frame. *)
Theorem C3_frame_sequence :
  (forall env s,
     MainLoop_body env s =
     (Input_calls (env_events env (inputs_done s)) ++
      [glDisable GL_DEPTH_TEST;
       glDisable GL_CULL_FACE;
       glViewport 0 0 (gScreenWidth s) (gScreenHeight s);
       glClearColor 0.03%Q 0.05%Q 0.27%Q 1.0%Q;
       glClear (Z.lor GL_DEPTH_BUFFER_BIT GL_COLOR_BUFFER_BIT);
       glUseProgram (gGraphicsPipelineShaderProgram s);
       glBindVertexArray (gVertexArrayObject s);
       glBindBuffer GL_ARRAY_BUFFER (gVertexBufferObject s);
       glDrawElements GL_TRIANGLES 6 GL_UNSIGNED_INT 0;
       glUseProgram 0;
       SDL_GL_SwapWindow (gGraphicsApplicationWindow s)],
      Normal tt (set_loop (gQuit s || quit_pending env (inputs_done s))
                          (S (inputs_done s)) s))) /\
  (forall pending,
     filter is_SDL_PollEvent (Input_calls pending) =
     map (fun e => SDL_PollEvent (Some e)) pending ++ [SDL_PollEvent None]) /\
  (forall env s,
     count_calls is_glDrawElements (trace_of (MainLoop_body env s)) = 1%nat /\
     count_calls is_SDL_GL_SwapWindow (trace_of (MainLoop_body env s)) = 1%nat) /\
  (forall env fuel s,
     gQuit s = false ->
     MainLoop env (S fuel) s = (MainLoop_body env ;; MainLoop env fuel) s) /\
  (forall env fuel s,
     gQuit s = true -> MainLoop env fuel s = ([], Normal tt s)) /\
  (forall env fuel s,
     exists n, (n <= fuel)%nat /\
       trace_of (MainLoop env fuel s) =
       flat_map (fun i => trace_of (MainLoop_body env (set_loop false i s)))
                (seq (inputs_done s) n)).
Proof.
  split; [|split; [|split; [|split; [|split]]]].
  - intros env s. apply MainLoop_body_spec.
  - intros pending. unfold Input_calls. rewrite filter_app.
    f_equal. induction pending as [|e rest IH]; [reflexivity|].
    cbn [flat_map map]. rewrite filter_app, IH.
    destruct (is_quit e); reflexivity.
  - intros env s. rewrite MainLoop_body_spec. unfold trace_of; cbn [fst].
    unfold count_calls. rewrite !filter_app, !filter_Input_calls by reflexivity.
    split; reflexivity.
  - intros env fuel s H. apply MainLoop_step. assumption.
  - intros env fuel s H. apply MainLoop_quit. assumption.
  - intros env fuel s.
    destruct (MainLoop_shape env fuel s) as [n [Hn [Ht _]]].
    exists n. split; [assumption|]. rewrite Ht. unfold frames_calls.
    apply flat_map_ext. intros i. rewrite MainLoop_body_spec. reflexivity.
Qed.

(** In the good world the loop, entered with the flag false, runs a frame. *)
Lemma C3_frame_sequence_witness :
  gQuit initial_state = false /\
  MainLoop good_world 3 initial_state =
  (MainLoop_body good_world ;; MainLoop good_world 2) initial_state.
Proof.
  split; [reflexivity|].
  apply (proj1 (proj2 (proj2 (proj2 C3_frame_sequence)))). reflexivity.
Defined.

(** ** Teardown *)






(** ** The quit flag *)

Lemma final_quit_MainLoop env fuel s :
  final_quit (MainLoop env fuel s) = None \/
  final_quit (MainLoop env fuel s) = Some true.
Proof.
  destruct (MainLoop_shape env fuel s) as [n [_ [_ [Hr|Hr]]]];
    unfold final_quit; rewrite Hr; [left|right]; reflexivity.
Qed.

Lemma final_quit_main env fuel s :
  final_quit (main env fuel s) = None \/
  final_quit (main env fuel s) = Some true.
Proof.
  destruct (main_cases env fuel s)
    as [[_ Hm] | [[why [_ [_ Hm]]] | [[n [_ [_ [_ Hm]]]] | [n [_ [_ [_ Hm]]]]]]];
    rewrite Hm; [left|left|left|right]; reflexivity.
Qed.

(** C10: [gQuit] starts false.  Every function of the program other than
    [Input] (and the loop and [main], which call it) ends with the flag as it
    found it; [Input] ends with the flag set if it was set or a quit event
    was polled; the loop and [main] can only return with the flag set.  So a
    flag that is true is true after every operation. *)
Theorem C10_quit_flag_monotone :
  gQuit initial_state = false /\
  (forall env s,
     final_quit (InitializeProgram env s) =
       (if init_ok env then Some (gQuit s) else None) /\
     final_quit (GetOpenGLVersionInfo env s) = Some (gQuit s) /\
     final_quit (VertexSpecification env s) = Some (gQuit s) /\
     final_quit (CreateGraphicsPipeline env s) =
       (if pipeline_ok env then Some (gQuit s) else None) /\
     final_quit (PreDraw s) = Some (gQuit s) /\
     final_quit (Draw s) = Some (gQuit s) /\
     final_quit (CleanUp s) = Some (gQuit s)) /\
  (forall env filename vsrc fsrc ty s,
     final_quit (LoadShaderAsString env filename s) = Some (gQuit s) /\
     final_quit (CreateShaderProgram env vsrc fsrc s) =
       match program_stop env vsrc fsrc with
       | None => Some (gQuit s)
       | Some _ => None
       end /\
     (final_quit (CompileShader env ty vsrc s) = Some (gQuit s) \/
      final_quit (CompileShader env ty vsrc s) = None)) /\
  (forall env pending s,
     final_quit (Input_loop pending s) =
       Some (gQuit s || existsb is_quit pending) /\
     final_quit (Input env s) =
       Some (gQuit s || quit_pending env (inputs_done s)) /\
     final_quit (MainLoop_body env s) =
       Some (gQuit s || quit_pending env (inputs_done s))) /\
  (forall env fuel s,
     (final_quit (MainLoop env fuel s) = None \/
      final_quit (MainLoop env fuel s) = Some true) /\
     (final_quit (main env fuel s) = None \/
      final_quit (main env fuel s) = Some true)) /\
  (forall env fuel s,
     gQuit s = true ->
     final_quit (Input env s) = Some true /\
     final_quit (MainLoop_body env s) = Some true /\
     MainLoop env fuel s = ([], Normal tt s)).
Proof.
  split; [reflexivity|]. split; [|split; [|split; [|split]]].
  - intros env s. unfold final_quit.
    rewrite InitializeProgram_spec, CreateGraphicsPipeline_spec.
    unfold result_of; cbn [snd].
    repeat split; try reflexivity.
    + destruct (init_ok env); reflexivity.
    + unfold pipeline_ok. destruct (pipeline_stop env); reflexivity.
  - intros env filename vsrc fsrc ty s. repeat split.
    + unfold final_quit. rewrite LoadShaderAsString_spec. reflexivity.
    + unfold final_quit. rewrite CreateShaderProgram_spec.
      unfold result_of; cbn [snd].
      destruct (program_stop env vsrc fsrc); reflexivity.
    + unfold final_quit.
      destruct (Z.eq_dec ty GL_VERTEX_SHADER) as [->|Hv];
        [rewrite CompileShader_vertex; unfold result_of; cbn [snd];
         destruct (compile_stop env GL_VERTEX_SHADER vsrc);
         [right|left]; reflexivity|].
      destruct (Z.eq_dec ty GL_FRAGMENT_SHADER) as [->|Hf];
        [rewrite CompileShader_fragment; unfold result_of; cbn [snd];
         destruct (compile_stop env GL_FRAGMENT_SHADER vsrc);
         [right|left]; reflexivity|].
      rewrite CompileShader_other by assumption. right; reflexivity.
  - intros env pending s. unfold final_quit.
    rewrite Input_loop_spec, Input_spec, MainLoop_body_spec.
    repeat split; reflexivity.
  - intros env fuel s. split.
    + apply final_quit_MainLoop.
    + apply final_quit_main.
  - intros env fuel s H. unfold final_quit.
    rewrite Input_spec, MainLoop_body_spec, H.
    repeat split; try reflexivity.
    apply MainLoop_quit. assumption.
Qed.

(** Once the flag is set, an [Input] that sees no quit event leaves it set. *)
Lemma C10_quit_flag_monotone_witness :
  gQuit (set_gQuit true initial_state) = true /\
  final_quit (Input good_world (set_gQuit true initial_state)) = Some true.
Proof.
  split; [reflexivity|].
  apply (proj2 (proj2 (proj2 (proj2 (proj2 C10_quit_flag_monotone))))
           good_world 0%nat (set_gQuit true initial_state)).
  reflexivity.
Defined.

(** ** Phases *)

Lemma marks_app t u : marks (t ++ u) = marks t ++ marks u.
Proof. unfold marks. apply flat_map_app. Qed.

Lemma Phase_eqb_refl p : Phase_eqb p p = true.
Proof. destruct p; reflexivity. Qed.

Lemma compress_from_same p n rest :
  compress_from (Some p) (repeat p n ++ rest) = compress_from (Some p) rest.
Proof.
  induction n as [|n IH]; [reflexivity|].
  cbn [repeat app compress_from]. rewrite Phase_eqb_refl. exact IH.
Qed.

Lemma compress_from_block last p n rest :
  compress_from last (repeat p (S n) ++ rest) =
  (if match last with Some q => Phase_eqb q p | None => false end
   then [] else [p]) ++ compress_from (Some p) rest.
Proof.
  cbn [repeat app compress_from].
  destruct last as [q|].
  - destruct (Phase_eqb q p) eqn:E.
    + assert (q = p) by (destruct q, p; (reflexivity || discriminate)).
      subst q. apply compress_from_same.
    + cbn [app]. f_equal. apply compress_from_same.
  - cbn [app]. f_equal. apply compress_from_same.
Qed.

Lemma init_calls_ok env s :
  init_ok env = true ->
  init_calls env s =
  SDL_Init SDL_INIT_VIDEO :: attribute_calls ++
  create_window_call s :: SDL_GL_CreateContext (env_SDL_CreateWindow env) ::
  gladLoadGLLoader :: version_calls env.
Proof.
  unfold init_ok, init_calls.
  destruct (env_SDL_Init env <? 0); [discriminate|].
  destruct (env_SDL_CreateWindow env =? nullptr); [discriminate|].
  destruct (env_SDL_GL_CreateContext env =? nullptr); [discriminate|].
  destruct (env_gladLoadGLLoader env =? 0); [discriminate|].
  reflexivity.
Qed.

Lemma marks_init_calls env s :
  init_ok env = true -> marks (init_calls env s) = repeat Initialization 13.
Proof. intros H. rewrite init_calls_ok by assumption. reflexivity. Qed.

Lemma marks_upload_calls env s :
  marks (upload_calls env s) = repeat BufferUpload 11.
Proof. reflexivity. Qed.

Lemma marks_pipeline_calls env :
  exists n, marks (pipeline_calls env) = repeat ShaderBuild (S n).
Proof.
  pipeline_cases env;
    match goal with
    | |- exists n, ?l = _ => exists (pred (List.length l))
    end; reflexivity.
Qed.

(** The cases in which the pipeline is built to its end. *)
Ltac pipeline_ok_cases env H :=
  revert H; unfold pipeline_ok, pipeline_stop, program_stop;
  pipeline_cases env; intros H; try discriminate H.


Lemma pipeline_compiles env :
  pipeline_ok env = true ->
  count_calls is_glCompileShader (pipeline_calls env) = 2%nat.
Proof. intros H. pipeline_ok_cases env H; reflexivity. Qed.

Lemma pipeline_links env :
  pipeline_ok env = true ->
  filter is_glLinkProgram (pipeline_calls env) =
  [glLinkProgram (env_glCreateProgram env)].
Proof. intros H. pipeline_ok_cases env H; reflexivity. Qed.

Lemma marks_Input_calls pending :
  marks (Input_calls pending) = repeat RenderLoop (S (List.length pending)).
Proof.
  unfold Input_calls. rewrite marks_app.
  change (marks [SDL_PollEvent None]) with (repeat RenderLoop 1).
  replace (S (List.length pending)) with (List.length pending + 1)%nat by lia.
  rewrite repeat_app. f_equal.
  induction pending as [|e rest IH]; [reflexivity|].
  cbn [flat_map]. rewrite marks_app, IH.
  destruct (is_quit e); reflexivity.
Qed.

Lemma marks_render_calls s : marks (render_calls s) = repeat RenderLoop 9.
Proof. reflexivity. Qed.

Lemma marks_frames_calls env s count : forall n,
  exists m, (count <= m)%nat /\
    marks (frames_calls env (render_calls s) n count) = repeat RenderLoop m.
Proof.
  induction count as [|count IH]; intros n.
  - exists 0%nat. split; [lia|reflexivity].
  - destruct (IH (S n)) as [m [Hm H]].
    exists (S (List.length (env_events env n)) + 9 + m)%nat. split; [lia|].
    rewrite frames_calls_S, !marks_app, H, marks_Input_calls, marks_render_calls.
    rewrite !repeat_app. reflexivity.
Qed.

Lemma marks_teardown_calls s : marks (teardown_calls s) = repeat Teardown 2.
Proof. reflexivity. Qed.

Lemma phases_one p n t :
  marks t = repeat p (S n) -> phases t = [p].
Proof.
  intros H. unfold phases. rewrite H, <- (app_nil_r (repeat p (S n))).
  rewrite compress_from_block. reflexivity.
Qed.

(** The loop returns as soon as some frame polls a quit event. *)
Lemma MainLoop_returns env k fuel s :
  gQuit s = false ->
  quit_pending env (inputs_done s + k) = true ->
  (k < fuel)%nat ->
  exists k0, (k0 <= k)%nat /\
    (forall j, (j < k0)%nat -> quit_pending env (inputs_done s + j) = false) /\
    quit_pending env (inputs_done s + k0) = true /\
    MainLoop env fuel s =
    (frames_calls env (render_calls s) (inputs_done s) (S k0),
     Normal tt (set_loop true (inputs_done s + S k0) s)).
Proof.
  intros Hq Hk Hfuel.
  destruct (first_true (fun j => quit_pending env (inputs_done s + j)) k Hk)
    as [k0 [Hle [Hat Hbefore]]].
  exists k0. split; [assumption|]. split; [assumption|]. split; [assumption|].
  apply MainLoop_runs; try assumption. lia.
Qed.

(** C1, as amended: when the four checks of [InitializeProgram] pass, both
    calls of [CompileShader] run to their end (the compile status is
    reported and, for a shader that did not compile, so is a length of the
    info log that is not negative) and some frame
    polls a quit event, [main] (given fuel for that many frames) returns 0
    after running [InitializeProgram], [VertexSpecification],
    [CreateGraphicsPipeline], [MainLoop] and [CleanUp], each once, each from
    the state the previous one left; its trace goes through the five phases
    in this order, none of them twice; the two buffer uploads, the two
    shader compilations and the one link are all made before the first call
    of the loop and never again. *)
Theorem C1_five_phases env k fuel :
  init_ok env = true ->
  pipeline_ok env = true ->
  quit_pending env k = true ->
  (k < fuel)%nat ->
  exists t1 t2 t3 t4 t5 s1 s2 s3 s4,
    InitializeProgram env initial_state = (t1, Normal tt s1) /\
    VertexSpecification env s1 = (t2, Normal tt s2) /\
    CreateGraphicsPipeline env s2 = (t3, Normal tt s3) /\
    MainLoop env fuel s3 = (t4, Normal tt s4) /\
    CleanUp s4 = (t5, Normal tt s4) /\
    main env fuel initial_state = (t1 ++ t2 ++ t3 ++ t4 ++ t5, Normal 0 s4) /\
    phases (t1 ++ t2 ++ t3 ++ t4 ++ t5) =
      [Initialization; BufferUpload; ShaderBuild; RenderLoop; Teardown] /\
    (phases t1 = [Initialization] /\ phases t2 = [BufferUpload] /\
     phases t3 = [ShaderBuild] /\ phases t4 = [RenderLoop] /\
     phases t5 = [Teardown]) /\
    (count_calls is_glBufferData t2 = 2%nat /\
     count_calls is_glBufferData (t1 ++ t3 ++ t4 ++ t5) = 0%nat) /\
    (count_calls is_glCompileShader t3 = 2%nat /\
     count_calls is_glLinkProgram t3 = 1%nat /\
     count_calls is_glCompileShader (t1 ++ t2 ++ t4 ++ t5) = 0%nat /\
     count_calls is_glLinkProgram (t1 ++ t2 ++ t4 ++ t5) = 0%nat).
Proof.
  intros Hok Hpok Hk Hfuel.
  destruct (MainLoop_returns env k fuel (ready_state env initial_state)
              eq_refl Hk Hfuel) as [k0 [_ [_ [_ Hloop]]]].
  pose proof (InitializeProgram_spec env initial_state) as Hinit.
  rewrite Hok in Hinit.
  set (s1 := init_state env initial_state) in *.
  set (s3 := ready_state env initial_state) in *.
  set (t4 := frames_calls env (render_calls s3) (inputs_done s3) (S k0)) in *.
  set (s4 := set_loop true (inputs_done s3 + S k0) s3) in *.
  exists (init_calls env initial_state), (upload_calls env s1),
    (pipeline_calls env), t4, (teardown_calls s4),
    s1, (upload_state env s1), s3, s4.
  destruct (marks_pipeline_calls env) as [np Hp].
  destruct (marks_frames_calls env s3 (S k0) (inputs_done s3)) as [nf [Hnf Hf]].
  destruct nf as [|nf]; [lia|]. fold t4 in Hf.
  assert (Hci : forall p, (forall e, p (SDL_PollEvent e) = false) ->
                          (forall x, p (cout x) = false) ->
                          count_calls p t4 = (S k0 * count_calls p (render_calls s3))%nat).
  { intros p H1 H2. apply count_calls_frames; assumption. }
  split; [exact Hinit|].
  split; [apply VertexSpecification_spec|].
  split.
  { rewrite CreateGraphicsPipeline_spec.
    rewrite (proj1 (pipeline_ok_stop env) Hpok). reflexivity. }
  split; [exact Hloop|].
  split; [apply CleanUp_spec|].
  split.
  { rewrite (main_returns env fuel initial_state _ _ Hok Hpok Hloop).
    unfold startup_calls. rewrite <- !app_assoc. reflexivity. }
  split.
  { unfold phases. rewrite !marks_app, marks_init_calls by assumption.
    rewrite marks_upload_calls, Hp, Hf, marks_teardown_calls.
    rewrite !compress_from_block. reflexivity. }
  split.
  { split; [apply (phases_one _ 12); apply marks_init_calls; assumption|].
    split; [apply (phases_one _ 10); apply marks_upload_calls|].
    split; [apply (phases_one _ np); assumption|].
    split; [apply (phases_one _ nf); assumption|].
    apply (phases_one _ 1); apply marks_teardown_calls. }
  split.
  { split; [reflexivity|].
    rewrite !count_calls_app, Hci by reflexivity.
    rewrite init_calls_ok by assumption.
    replace (count_calls is_glBufferData (pipeline_calls env)) with 0%nat
      by (pipeline_cases env; reflexivity).
    change (count_calls is_glBufferData (render_calls s3)) with 0%nat.
    rewrite Nat.mul_0_r. reflexivity. }
  split; [apply pipeline_compiles; assumption|].
  split; [unfold count_calls; rewrite pipeline_links by assumption; reflexivity|].
  split.
  - rewrite !count_calls_app, Hci by reflexivity.
    rewrite init_calls_ok by assumption.
    change (count_calls is_glCompileShader (render_calls s3)) with 0%nat.
    rewrite Nat.mul_0_r. reflexivity.
  - rewrite !count_calls_app, Hci by reflexivity.
    rewrite init_calls_ok by assumption.
    change (count_calls is_glLinkProgram (render_calls s3)) with 0%nat.
    rewrite Nat.mul_0_r. reflexivity.
Qed.

(** In the good world the fragment shader does not compile and its log is
    printed, and the quit event arrives in the third frame. *)
Lemma C1_five_phases_witness :
  (init_ok good_world = true /\ pipeline_ok good_world = true /\
   quit_pending good_world 2 = true /\ (2 < 5)%nat) /\
  exists t s,
    main good_world 5 initial_state = (t, Normal 0 s) /\
    phases t = [Initialization; BufferUpload; ShaderBuild; RenderLoop; Teardown].
Proof.
  split; [repeat split; lia|].
  destruct (C1_five_phases good_world 2 5 eq_refl eq_refl eq_refl ltac:(lia))
    as (t1 & t2 & t3 & t4 & t5 & s1 & s2 & s3 & s4 & _ & _ & _ & _ & _ & Hm & Hp & _).
  exists (t1 ++ t2 ++ t3 ++ t4 ++ t5), s4. split; assumption.
Defined.

(** C1 as stated fails: when [SDL_Init] reports an error the program prints
    one line and exits with status 1; it never leaves the first phase, and
    uploads and compiles nothing. *)
Lemma C1_exit_in_first_phase :
  main no_video_world 5 initial_state =
    ([SDL_Init SDL_INIT_VIDEO;
      cout "SDL2 could not initialize video subsystem"; cout endl],
     Stopped (Exited 1)) /\
  phases (trace_of (main no_video_world 5 initial_state)) = [Initialization] /\
  count_calls is_glBufferData (trace_of (main no_video_world 5 initial_state)) = 0%nat /\
  count_calls is_glCompileShader (trace_of (main no_video_world 5 initial_state)) = 0%nat.
Proof. repeat split. Qed.

(** ** Errors *)

(** C2 as stated fails: a failure of [SDL_Init] is answered by a message
    and [exit(1)]; no call follows the message, the run does not continue. *)
Lemma C2_exit_not_continue :
  main no_video_world 5 initial_state =
    ([SDL_Init SDL_INIT_VIDEO;
      cout "SDL2 could not initialize video subsystem"; cout endl],
     Stopped (Exited 1)).
Proof. reflexivity. Qed.

Lemma buffer_text_log stale len text :
  0 < len ->
  buffer_text stale len (Some text) =
  c_str (substring 0 (Z.to_nat (len - 1)) text).
Proof.
  intros H. unfold buffer_text.
  replace (len <=? 0) with false by (symmetry; apply Z.leb_gt; lia).
  reflexivity.
Qed.

Lemma buffer_text_stale stale len log :
  len <= 0 \/ log = None -> buffer_text stale len log = c_str stale.
Proof.
  intros [H| ->]; [|reflexivity].
  unfold buffer_text. destruct log as [text|]; [|reflexivity].
  replace (len <=? 0) with true by (symmetry; apply Z.leb_le; lia).
  reflexivity.
Qed.

(** A shader that does not compile, with a log length that is not negative. *)
Lemma CompileShader_failed env ty source s len :
  ty = GL_VERTEX_SHADER \/ ty = GL_FRAGMENT_SHADER ->
  env_compile_status env (env_glCreateShader env ty) (c_str source)
    = Some GL_FALSE ->
  env_info_log_length env (env_glCreateShader env ty) (c_str source) = Some len ->
  0 <= len ->
  CompileShader env ty source s =
  ([glCreateShader ty;
    glShaderSource (env_glCreateShader env ty) 1 (c_str source);
    glCompileShader (env_glCreateShader env ty);
    glGetShaderiv (env_glCreateShader env ty) GL_COMPILE_STATUS;
    glGetShaderiv (env_glCreateShader env ty) GL_INFO_LOG_LENGTH;
    glGetShaderInfoLog (env_glCreateShader env ty) len;
    cout (if ty =? GL_VERTEX_SHADER then vertex_message else fragment_message);
    cout (buffer_text (env_new_char env (env_glCreateShader env ty) len) len
            (env_info_log env (env_glCreateShader env ty) (c_str source)));
    cout newline;
    glDeleteShader (env_glCreateShader env ty)],
   Normal 0 s).
Proof.
  intros Hty H1 H2 H3. apply Z.ltb_ge in H3.
  destruct Hty; subst ty;
    [rewrite CompileShader_vertex | rewrite CompileShader_fragment];
    unfold compile_calls, compile_stop, compile_value; cbv zeta;
    rewrite H1, H2, H3; reflexivity.
Qed.

(** A negative length of the log: [new char[length]] throws. *)
Lemma CompileShader_aborts env ty source s len :
  ty = GL_VERTEX_SHADER \/ ty = GL_FRAGMENT_SHADER ->
  env_compile_status env (env_glCreateShader env ty) (c_str source)
    = Some GL_FALSE ->
  env_info_log_length env (env_glCreateShader env ty) (c_str source) = Some len ->
  len < 0 ->
  CompileShader env ty source s =
  ([glCreateShader ty;
    glShaderSource (env_glCreateShader env ty) 1 (c_str source);
    glCompileShader (env_glCreateShader env ty);
    glGetShaderiv (env_glCreateShader env ty) GL_COMPILE_STATUS;
    glGetShaderiv (env_glCreateShader env ty) GL_INFO_LOG_LENGTH],
   Stopped Aborted).
Proof.
  intros Hty H1 H2 H3. apply Z.ltb_lt in H3.
  destruct Hty; subst ty;
    [rewrite CompileShader_vertex | rewrite CompileShader_fragment];
    unfold compile_calls, compile_stop, compile_value; cbv zeta;
    rewrite H1, H2, H3; reflexivity.
Qed.

(** A compile status, or a log length, that [glGetShaderiv] does not write. *)
Lemma CompileShader_no_status env ty source s :
  ty = GL_VERTEX_SHADER \/ ty = GL_FRAGMENT_SHADER ->
  env_compile_status env (env_glCreateShader env ty) (c_str source) = None ->
  CompileShader env ty source s =
  ([glCreateShader ty;
    glShaderSource (env_glCreateShader env ty) 1 (c_str source);
    glCompileShader (env_glCreateShader env ty);
    glGetShaderiv (env_glCreateShader env ty) GL_COMPILE_STATUS],
   Stopped (UninitRead "result")).
Proof.
  intros Hty H1.
  destruct Hty; subst ty;
    [rewrite CompileShader_vertex | rewrite CompileShader_fragment];
    unfold compile_calls, compile_stop, compile_value; cbv zeta;
    rewrite H1; reflexivity.
Qed.

Lemma CompileShader_no_length env ty source s :
  ty = GL_VERTEX_SHADER \/ ty = GL_FRAGMENT_SHADER ->
  env_compile_status env (env_glCreateShader env ty) (c_str source)
    = Some GL_FALSE ->
  env_info_log_length env (env_glCreateShader env ty) (c_str source) = None ->
  CompileShader env ty source s =
  ([glCreateShader ty;
    glShaderSource (env_glCreateShader env ty) 1 (c_str source);
    glCompileShader (env_glCreateShader env ty);
    glGetShaderiv (env_glCreateShader env ty) GL_COMPILE_STATUS;
    glGetShaderiv (env_glCreateShader env ty) GL_INFO_LOG_LENGTH],
   Stopped (UninitRead "length")).
Proof.
  intros Hty H1 H2.
  destruct Hty; subst ty;
    [rewrite CompileShader_vertex | rewrite CompileShader_fragment];
    unfold compile_calls, compile_stop, compile_value; cbv zeta;
    rewrite H1, H2; reflexivity.
Qed.

Lemma compile_stop_cases env ty source why :
  compile_stop env ty source = Some why ->
  why = UninitRead "result" \/ why = UninitRead "length" \/ why = Aborted.
Proof.
  unfold compile_stop; cbv zeta.
  compile_cases env ty source; intros H; try discriminate H;
    injection H as <-; auto.
Qed.

Lemma program_stop_cases env vsrc fsrc why :
  program_stop env vsrc fsrc = Some why ->
  why = UninitRead "result" \/ why = UninitRead "length" \/ why = Aborted.
Proof.
  unfold program_stop.
  destruct (compile_stop env GL_VERTEX_SHADER vsrc) as [w|] eqn:E.
  - intros H. injection H as <-. exact (compile_stop_cases _ _ _ _ E).
  - apply compile_stop_cases.
Qed.

(** C2, as amended: each of the four failures that [InitializeProgram]
    detects is answered by one message on [std::cout] followed by
    [exit(1)], so that no later call is made.  A shader that does not
    compile, when the length of its info log is reported and not negative,
    is answered by a message and the log buffer on [std::cout] (the info log
    if the length is positive and the log was written; what the memory of
    the buffer held if it was not) and the deletion of the shader object,
    after which [CompileShader] returns 0 and its caller goes on: whatever
    the two calls of [CompileShader] return, 0 included,
    [CreateShaderProgram] attaches it, links, validates, detaches and
    deletes, and returns the program id, which [CreateGraphicsPipeline]
    stores.  When the length of the log is reported as negative the
    allocation of the buffer throws, and when the compile status or the
    length is not reported the variable is read unassigned: these failures
    are not handled.  And [main] exits with status 1 exactly when one of the
    four checks fails. *)
Theorem C2_error_handling env fuel :
  (env_SDL_Init env < 0 ->
   main env fuel initial_state =
   ([SDL_Init SDL_INIT_VIDEO;
     cout "SDL2 could not initialize video subsystem"; cout endl],
    Stopped (Exited 1))) /\
  (0 <= env_SDL_Init env -> env_SDL_CreateWindow env = nullptr ->
   main env fuel initial_state =
   (SDL_Init SDL_INIT_VIDEO :: attribute_calls ++
    [create_window_call initial_state;
     cout "SDL Window was not able to be created"; cout endl],
    Stopped (Exited 1))) /\
  (0 <= env_SDL_Init env -> env_SDL_CreateWindow env <> nullptr ->
   env_SDL_GL_CreateContext env = nullptr ->
   main env fuel initial_state =
   (SDL_Init SDL_INIT_VIDEO :: attribute_calls ++
    [create_window_call initial_state;
     SDL_GL_CreateContext (env_SDL_CreateWindow env);
     cout "OpenGL context could not be created"; cout endl],
    Stopped (Exited 1))) /\
  (0 <= env_SDL_Init env -> env_SDL_CreateWindow env <> nullptr ->
   env_SDL_GL_CreateContext env <> nullptr -> env_gladLoadGLLoader env = 0 ->
   main env fuel initial_state =
   (SDL_Init SDL_INIT_VIDEO :: attribute_calls ++
    [create_window_call initial_state;
     SDL_GL_CreateContext (env_SDL_CreateWindow env);
     gladLoadGLLoader;
     cout "glad was not initialized"; cout endl],
    Stopped (Exited 1))) /\
  (forall source s len text,
     env_compile_status env (env_glCreateShader env GL_VERTEX_SHADER)
       (c_str source) = Some GL_FALSE ->
     env_info_log_length env (env_glCreateShader env GL_VERTEX_SHADER)
       (c_str source) = Some len ->
     0 < len ->
     env_info_log env (env_glCreateShader env GL_VERTEX_SHADER) (c_str source)
       = Some text ->
     CompileShader env GL_VERTEX_SHADER source s =
     (let shader := env_glCreateShader env GL_VERTEX_SHADER in
      [glCreateShader GL_VERTEX_SHADER; glShaderSource shader 1 (c_str source);
       glCompileShader shader; glGetShaderiv shader GL_COMPILE_STATUS;
       glGetShaderiv shader GL_INFO_LOG_LENGTH;
       glGetShaderInfoLog shader len;
       cout ("ERROR: GL_VERTEX_SHADER compilation failed!" ++ newline);
       cout (c_str (substring 0 (Z.to_nat (len - 1)) text)); cout newline;
       glDeleteShader shader],
      Normal 0 s)) /\
  (forall source s len text,
     env_compile_status env (env_glCreateShader env GL_FRAGMENT_SHADER)
       (c_str source) = Some GL_FALSE ->
     env_info_log_length env (env_glCreateShader env GL_FRAGMENT_SHADER)
       (c_str source) = Some len ->
     0 < len ->
     env_info_log env (env_glCreateShader env GL_FRAGMENT_SHADER) (c_str source)
       = Some text ->
     CompileShader env GL_FRAGMENT_SHADER source s =
     (let shader := env_glCreateShader env GL_FRAGMENT_SHADER in
      [glCreateShader GL_FRAGMENT_SHADER; glShaderSource shader 1 (c_str source);
       glCompileShader shader; glGetShaderiv shader GL_COMPILE_STATUS;
       glGetShaderiv shader GL_INFO_LOG_LENGTH;
       glGetShaderInfoLog shader len;
       cout ("ERROR: GL_FRAGMENT_SHADER compilation failed!" ++ newline);
       cout (c_str (substring 0 (Z.to_nat (len - 1)) text)); cout newline;
       glDeleteShader shader],
      Normal 0 s)) /\
  (forall ty source s len,
     ty = GL_VERTEX_SHADER \/ ty = GL_FRAGMENT_SHADER ->
     env_compile_status env (env_glCreateShader env ty) (c_str source)
       = Some GL_FALSE ->
     env_info_log_length env (env_glCreateShader env ty) (c_str source)
       = Some len ->
     0 <= len ->
     len = 0 \/
     env_info_log env (env_glCreateShader env ty) (c_str source) = None ->
     CompileShader env ty source s =
     ([glCreateShader ty;
       glShaderSource (env_glCreateShader env ty) 1 (c_str source);
       glCompileShader (env_glCreateShader env ty);
       glGetShaderiv (env_glCreateShader env ty) GL_COMPILE_STATUS;
       glGetShaderiv (env_glCreateShader env ty) GL_INFO_LOG_LENGTH;
       glGetShaderInfoLog (env_glCreateShader env ty) len;
       cout (if ty =? GL_VERTEX_SHADER
             then "ERROR: GL_VERTEX_SHADER compilation failed!" ++ newline
             else "ERROR: GL_FRAGMENT_SHADER compilation failed!" ++ newline);
       cout (c_str (env_new_char env (env_glCreateShader env ty) len));
       cout newline;
       glDeleteShader (env_glCreateShader env ty)],
      Normal 0 s)) /\
  (forall vsrc fsrc s tv tf vs fs,
     CompileShader env GL_VERTEX_SHADER vsrc s = (tv, Normal vs s) ->
     CompileShader env GL_FRAGMENT_SHADER fsrc s = (tf, Normal fs s) ->
     CreateShaderProgram env vsrc fsrc s =
     (glCreateProgram :: tv ++ tf ++
      [glAttachShader (env_glCreateProgram env) vs;
       glAttachShader (env_glCreateProgram env) fs;
       glLinkProgram (env_glCreateProgram env);
       glValidateProgram (env_glCreateProgram env);
       glDetachShader (env_glCreateProgram env) vs;
       glDetachShader (env_glCreateProgram env) fs;
       glDeleteShader vs; glDeleteShader fs],
      Normal (env_glCreateProgram env) s)) /\
  (forall s t program,
     CreateShaderProgram env (shader_source env "./shaders/vert.glsl")
       (shader_source env "./shaders/frag.glsl") s = (t, Normal program s) ->
     CreateGraphicsPipeline env s =
     ([ifstream_open "./shaders/vert.glsl"; ifstream_open "./shaders/frag.glsl"]
      ++ t,
      Normal tt (set_gGraphicsPipelineShaderProgram program s))) /\
  (forall ty source s len,
     ty = GL_VERTEX_SHADER \/ ty = GL_FRAGMENT_SHADER ->
     env_compile_status env (env_glCreateShader env ty) (c_str source)
       = Some GL_FALSE ->
     env_info_log_length env (env_glCreateShader env ty) (c_str source)
       = Some len ->
     len < 0 ->
     CompileShader env ty source s =
     ([glCreateShader ty;
       glShaderSource (env_glCreateShader env ty) 1 (c_str source);
       glCompileShader (env_glCreateShader env ty);
       glGetShaderiv (env_glCreateShader env ty) GL_COMPILE_STATUS;
       glGetShaderiv (env_glCreateShader env ty) GL_INFO_LOG_LENGTH],
      Stopped Aborted)) /\
  (forall ty source s,
     ty = GL_VERTEX_SHADER \/ ty = GL_FRAGMENT_SHADER ->
     (env_compile_status env (env_glCreateShader env ty) (c_str source) = None ->
      CompileShader env ty source s =
      ([glCreateShader ty;
        glShaderSource (env_glCreateShader env ty) 1 (c_str source);
        glCompileShader (env_glCreateShader env ty);
        glGetShaderiv (env_glCreateShader env ty) GL_COMPILE_STATUS],
       Stopped (UninitRead "result"))) /\
     (env_compile_status env (env_glCreateShader env ty) (c_str source)
        = Some GL_FALSE ->
      env_info_log_length env (env_glCreateShader env ty) (c_str source)
        = None ->
      CompileShader env ty source s =
      ([glCreateShader ty;
        glShaderSource (env_glCreateShader env ty) 1 (c_str source);
        glCompileShader (env_glCreateShader env ty);
        glGetShaderiv (env_glCreateShader env ty) GL_COMPILE_STATUS;
        glGetShaderiv (env_glCreateShader env ty) GL_INFO_LOG_LENGTH],
       Stopped (UninitRead "length")))) /\
  (forall s, result_of (main env fuel s) = Stopped (Exited 1) <-> init_ok env = false).
Proof.
  repeat match goal with |- _ /\ _ => split end.
  - intros H. apply Z.ltb_lt in H.
    rewrite main_init_failed; unfold init_ok, init_calls; rewrite H; reflexivity.
  - intros H1 H2. apply Z.ltb_ge in H1. apply Z.eqb_eq in H2.
    rewrite main_init_failed; unfold init_ok, init_calls; rewrite H1, H2;
      reflexivity.
  - intros H1 H2 H3.
    apply Z.ltb_ge in H1. apply Z.eqb_neq in H2. apply Z.eqb_eq in H3.
    rewrite main_init_failed; unfold init_ok, init_calls; rewrite H1, H2, H3;
      reflexivity.
  - intros H1 H2 H3 H4.
    apply Z.ltb_ge in H1. apply Z.eqb_neq in H2, H3. apply Z.eqb_eq in H4.
    rewrite main_init_failed; unfold init_ok, init_calls;
      rewrite H1, H2, H3, H4; reflexivity.
  - intros source s len text H1 H2 H3 H4.
    rewrite (CompileShader_failed env GL_VERTEX_SHADER source s len
               (or_introl eq_refl) H1 H2 ltac:(lia)).
    rewrite H4, buffer_text_log by assumption. reflexivity.
  - intros source s len text H1 H2 H3 H4.
    rewrite (CompileShader_failed env GL_FRAGMENT_SHADER source s len
               (or_intror eq_refl) H1 H2 ltac:(lia)).
    rewrite H4, buffer_text_log by assumption. reflexivity.
  - intros ty source s len Hty H1 H2 H3 H4.
    rewrite (CompileShader_failed env ty source s len Hty H1 H2 H3).
    rewrite buffer_text_stale by (destruct H4; [left; lia | right; assumption]).
    reflexivity.
  - intros vsrc fsrc s tv tf vs fs Hv Hf.
    unfold CreateShaderProgram. unfold bind at 1. cbn [call].
    rewrite (bind_Normal _ _ _ _ _ _ Hv). unfold trace_of, result_of.
    rewrite (bind_Normal _ _ _ _ _ _ Hf). reflexivity.
  - intros s t program H.
    unfold CreateGraphicsPipeline.
    rewrite (bind_Normal _ _ _ _ _ _ (LoadShaderAsString_spec env _ s)).
    unfold trace_of, result_of.
    rewrite (bind_Normal _ _ _ _ _ _ (LoadShaderAsString_spec env _ s)).
    unfold trace_of, result_of.
    rewrite (bind_Normal _ _ _ _ _ _ H).
    unfold trace_of, result_of, modify. simpl.
    rewrite app_nil_r. reflexivity.
  - intros ty source s len Hty H1 H2 H3.
    apply (CompileShader_aborts env ty source s len); assumption.
  - intros ty source s Hty. split.
    + intros H1. apply CompileShader_no_status; assumption.
    + intros H1 H2. apply CompileShader_no_length; assumption.
  - intros s.
    destruct (main_cases env fuel s)
      as [[Hok Hm] | [[why [Hok [Hstop Hm]]] |
          [[n [_ [Hok [_ Hm]]]] | [n [_ [Hok [_ Hm]]]]]]];
      rewrite Hm, Hok; unfold result_of; cbn [snd];
      split; intros H; try (reflexivity || discriminate).
    injection H as ->.
    destruct (program_stop_cases _ _ _ _ Hstop) as [E|[E|E]]; discriminate E.
Qed.

(** The failures, each in a world that shows it: the four of
    [InitializeProgram]; in the good world the fragment shader, whose log is
    printed and which is attached as 0; and in two more worlds a log of
    length 0, for which what the buffer held is printed, and a log length
    of -1. *)
Lemma C2_error_handling_witness :
  (env_SDL_Init no_video_world < 0 /\
   result_of (main no_video_world 5 initial_state) = Stopped (Exited 1)) /\
  (env_SDL_CreateWindow no_window_world = nullptr /\
   result_of (main no_window_world 5 initial_state) = Stopped (Exited 1)) /\
  (env_SDL_GL_CreateContext no_context_world = nullptr /\
   result_of (main no_context_world 5 initial_state) = Stopped (Exited 1)) /\
  (env_gladLoadGLLoader no_glad_world = 0 /\
   result_of (main no_glad_world 5 initial_state) = Stopped (Exited 1)) /\
  ((env_compile_status good_world 1 EmptyString = Some GL_FALSE /\
    env_info_log_length good_world 1 EmptyString = Some 6 /\
    0 < 6 /\
    env_info_log good_world 1 EmptyString = Some "empty"%string) /\
   CompileShader good_world GL_FRAGMENT_SHADER EmptyString initial_state =
   ([glCreateShader GL_FRAGMENT_SHADER; glShaderSource 1 1 EmptyString;
     glCompileShader 1; glGetShaderiv 1 GL_COMPILE_STATUS;
     glGetShaderiv 1 GL_INFO_LOG_LENGTH; glGetShaderInfoLog 1 6;
     cout ("ERROR: GL_FRAGMENT_SHADER compilation failed!" ++ newline);
     cout "empty"; cout newline; glDeleteShader 1],
    Normal 0 initial_state)) /\
  (exists tv tf,
     CompileShader good_world GL_VERTEX_SHADER "void main() {}" initial_state
       = (tv, Normal 2 initial_state) /\
     CompileShader good_world GL_FRAGMENT_SHADER EmptyString initial_state
       = (tf, Normal 0 initial_state) /\
     CreateShaderProgram good_world "void main() {}" EmptyString initial_state =
     (glCreateProgram :: tv ++ tf ++
      [glAttachShader 3 2; glAttachShader 3 0; glLinkProgram 3;
       glValidateProgram 3; glDetachShader 3 2; glDetachShader 3 0;
       glDeleteShader 2; glDeleteShader 0],
      Normal 3 initial_state)) /\
  ((env_compile_status empty_log_world 1 EmptyString = Some GL_FALSE /\
    env_info_log_length empty_log_world 1 EmptyString = Some 0 /\
    0 <= 0) /\
   CompileShader empty_log_world GL_FRAGMENT_SHADER EmptyString initial_state =
   ([glCreateShader GL_FRAGMENT_SHADER; glShaderSource 1 1 EmptyString;
     glCompileShader 1; glGetShaderiv 1 GL_COMPILE_STATUS;
     glGetShaderiv 1 GL_INFO_LOG_LENGTH; glGetShaderInfoLog 1 0;
     cout ("ERROR: GL_FRAGMENT_SHADER compilation failed!" ++ newline);
     cout "#$%"; cout newline; glDeleteShader 1],
    Normal 0 initial_state)) /\
  ((env_compile_status negative_length_world 1 EmptyString = Some GL_FALSE /\
    env_info_log_length negative_length_world 1 EmptyString = Some (-1) /\
    -1 < 0) /\
   result_of (CompileShader negative_length_world GL_FRAGMENT_SHADER EmptyString
                initial_state) = Stopped Aborted) /\
  (env_compile_status no_shader_world 0 EmptyString = None /\
   result_of (CompileShader no_shader_world GL_VERTEX_SHADER EmptyString
                initial_state) = Stopped (UninitRead "result")).
Proof.
  pose proof (C2_error_handling no_video_world 5) as (H1 & _).
  pose proof (C2_error_handling no_window_world 5) as (_ & H2 & _).
  pose proof (C2_error_handling no_context_world 5) as (_ & _ & H3 & _).
  pose proof (C2_error_handling no_glad_world 5) as (_ & _ & _ & H4 & _).
  pose proof (C2_error_handling good_world 5)
    as (_ & _ & _ & _ & _ & H5 & _ & H6 & _).
  pose proof (C2_error_handling empty_log_world 5)
    as (_ & _ & _ & _ & _ & _ & H7 & _).
  pose proof (C2_error_handling negative_length_world 5)
    as (_ & _ & _ & _ & _ & _ & _ & _ & _ & H8 & _).
  pose proof (C2_error_handling no_shader_world 5)
    as (_ & _ & _ & _ & _ & _ & _ & _ & _ & _ & H9 & _).
  split; [split; [reflexivity | rewrite H1; reflexivity]|].
  split; [split; [reflexivity|
                  rewrite H2; [reflexivity | discriminate | reflexivity]]|].
  split; [split; [reflexivity|
                  rewrite H3;
                  [reflexivity | discriminate | discriminate | reflexivity]]|].
  split; [split; [reflexivity|
                  rewrite H4;
                  [reflexivity | discriminate | discriminate | discriminate
                  | reflexivity]]|].
  split.
  { split; [repeat split|].
    exact (H5 EmptyString initial_state 6 "empty"%string
             eq_refl eq_refl eq_refl eq_refl). }
  split.
  { eexists. eexists. split; [reflexivity|]. split; [reflexivity|].
    exact (H6 "void main() {}"%string EmptyString initial_state _ _ 2 0
             eq_refl eq_refl). }
  split.
  { split; [repeat split; lia|].
    exact (H7 GL_FRAGMENT_SHADER EmptyString initial_state 0
             (or_intror eq_refl) eq_refl eq_refl ltac:(lia) (or_introl eq_refl)). }
  split.
  { split; [repeat split; lia|].
    rewrite (H8 GL_FRAGMENT_SHADER EmptyString initial_state (-1)
               (or_intror eq_refl) eq_refl eq_refl ltac:(lia)).
    reflexivity. }
  split; [reflexivity|].
  rewrite (proj1 (H9 GL_VERTEX_SHADER EmptyString initial_state
                    (or_introl eq_refl)) eq_refl).
  reflexivity.
Defined.

(** ** Leaving the loop *)

Lemma frames_calls_last env render n count :
  frames_calls env render n (S count) =
  frames_calls env render n count ++
  Input_calls (env_events env (n + count)) ++ render.
Proof.
  unfold frames_calls. rewrite seq_S, flat_map_app. cbn [flat_map].
  rewrite app_nil_r. reflexivity.
Qed.

Lemma iterate_body_no_quit env k : forall s,
  gQuit s = false ->
  (forall j, (j < k)%nat -> quit_pending env (inputs_done s + j) = false) ->
  iterate_body env k s =
  (frames_calls env (render_calls s) (inputs_done s) k,
   Normal tt (set_loop false (inputs_done s + k) s)).
Proof.
  induction k as [|k IH]; intros s Hq Hnone.
  - cbn. rewrite Nat.add_0_r. destruct s; cbn in *; subst. reflexivity.
  - cbn [iterate_body].
    rewrite (bind_Normal _ _ _ _ _ _ (MainLoop_body_spec env s)), Hq.
    assert (H0 : quit_pending env (inputs_done s) = false).
    { rewrite <- (Nat.add_0_r (inputs_done s)). apply Hnone. lia. }
    rewrite H0. cbn [orb].
    rewrite (IH (set_loop false (S (inputs_done s)) s)).
    + unfold trace_of, result_of; cbn [fst snd].
      rewrite frames_calls_S. cbn [inputs_done set_loop].
      do 2 f_equal. unfold set_loop; cbn. f_equal. lia.
    + reflexivity.
    + intros j Hj. cbn [inputs_done set_loop].
      replace (S (inputs_done s) + j)%nat with (inputs_done s + S j)%nat by lia.
      apply Hnone. lia.
Qed.

(** C5 as stated fails: the frame in which the quit event is polled is
    still drawn.  Here the event is polled by the first [SDL_PollEvent] of
    the run; a whole frame is rendered and presented after it. *)
Lemma C5_frame_drawn_after_quit :
  exists before,
    count_calls is_SDL_PollEvent before = 0%nat /\
    main impatient_world 5 initial_state =
    (before ++
     [SDL_PollEvent (Some (mkEvent SDL_QUIT));
      cout "Goodbye!"; cout endl;
      SDL_PollEvent None;
      glDisable GL_DEPTH_TEST; glDisable GL_CULL_FACE;
      glViewport 0 0 640 480;
      glClearColor 0.03%Q 0.05%Q 0.27%Q 1.0%Q;
      glClear (Z.lor GL_DEPTH_BUFFER_BIT GL_COLOR_BUFFER_BIT);
      glUseProgram 3;
      glBindVertexArray 1; glBindBuffer GL_ARRAY_BUFFER 1;
      glDrawElements GL_TRIANGLES 6 GL_UNSIGNED_INT 0;
      glUseProgram 0;
      SDL_GL_SwapWindow 0x1000;
      SDL_DestroyWindow 0x1000; SDL_Quit],
     Normal 0 (set_loop true 1 (ready_state impatient_world initial_state))).
Proof.
  exists (startup_calls impatient_world initial_state).
  split; vm_compute; reflexivity.
Qed.

(** C5, as amended: entered with the flag false, the loop terminates if and
    only if some frame polls a quit event.  The first frame that does sets
    the flag in its [Input] (until then, frame after frame, the flag is
    false), is then rendered and presented like every frame, and is the
    last: with a quit event first polled in frame [k]
    (counting from 0) the loop makes exactly [k + 1] draw calls and buffer
    swaps and returns with the flag set. *)
Theorem C5_loop_termination env s :
  gQuit s = false ->
  ((exists fuel, result_of (MainLoop env fuel s) <> Stopped OutOfFuel) <->
   (exists k, quit_pending env (inputs_done s + k) = true)) /\
  (forall k fuel,
     (forall j, (j < k)%nat -> quit_pending env (inputs_done s + j) = false) ->
     quit_pending env (inputs_done s + k) = true ->
     (k < fuel)%nat ->
     MainLoop env fuel s =
       (frames_calls env (render_calls s) (inputs_done s) k ++
        Input_calls (env_events env (inputs_done s + k)) ++ render_calls s,
        Normal tt (set_loop true (inputs_done s + S k) s)) /\
     result_of (iterate_body env k s) =
       Normal tt (set_loop false (inputs_done s + k) s) /\
     final_quit (Input env (set_loop false (inputs_done s + k) s)) = Some true /\
     count_calls is_glDrawElements (trace_of (MainLoop env fuel s)) = S k /\
     count_calls is_SDL_GL_SwapWindow (trace_of (MainLoop env fuel s)) = S k) /\
  (forall fuel,
     (forall j, (j < fuel)%nat -> quit_pending env (inputs_done s + j) = false) ->
     result_of (MainLoop env fuel s) = Stopped OutOfFuel /\
     count_calls is_glDrawElements (trace_of (MainLoop env fuel s)) = fuel).
Proof.
  intros Hq. split; [|split].
  - split.
    + intros [fuel Hr].
      destruct (existsb (fun j => quit_pending env (inputs_done s + j)) (seq 0 fuel))
        eqn:E.
      * apply existsb_exists in E. destruct E as [k [_ Hk]]. exists k. exact Hk.
      * exfalso. apply Hr.
        rewrite MainLoop_no_quit; [reflexivity | assumption |].
        intros j Hj.
        destruct (quit_pending env (inputs_done s + j)) eqn:Ej; [|reflexivity].
        assert (existsb (fun j => quit_pending env (inputs_done s + j)) (seq 0 fuel)
                = true).
        { apply existsb_exists. exists j. split; [apply in_seq; lia|assumption]. }
        congruence.
    + intros [k Hk].
      destruct (MainLoop_returns env k (S k) s Hq Hk ltac:(lia))
        as [k0 [_ [_ [_ Hloop]]]].
      exists (S k). rewrite Hloop. discriminate.
  - intros k fuel Hbefore Hat Hfuel.
    rewrite (MainLoop_runs env k s fuel Hq Hbefore Hat Hfuel).
    unfold trace_of; cbn [fst].
    split; [rewrite frames_calls_last; reflexivity|].
    split; [rewrite iterate_body_no_quit by assumption; reflexivity|].
    split.
    { unfold final_quit. rewrite Input_spec. unfold result_of; cbn.
      rewrite Hat. reflexivity. }
    rewrite !count_calls_frames by reflexivity.
    split; cbn; lia.
  - intros fuel Hnone.
    rewrite (MainLoop_no_quit env fuel s Hq Hnone).
    split; [reflexivity|].
    unfold trace_of; cbn [fst].
    rewrite count_calls_frames by reflexivity. cbn. lia.
Qed.

(** In the good world the loop, entered after start-up, ends with the third
    frame. *)
Lemma C5_loop_termination_witness :
  gQuit (ready_state good_world initial_state) = false /\
  (quit_pending good_world 0 = false /\ quit_pending good_world 1 = false /\
   quit_pending good_world 2 = true /\ (2 < 5)%nat) /\
  count_calls is_glDrawElements
    (trace_of (MainLoop good_world 5 (ready_state good_world initial_state))) = 3%nat.
Proof.
  split; [reflexivity|]. split; [repeat split; lia|].
  refine (proj1 (proj2 (proj2
    (proj2 (proj1 (proj2 (C5_loop_termination good_world
                     (ready_state good_world initial_state) eq_refl))
       2%nat 5%nat _ eq_refl _))))).
  - intros j Hj. destruct j as [|[|j]]; [reflexivity | reflexivity | lia].
  - lia.
Defined.

(** ** The shader pair *)



(** * More properties of the program *)

(** ** The farewell *)

Lemma count_goodbye_Input_calls pending :
  count_calls is_goodbye (Input_calls pending) =
  List.length (filter is_quit pending).
Proof.
  unfold Input_calls. rewrite count_calls_app.
  change (count_calls is_goodbye [SDL_PollEvent None]) with 0%nat.
  rewrite Nat.add_0_r.
  induction pending as [|e rest IH]; [reflexivity|].
  cbn [flat_map filter].
  change (SDL_PollEvent (Some e) ::
          (if is_quit e then [cout "Goodbye!"; cout endl] else []) ++
          flat_map (fun e0 => SDL_PollEvent (Some e0) ::
                      (if is_quit e0 then [cout "Goodbye!"; cout endl] else []))
                   rest)
    with ((SDL_PollEvent (Some e) ::
           (if is_quit e then [cout "Goodbye!"; cout endl] else [])) ++
          flat_map (fun e0 => SDL_PollEvent (Some e0) ::
                      (if is_quit e0 then [cout "Goodbye!"; cout endl] else []))
                   rest).
  rewrite count_calls_app, IH.
  destruct (is_quit e); reflexivity.
Qed.

Lemma no_quit_pending env i :
  quit_pending env i = false -> filter is_quit (env_events env i) = [].
Proof.
  unfold quit_pending. induction (env_events env i) as [|e rest IH];
    [reflexivity|].
  cbn [existsb filter]. destruct (is_quit e); [discriminate|].
  exact IH.
Qed.

Lemma count_goodbye_quiet_frames env s k : forall n,
  (forall j, (j < k)%nat -> quit_pending env (n + j) = false) ->
  count_calls is_goodbye (frames_calls env (render_calls s) n k) = 0%nat.
Proof.
  induction k as [|k IH]; intros n Hnone; [reflexivity|].
  rewrite frames_calls_S, !count_calls_app, count_goodbye_Input_calls.
  rewrite no_quit_pending
    by (rewrite <- (Nat.add_0_r n); apply Hnone; lia).
  rewrite IH; [reflexivity|].
  intros j Hj. replace (S n + j)%nat with (n + S j)%nat by lia.
  apply Hnone. lia.
Qed.

Lemma quit_pending_some env i :
  quit_pending env i = true ->
  (1 <= List.length (filter is_quit (env_events env i)))%nat.
Proof.
  unfold quit_pending. induction (env_events env i) as [|e rest IH];
    [discriminate|].
  cbn [existsb filter]. destruct (is_quit e).
  - intros _. cbn [List.length]. lia.
  - exact IH.
Qed.

(** X1: [Input] does not stop at a quit event.  It polls every pending
    event and one more time, and prints "Goodbye!" once for each quit event
    among them; so the whole loop prints it as many times as there are quit
    events in the queue of its last frame, which may be more than once. *)
Theorem X1_goodbye_for_every_quit_event env s :
  (count_calls is_SDL_PollEvent (trace_of (Input env s)) =
     S (List.length (env_events env (inputs_done s))) /\
   count_calls is_goodbye (trace_of (Input env s)) =
     List.length (filter is_quit (env_events env (inputs_done s)))) /\
  (forall k fuel,
     gQuit s = false ->
     (forall j, (j < k)%nat -> quit_pending env (inputs_done s + j) = false) ->
     quit_pending env (inputs_done s + k) = true ->
     (k < fuel)%nat ->
     count_calls is_goodbye (trace_of (MainLoop env fuel s)) =
       List.length (filter is_quit (env_events env (inputs_done s + k))) /\
     (1 <= List.length (filter is_quit (env_events env (inputs_done s + k))))%nat).
Proof.
  split.
  - rewrite Input_spec. unfold trace_of; cbn [fst]. split.
    + unfold count_calls, Input_calls. rewrite filter_app, length_app.
      cbn [filter is_SDL_PollEvent List.length]. rewrite Nat.add_1_r. f_equal.
      induction (env_events env (inputs_done s)) as [|e rest IH];
        [reflexivity|].
      cbn [flat_map filter is_SDL_PollEvent List.length].
      rewrite filter_app, length_app, IH.
      destruct (is_quit e); reflexivity.
    + apply count_goodbye_Input_calls.
  - intros k fuel Hq Hbefore Hat Hfuel.
    rewrite (MainLoop_runs env k s fuel Hq Hbefore Hat Hfuel).
    unfold trace_of; cbn [fst].
    rewrite frames_calls_last, !count_calls_app.
    rewrite count_goodbye_quiet_frames by assumption.
    rewrite count_goodbye_Input_calls.
    change (count_calls is_goodbye (render_calls s)) with 0%nat.
    split; [lia|].
    apply quit_pending_some. assumption.
Qed.

(** In the insistent world the first frame holds two quit events. *)
Lemma X1_goodbye_for_every_quit_event_witness :
  (gQuit initial_state = false /\ quit_pending insistent_world 0 = true /\
   (0 < 3)%nat) /\
  count_calls is_goodbye (trace_of (MainLoop insistent_world 3 initial_state)) = 2%nat.
Proof.
  split; [split; [reflexivity | split; [reflexivity | lia]]|].
  refine (proj1 (proj2 (X1_goodbye_for_every_quit_event insistent_world initial_state)
                   0%nat 3%nat eq_refl _ eq_refl _)).
  - intros j Hj. lia.
  - lia.
Defined.

(** ** What the loop and the program leave in the globals *)

(** X2: [MainLoop] writes no global but [gQuit]: when it returns, the flag
    is set and every other global is as it was on entry; it never exits the
    program; and it can only fail to return if it was entered with the flag
    false. *)
Theorem X2_loop_writes_only_gQuit env fuel s :
  match result_of (MainLoop env fuel s) with
  | Normal _ s' =>
      gQuit s' = true /\
      gScreenWidth s' = gScreenWidth s /\
      gScreenHeight s' = gScreenHeight s /\
      gGraphicsApplicationWindow s' = gGraphicsApplicationWindow s /\
      gOpenGLContext s' = gOpenGLContext s /\
      gGraphicsPipelineShaderProgram s' = gGraphicsPipelineShaderProgram s /\
      gVertexArrayObject s' = gVertexArrayObject s /\
      gVertexBufferObject s' = gVertexBufferObject s /\
      gIndexBufferObject s' = gIndexBufferObject s
  | Stopped OutOfFuel => gQuit s = false
  | Stopped _ => False
  end.
Proof.
  destruct (MainLoop_shape env fuel s) as [n [_ [_ [Hr|Hr]]]]; rewrite Hr.
  - destruct (gQuit s) eqn:Hq; [|reflexivity].
    rewrite MainLoop_quit in Hr by assumption. discriminate.
  - repeat split.
Qed.

(** X3: when [main] returns, the window and context globals hold what SDL
    returned, the vertex array global the generated name, the vertex buffer
    global the first and the index buffer global the second buffer name
    generated, the pipeline global the program id, the screen dimensions are
    as they were, and the quit flag is set. *)
Theorem X3_globals_when_main_returns env fuel s :
  match result_of (main env fuel s) with
  | Normal _ s' =>
      gGraphicsApplicationWindow s' = env_SDL_CreateWindow env /\
      gOpenGLContext s' = env_SDL_GL_CreateContext env /\
      gVertexArrayObject s' = env_glGenVertexArrays env /\
      gVertexBufferObject s' = env_glGenBuffers env (buffers_generated s) /\
      gIndexBufferObject s' = env_glGenBuffers env (S (buffers_generated s)) /\
      gGraphicsPipelineShaderProgram s' = env_glCreateProgram env /\
      gScreenWidth s' = gScreenWidth s /\
      gScreenHeight s' = gScreenHeight s /\
      gQuit s' = true /\
      gGraphicsApplicationWindow s' <> nullptr /\
      gOpenGLContext s' <> nullptr
  | _ => True
  end.
Proof.
  destruct (main_cases env fuel s)
    as [[_ Hm] | [[why [_ [_ Hm]]] | [[n [_ [_ [_ Hm]]]] | [n [_ [Hok [_ Hm]]]]]]];
    rewrite Hm; unfold result_of; cbn [snd]; try exact I.
  unfold init_ok in Hok.
  destruct (env_SDL_Init env <? 0); [discriminate|].
  destruct (env_SDL_CreateWindow env =? nullptr) eqn:Hw; [discriminate|].
  destruct (env_SDL_GL_CreateContext env =? nullptr) eqn:Hc; [discriminate|].
  apply Z.eqb_neq in Hw, Hc.
  repeat split; assumption.
Qed.

(** ** Checks on every call of a run *)

Lemma forallb_Input_calls (p : Call -> bool) pending :
  (forall e, p (SDL_PollEvent e) = true) ->
  (forall text, p (cout text) = true) ->
  forallb p (Input_calls pending) = true.
Proof.
  intros Hpoll Hcout. unfold Input_calls. rewrite forallb_app.
  cbn [forallb]. rewrite Hpoll, andb_true_r.
  induction pending as [|e rest IH]; [reflexivity|].
  cbn [flat_map app forallb].
  rewrite Hpoll, forallb_app, IH, andb_true_r.
  destruct (is_quit e); [|reflexivity].
  cbn [forallb]. rewrite !Hcout. reflexivity.
Qed.

Lemma forallb_frames_calls (p : Call -> bool) env render count : forall n,
  (forall e, p (SDL_PollEvent e) = true) ->
  (forall text, p (cout text) = true) ->
  forallb p render = true ->
  forallb p (frames_calls env render n count) = true.
Proof.
  induction count as [|count IH]; intros n Hpoll Hcout Hrender; [reflexivity|].
  rewrite frames_calls_S, !forallb_app, forallb_Input_calls, Hrender, IH
    by assumption.
  reflexivity.
Qed.

(** X4: the viewport is always the size asked for the window.  The one
    [SDL_CreateWindow] call (made unless [SDL_Init] failed) asks for
    [gScreenWidth] by [gScreenHeight], and every [glViewport] call of the
    run, one per frame drawn, sets the viewport to the same rectangle. *)
Theorem X4_viewport_is_window_size env fuel s :
  filter is_SDL_CreateWindow (trace_of (main env fuel s)) =
    (if env_SDL_Init env <? 0 then []
     else [SDL_CreateWindow "OpenGL Window" 0 0 (gScreenWidth s) (gScreenHeight s)
             SDL_WINDOW_OPENGL]) /\
  exists n,
    filter is_glViewport (trace_of (main env fuel s)) =
      repeat (glViewport 0 0 (gScreenWidth s) (gScreenHeight s)) n /\
    count_calls is_glDrawElements (trace_of (main env fuel s)) = n.
Proof.
  destruct (main_trace env fuel s) as [n [tail [Hn [Htail Ht]]]]. rewrite Ht.
  assert (Hp1 : filter is_SDL_CreateWindow (pipeline_calls env) = [])
    by (pipeline_cases env; reflexivity).
  assert (Hp2 : filter is_glViewport (pipeline_calls env) = [])
    by (pipeline_cases env; reflexivity).
  assert (Hp3 : filter is_glDrawElements (pipeline_calls env) = [])
    by (pipeline_cases env; reflexivity).
  assert (Htl : forall p, (forall w, p (SDL_DestroyWindow w) = false) ->
                  p SDL_Quit = false -> filter p tail = []).
  { intros p H1 H2. destruct Htail; subst tail; [reflexivity|].
    cbn. rewrite H1, H2. reflexivity. }
  split.
  - rewrite filter_app.
    assert (Hrest : filter is_SDL_CreateWindow
              (if init_ok env
               then upload_calls env (init_state env s) ++ pipeline_calls env ++
                    frames_calls env (render_calls (ready_state env s))
                      (inputs_done s) n ++ tail
               else []) = []).
    { destruct (init_ok env); [|reflexivity].
      rewrite !filter_app, Hp1, Htl, filter_frames_calls by reflexivity.
      change (filter is_SDL_CreateWindow (render_calls (ready_state env s)))
        with (@nil Call).
      rewrite concat_repeat_nil. reflexivity. }
    rewrite Hrest, app_nil_r. clear.
    init_cases env; reflexivity.
  - assert (Hi : filter is_glViewport (init_calls env s) = [])
      by (init_cases env; reflexivity).
    assert (Hi' : filter is_glDrawElements (init_calls env s) = [])
      by (init_cases env; reflexivity).
    unfold count_calls. rewrite !filter_app, Hi, Hi'.
    destruct (init_ok env).
    + exists n.
      rewrite !filter_app, Hp2, Hp3, !Htl, !filter_frames_calls by reflexivity.
      change (filter is_glViewport (render_calls (ready_state env s)))
        with [glViewport 0 0 (gScreenWidth s) (gScreenHeight s)].
      change (filter is_glDrawElements (render_calls (ready_state env s)))
        with [quad_draw].
      rewrite !concat_repeat_one, !app_nil_r.
      change (filter is_glViewport (upload_calls env (init_state env s)))
        with (@nil Call).
      change (filter is_glDrawElements (upload_calls env (init_state env s)))
        with (@nil Call).
      cbn [app]. rewrite repeat_length. split; reflexivity.
    + exists 0%nat. split; reflexivity.
Qed.

(** X5: no OpenGL function is called before glad has loaded the function
    pointers.  When one of the four checks fails the run makes no OpenGL call
    at all; otherwise the run begins with the SDL calls up to
    [gladLoadGLLoader], none of which is an OpenGL call. *)
Theorem X5_no_gl_call_before_glad env fuel s :
  if init_ok env then
    exists rest,
      trace_of (main env fuel s) =
      (SDL_Init SDL_INIT_VIDEO :: attribute_calls ++
       [create_window_call s; SDL_GL_CreateContext (env_SDL_CreateWindow env);
        gladLoadGLLoader]) ++ rest /\
      count_calls is_gl_call
        (SDL_Init SDL_INIT_VIDEO :: attribute_calls ++
         [create_window_call s; SDL_GL_CreateContext (env_SDL_CreateWindow env);
          gladLoadGLLoader]) = 0%nat
  else count_calls is_gl_call (trace_of (main env fuel s)) = 0%nat.
Proof.
  destruct (main_trace env fuel s) as [n [tail [_ [_ Ht]]]]. rewrite Ht.
  destruct (init_ok env) eqn:Hok.
  - rewrite init_calls_ok by assumption.
    eexists. split; [|reflexivity].
    cbn [app]. rewrite <- !app_assoc. cbn [app]. reflexivity.
  - rewrite app_nil_r. revert Hok. init_cases env; intros Hok;
      (reflexivity || discriminate Hok).
Qed.

(** X6: no null window is ever passed on.  In every run, the window given
    to [SDL_GL_CreateContext], to [SDL_GL_SwapWindow] and to
    [SDL_DestroyWindow] is the one [SDL_CreateWindow] returned, and it is
    not null. *)
Theorem X6_window_never_null env fuel s :
  forallb (window_ok env) (trace_of (main env fuel s)) = true.
Proof.
  destruct (main_trace env fuel s) as [n [tail [_ [Htail Ht]]]]. rewrite Ht.
  rewrite forallb_app.
  assert (Hi : forallb (window_ok env) (init_calls env s) = true).
  { unfold init_calls.
    destruct (env_SDL_Init env <? 0); [reflexivity|].
    destruct (env_SDL_CreateWindow env =? nullptr) eqn:Hw; [reflexivity|].
    assert (Hc : window_ok env (SDL_GL_CreateContext (env_SDL_CreateWindow env)) = true).
    { unfold window_ok. cbn [window_argument]. rewrite Z.eqb_refl, Hw. reflexivity. }
    destruct (env_SDL_GL_CreateContext env =? nullptr);
      [|destruct (env_gladLoadGLLoader env =? 0)];
      cbn [forallb app attribute_calls]; rewrite Hc; reflexivity. }
  rewrite Hi. destruct (init_ok env) eqn:Hok; [|reflexivity].
  assert (Hw : (env_SDL_CreateWindow env =? nullptr) = false).
  { unfold init_ok in Hok.
    destruct (env_SDL_Init env <? 0); [discriminate|].
    destruct (env_SDL_CreateWindow env =? nullptr); [discriminate|reflexivity]. }
  assert (Hs : forall c, window_argument c = Some (env_SDL_CreateWindow env) ->
                         window_ok env c = true).
  { intros c Hc. unfold window_ok. rewrite Hc, Z.eqb_refl, Hw. reflexivity. }
  assert (Hp : forallb (window_ok env) (pipeline_calls env) = true)
    by (pipeline_cases env; reflexivity).
  rewrite !forallb_app, Hp.
  rewrite forallb_frames_calls; try reflexivity.
  - destruct Htail; subst tail; [reflexivity|].
    cbn [forallb teardown_calls]. rewrite Hs by reflexivity. reflexivity.
  - cbn [forallb render_calls PreDraw_calls Draw_calls app window_ok
         window_argument].
    change (gGraphicsApplicationWindow (ready_state env s))
      with (env_SDL_CreateWindow env).
    rewrite Z.eqb_refl, Hw. reflexivity.
Qed.

(** ** What is bound when the program uploads and draws *)

Lemma bindings_after_app t u b :
  bindings_after (t ++ u) b = bindings_after u (bindings_after t b).
Proof. unfold bindings_after. apply fold_left_app. Qed.

Lemma bindings_at_app p t u : forall b,
  bindings_at p (t ++ u) b =
  bindings_at p t b ++ bindings_at p u (bindings_after t b).
Proof.
  induction t as [|c t IH]; intros b; [reflexivity|].
  cbn [app bindings_at]. rewrite IH, <- app_assoc. reflexivity.
Qed.

Lemma bindings_Input_calls p pending b :
  (forall e, p (SDL_PollEvent e) = false) ->
  (forall text, p (cout text) = false) ->
  bindings_at p (Input_calls pending) b = [] /\
  bindings_after (Input_calls pending) b = b.
Proof.
  intros Hpoll Hcout. unfold Input_calls.
  rewrite bindings_at_app, bindings_after_app.
  assert (H : bindings_at p
                (flat_map (fun e => SDL_PollEvent (Some e) ::
                             if is_quit e then [cout "Goodbye!"; cout endl] else [])
                          pending) b = [] /\
              bindings_after
                (flat_map (fun e => SDL_PollEvent (Some e) ::
                             if is_quit e then [cout "Goodbye!"; cout endl] else [])
                          pending) b = b).
  { induction pending as [|e rest [IH1 IH2]]; [split; reflexivity|].
    cbn [flat_map app]. destruct (is_quit e);
      cbn [app bindings_at bindings_after fold_left bind_step];
      rewrite ?Hpoll, ?Hcout; cbn [app]; split; assumption. }
  destruct H as [H1 H2]. rewrite H1, H2.
  cbn [bindings_at bindings_after fold_left bind_step app].
  rewrite Hpoll. split; reflexivity.
Qed.

(** The bindings at the calls of the frames which [p] selects among the
    calls of [PreDraw], [Draw] and the swap. *)
Lemma bindings_frames_calls p env s count : forall n b,
  (forall e, p (SDL_PollEvent e) = false) ->
  (forall text, p (cout text) = false) ->
  bindings_at p (frames_calls env (render_calls s) n count) b =
  match count with
  | O => []
  | S count' =>
      bindings_at p (render_calls s) b ++
      List.concat
        (repeat (bindings_at p (render_calls s)
                   (mkBindings (Some (gVertexArrayObject s))
                      (Some (gVertexBufferObject s))
                      (element_array_buffer b) (Some 0)))
                count')
  end.
Proof.
  induction count as [|count IH]; intros n b Hpoll Hcout; [reflexivity|].
  rewrite frames_calls_S, !bindings_at_app, !bindings_after_app.
  destruct (bindings_Input_calls p (env_events env n) b Hpoll Hcout) as [H1 H2].
  rewrite H1, H2. cbn [app]. f_equal.
  rewrite IH by assumption.
  destruct count as [|count]; [reflexivity|].
  reflexivity.
Qed.

(** X7: every draw call finds the right objects bound.  Whatever was bound
    when [main] started, at each [glDrawElements] of the run the vertex
    array most recently bound is the one [VertexSpecification] generated,
    the buffers most recently bound to [GL_ARRAY_BUFFER] and
    [GL_ELEMENT_ARRAY_BUFFER] are its vertex and index buffers, and the
    program most recently given to [glUseProgram] is the linked pipeline;
    and at each [SDL_GL_SwapWindow] the program in use is 0 again. *)
Theorem X7_bindings_at_draw env fuel s b :
  exists n,
    bindings_at is_glDrawElements (trace_of (main env fuel s)) b =
      repeat (mkBindings (Some (env_glGenVertexArrays env))
                (Some (env_glGenBuffers env (buffers_generated s)))
                (Some (env_glGenBuffers env (S (buffers_generated s))))
                (Some (env_glCreateProgram env))) n /\
    bindings_at is_SDL_GL_SwapWindow (trace_of (main env fuel s)) b =
      repeat (mkBindings (Some (env_glGenVertexArrays env))
                (Some (env_glGenBuffers env (buffers_generated s)))
                (Some (env_glGenBuffers env (S (buffers_generated s))))
                (Some 0)) n /\
    count_calls is_glDrawElements (trace_of (main env fuel s)) = n.
Proof.
  destruct (draws_of_main env fuel s) as [m [_ Hm]].
  destruct (main_trace env fuel s) as [n [tail [_ [Htail Ht]]]].
  unfold count_calls. rewrite Hm, repeat_length. rewrite Ht in *.
  assert (Hi : forall p, p (SDL_Init SDL_INIT_VIDEO) = false ->
                 bindings_at is_glDrawElements (init_calls env s) b = [] /\
                 bindings_at is_SDL_GL_SwapWindow (init_calls env s) b = [] /\
                 bindings_after (init_calls env s) b = b).
  { intros _ _. init_cases env; repeat split. }
  destruct (Hi (fun _ => false) eq_refl) as [Hi1 [Hi2 Hi3]]. clear Hi.
  rewrite filter_app in Hm.
  rewrite !bindings_at_app, Hi1, Hi2, Hi3. cbn [app].
  destruct (init_ok env).
  - assert (Hp : forall b0,
               bindings_at is_glDrawElements (pipeline_calls env) b0 = [] /\
               bindings_at is_SDL_GL_SwapWindow (pipeline_calls env) b0 = [] /\
               bindings_after (pipeline_calls env) b0 = b0).
    { intros b0. pipeline_cases env; repeat split. }
    assert (Htl : forall b0,
               bindings_at is_glDrawElements tail b0 = [] /\
               bindings_at is_SDL_GL_SwapWindow tail b0 = []).
    { intros b0. destruct Htail; subst tail; split; reflexivity. }
    assert (Hn : m = n).
    { rewrite !filter_app, filter_frames_calls in Hm by reflexivity.
      apply (f_equal (@List.length Call)) in Hm.
      rewrite !length_app, repeat_length in Hm.
      change (filter is_glDrawElements (render_calls (ready_state env s)))
        with [quad_draw] in Hm.
      rewrite concat_repeat_one, repeat_length in Hm.
      replace (filter is_glDrawElements (init_calls env s))
        with (@nil Call) in Hm by (clear; init_cases env; reflexivity).
      replace (filter is_glDrawElements (pipeline_calls env))
        with (@nil Call) in Hm by (clear; pipeline_cases env; reflexivity).
      replace (filter is_glDrawElements tail)
        with (@nil Call) in Hm by (destruct Htail; subst tail; reflexivity).
      cbn in Hm. lia. }
    subst m. exists n.
    rewrite !bindings_at_app, ?bindings_after_app.
    set (b1 := bindings_after (upload_calls env (init_state env s)) b).
    destruct (Hp b1) as [Hp1 [Hp2 Hp3]]. rewrite Hp1, Hp2, Hp3.
    rewrite !bindings_frames_calls by reflexivity.
    match goal with |- context [bindings_at _ tail ?b0] =>
      destruct (Htl b0) as [Ht1 Ht2]; rewrite Ht1, Ht2 end.
    change (bindings_at is_glDrawElements (upload_calls env (init_state env s)) b)
      with (@nil Bindings).
    change (bindings_at is_SDL_GL_SwapWindow (upload_calls env (init_state env s)) b)
      with (@nil Bindings).
    cbn [app]. rewrite !app_nil_r.
    destruct n as [|n]; [repeat split|].
    cbn [bindings_at render_calls PreDraw_calls Draw_calls app bind_step
         is_glDrawElements is_SDL_GL_SwapWindow].
    rewrite !concat_repeat_one. repeat split.
  - assert (m = 0%nat).
    { apply (f_equal (@List.length Call)) in Hm.
      rewrite length_app, repeat_length in Hm.
      replace (filter is_glDrawElements (init_calls env s))
        with (@nil Call) in Hm by (clear; init_cases env; reflexivity).
      cbn in Hm. lia. }
    subst m. exists 0%nat. repeat split.
Qed.

Lemma bindings_at_none p t : forall b,
  filter p t = [] -> bindings_at p t b = [].
Proof.
  induction t as [|c t IH]; intros b H; [reflexivity|].
  cbn [filter] in H. cbn [bindings_at].
  destruct (p c); [discriminate|]. apply IH. exact H.
Qed.

(** Calls that only [VertexSpecification] makes find, in a run of [main],
    the bindings they find in [VertexSpecification]. *)
Lemma bindings_only_in_upload p env fuel s b :
  filter p (init_calls env s) = [] ->
  filter p (pipeline_calls env) = [] ->
  filter p (render_calls (ready_state env s)) = [] ->
  filter p (teardown_calls (ready_state env s)) = [] ->
  (forall e, p (SDL_PollEvent e) = false) ->
  (forall text, p (cout text) = false) ->
  bindings_at p (trace_of (main env fuel s)) b =
  if init_ok env
  then bindings_at p (upload_calls env (init_state env s)) b
  else [].
Proof.
  intros Hi Hp Hr Htd Hpoll Hcout.
  destruct (main_trace env fuel s) as [n [tail [_ [Htail Ht]]]]. rewrite Ht.
  rewrite bindings_at_app, (bindings_at_none p _ b Hi). cbn [app].
  assert (Hib : bindings_after (init_calls env s) b = b)
    by (init_cases env; reflexivity).
  rewrite Hib. destruct (init_ok env); [|reflexivity].
  rewrite !bindings_at_app.
  rewrite (bindings_at_none p (pipeline_calls env)) by assumption.
  rewrite (bindings_at_none p (frames_calls _ _ _ _)).
  - rewrite (bindings_at_none p tail); [rewrite !app_nil_r; reflexivity|].
    destruct Htail; subst tail; [reflexivity|assumption].
  - rewrite filter_frames_calls, Hr by assumption. apply concat_repeat_nil.
Qed.

(** X8: the data is uploaded and described while the objects of
    [VertexSpecification] are bound, and the attribute arrays are disabled
    too late for its vertex array.  In [VertexSpecification], and so in every
    run of [main] that gets past initialization, the vertex data is uploaded
    with the generated vertex array and vertex buffer bound, the index data
    with the index buffer bound as well; the two attribute arrays are
    enabled and described with the generated vertex array bound; the two
    [glDisableVertexAttribArray] calls come after [glBindVertexArray(0)];
    and [VertexSpecification] leaves vertex array 0 bound.  No other part of
    the run uploads, describes or disables anything. *)
Theorem X8_bindings_in_VertexSpecification env s b :
  (bindings_at is_glBufferData (trace_of (VertexSpecification env s)) b =
     [mkBindings (Some (env_glGenVertexArrays env))
        (Some (env_glGenBuffers env (buffers_generated s)))
        (element_array_buffer b) (program_in_use b);
      mkBindings (Some (env_glGenVertexArrays env))
        (Some (env_glGenBuffers env (buffers_generated s)))
        (Some (env_glGenBuffers env (S (buffers_generated s))))
        (program_in_use b)] /\
   map vertex_array
     (bindings_at is_vertex_attribute (trace_of (VertexSpecification env s)) b) =
     repeat (Some (env_glGenVertexArrays env)) 4 /\
   map vertex_array
     (bindings_at is_glDisableVertexAttribArray
        (trace_of (VertexSpecification env s)) b) = [Some 0; Some 0] /\
   bindings_after (trace_of (VertexSpecification env s)) b =
     mkBindings (Some 0)
       (Some (env_glGenBuffers env (buffers_generated s)))
       (Some (env_glGenBuffers env (S (buffers_generated s))))
       (program_in_use b)) /\
  (forall fuel,
     bindings_at is_glBufferData (trace_of (main env fuel s)) b =
       (if init_ok env
        then [mkBindings (Some (env_glGenVertexArrays env))
                (Some (env_glGenBuffers env (buffers_generated s)))
                (element_array_buffer b) (program_in_use b);
              mkBindings (Some (env_glGenVertexArrays env))
                (Some (env_glGenBuffers env (buffers_generated s)))
                (Some (env_glGenBuffers env (S (buffers_generated s))))
                (program_in_use b)]
        else []) /\
     map vertex_array
       (bindings_at is_vertex_attribute (trace_of (main env fuel s)) b) =
       (if init_ok env then repeat (Some (env_glGenVertexArrays env)) 4 else []) /\
     map vertex_array
       (bindings_at is_glDisableVertexAttribArray (trace_of (main env fuel s)) b) =
       (if init_ok env then [Some 0; Some 0] else [])).
Proof.
  split; [repeat split|].
  intros fuel.
  assert (Hi : filter is_glBufferData (init_calls env s) = [] /\
               filter is_vertex_attribute (init_calls env s) = [] /\
               filter is_glDisableVertexAttribArray (init_calls env s) = [])
    by (init_cases env; repeat split).
  assert (Hp : filter is_glBufferData (pipeline_calls env) = [] /\
               filter is_vertex_attribute (pipeline_calls env) = [] /\
               filter is_glDisableVertexAttribArray (pipeline_calls env) = [])
    by (pipeline_cases env; repeat split).
  destruct Hi as (Hi1 & Hi2 & Hi3). destruct Hp as (Hp1 & Hp2 & Hp3).
  rewrite !bindings_only_in_upload by (assumption || reflexivity).
  destruct (init_ok env); repeat split.
Qed.

(** ** The life of the shader objects *)

Lemma filter_cons_app {A} (p : A -> bool) a l :
  filter p (a :: l) = (if p a then [a] else []) ++ filter p l.
Proof. cbn [filter]. destruct (p a); reflexivity. Qed.

(** X9: when [CreateShaderProgram] returns, it has deleted each of the two
    shader objects it created exactly once, whether the shader compiled or
    not, and named it in no call after that; and it has detached from the
    program exactly what it attached (the value [CompileShader] returned,
    which is 0 for a shader that did not compile).  When it does not return,
    because a call of [CompileShader] does not, it has deleted neither
    object more than once and attached nothing.  The names of the two
    objects are taken to be different and not 0. *)
Theorem X9_shader_objects_deleted_once env vsrc fsrc s :
  env_glCreateShader env GL_VERTEX_SHADER <> 0 ->
  env_glCreateShader env GL_FRAGMENT_SHADER <> 0 ->
  env_glCreateShader env GL_VERTEX_SHADER <>
    env_glCreateShader env GL_FRAGMENT_SHADER ->
  match result_of (CreateShaderProgram env vsrc fsrc s) with
  | Normal _ _ =>
      count_calls (is_delete_of (env_glCreateShader env GL_VERTEX_SHADER))
        (trace_of (CreateShaderProgram env vsrc fsrc s)) = 1%nat /\
      count_calls (is_delete_of (env_glCreateShader env GL_FRAGMENT_SHADER))
        (trace_of (CreateShaderProgram env vsrc fsrc s)) = 1%nat /\
      last_call (mentions_shader (env_glCreateShader env GL_VERTEX_SHADER))
        (trace_of (CreateShaderProgram env vsrc fsrc s)) =
        Some (glDeleteShader (env_glCreateShader env GL_VERTEX_SHADER)) /\
      last_call (mentions_shader (env_glCreateShader env GL_FRAGMENT_SHADER))
        (trace_of (CreateShaderProgram env vsrc fsrc s)) =
        Some (glDeleteShader (env_glCreateShader env GL_FRAGMENT_SHADER)) /\
      filter is_attach (trace_of (CreateShaderProgram env vsrc fsrc s)) =
        [glAttachShader (env_glCreateProgram env)
           (compile_value env GL_VERTEX_SHADER vsrc);
         glAttachShader (env_glCreateProgram env)
           (compile_value env GL_FRAGMENT_SHADER fsrc)] /\
      filter is_detach (trace_of (CreateShaderProgram env vsrc fsrc s)) =
        [glDetachShader (env_glCreateProgram env)
           (compile_value env GL_VERTEX_SHADER vsrc);
         glDetachShader (env_glCreateProgram env)
           (compile_value env GL_FRAGMENT_SHADER fsrc)]
  | Stopped _ =>
      (count_calls (is_delete_of (env_glCreateShader env GL_VERTEX_SHADER))
         (trace_of (CreateShaderProgram env vsrc fsrc s)) <= 1)%nat /\
      (count_calls (is_delete_of (env_glCreateShader env GL_FRAGMENT_SHADER))
         (trace_of (CreateShaderProgram env vsrc fsrc s)) <= 1)%nat /\
      filter is_attach (trace_of (CreateShaderProgram env vsrc fsrc s)) = [] /\
      filter is_detach (trace_of (CreateShaderProgram env vsrc fsrc s)) = []
  end.
Proof.
  intros Hv Hf Hvf.
  rewrite CreateShaderProgram_spec. unfold trace_of, result_of; cbn [fst snd].
  unfold program_stop, program_calls, compile_calls, compile_stop,
    compile_value, link_calls, count_calls, last_call.
  cbv zeta.
  set (v := env_glCreateShader env GL_VERTEX_SHADER) in *.
  set (f := env_glCreateShader env GL_FRAGMENT_SHADER) in *.
  assert (E1 : (f =? v) = false) by (apply Z.eqb_neq; congruence).
  assert (E2 : (v =? f) = false) by (apply Z.eqb_neq; congruence).
  assert (E3 : (0 =? v) = false) by (apply Z.eqb_neq; congruence).
  assert (E4 : (0 =? f) = false) by (apply Z.eqb_neq; congruence).
  assert (E5 : (v =? v) = true) by apply Z.eqb_refl.
  assert (E6 : (f =? f) = true) by apply Z.eqb_refl.
  clearbody v f.
  compile_cases_at env v (c_str vsrc); compile_cases_at env f (c_str fsrc);
    cbn [app]; rewrite ?filter_cons_app;
    cbn [filter is_delete_of mentions_shader is_attach is_detach];
    rewrite ?E1, ?E2, ?E3, ?E4, ?E5, ?E6;
    repeat split; cbn; lia.
Qed.

(** In the good world the vertex shader is object 2 and compiles, the
    fragment shader is object 1 and does not. *)
Lemma X9_shader_objects_deleted_once_witness :
  (env_glCreateShader good_world GL_VERTEX_SHADER <> 0 /\
   env_glCreateShader good_world GL_FRAGMENT_SHADER <> 0 /\
   env_glCreateShader good_world GL_VERTEX_SHADER <>
     env_glCreateShader good_world GL_FRAGMENT_SHADER) /\
  count_calls (is_delete_of 1)
    (trace_of (CreateShaderProgram good_world EmptyString EmptyString initial_state))
  = 1%nat.
Proof.
  split; [split; [discriminate | split; discriminate]|].
  pose proof (X9_shader_objects_deleted_once good_world
                EmptyString EmptyString initial_state) as H.
  change (result_of (CreateShaderProgram good_world EmptyString EmptyString
                       initial_state))
    with (Normal (A := GLuint) 3 initial_state) in H.
  cbv beta iota in H.
  refine (proj1 (proj2 (H _ _ _))); discriminate.
Defined.

(** ** Loading a shader file, again *)

Lemma length_append (a b : string) :
  String.length (a ++ b) = (String.length a + String.length b)%nat.
Proof. induction a as [|c a IH]; cbn; [reflexivity|]. rewrite IH. reflexivity. Qed.

Lemma ends_with_newline_append text :
  ends_with_newline (text ++ newline) = true.
Proof.
  induction text as [|c text IH]; [reflexivity|].
  cbn [append]. destruct text as [|d text]; [reflexivity|]. exact IH.
Qed.

Lemma file_lines_append_newline text :
  text <> EmptyString -> ends_with_newline text = false ->
  file_lines (text ++ newline) = file_lines text.
Proof.
  induction text as [|c text IH]; intros Hne Hend; [congruence|].
  destruct text as [|d text].
  - cbn in Hend. cbn. rewrite Hend. reflexivity.
  - change (ends_with_newline (String c (String d text)))
      with (ends_with_newline (String d text)) in Hend.
    cbn [append]. cbn [append] in IH.
    change (file_lines (String c (String d (text ++ newline))))
      with (if Ascii.eqb c "010"%char
            then EmptyString :: file_lines (String d (text ++ newline))
            else match file_lines (String d (text ++ newline)) with
                 | [] => [String c EmptyString]
                 | l :: ls => String c l :: ls
                 end).
    change (file_lines (String c (String d text)))
      with (if Ascii.eqb c "010"%char
            then EmptyString :: file_lines (String d text)
            else match file_lines (String d text) with
                 | [] => [String c EmptyString]
                 | l :: ls => String c l :: ls
                 end).
    rewrite IH by (discriminate || assumption). reflexivity.
Qed.

Lemma read_lines_text text :
  read_lines text EmptyString =
  match text with
  | EmptyString => EmptyString
  | _ => if ends_with_newline text then text else (text ++ newline)%string
  end.
Proof. rewrite read_lines_join. cbn [append]. apply join_file_lines. Qed.

(** X10: what [LoadShaderAsString] reads is a text in normal form.  Reading
    the result again changes nothing, the result has the lines of the file,
    it is empty or ends with a newline, it is the text of the file or one
    character longer, and reading with something already in [result] appends
    to it what reading from scratch gives. *)
Theorem X10_reading_normalizes text result :
  read_lines (read_lines text EmptyString) EmptyString =
    read_lines text EmptyString /\
  file_lines (read_lines text EmptyString) = file_lines text /\
  (read_lines text EmptyString = EmptyString \/
   ends_with_newline (read_lines text EmptyString) = true) /\
  (String.length text <= String.length (read_lines text EmptyString)
                      <= S (String.length text))%nat /\
  read_lines text result = (result ++ read_lines text EmptyString)%string.
Proof.
  assert (Hacc : read_lines text result =
                 (result ++ read_lines text EmptyString)%string).
  { rewrite (read_lines_join text result), (read_lines_join text EmptyString).
    reflexivity. }
  assert (Hmain :
    read_lines (read_lines text EmptyString) EmptyString =
      read_lines text EmptyString /\
    file_lines (read_lines text EmptyString) = file_lines text /\
    (read_lines text EmptyString = EmptyString \/
     ends_with_newline (read_lines text EmptyString) = true) /\
    (String.length text <= String.length (read_lines text EmptyString)
                        <= S (String.length text))%nat).
  { clear Hacc.
    rewrite (read_lines_text (read_lines text EmptyString)).
    rewrite (read_lines_text text).
    destruct text as [|c text];
      [split; [reflexivity | split; [reflexivity | split; [left; reflexivity | cbn; lia]]]|].
    destruct (ends_with_newline (String c text)) eqn:Hend.
    - rewrite Hend.
      split; [reflexivity | split; [reflexivity | split; [right; reflexivity | lia]]].
    - assert (Hout : ends_with_newline (String c text ++ newline) = true)
        by apply ends_with_newline_append.
      cbn [append] in *. rewrite Hout.
      split; [reflexivity|].
      split; [apply (file_lines_append_newline (String c text));
              [discriminate|assumption]|].
      split; [right; reflexivity|].
      change (String c (text ++ newline)) with (String c text ++ newline)%string.
      rewrite length_append. cbn. lia. }
  destruct Hmain as (H1 & H2 & H3 & H4).
  exact (conj H1 (conj H2 (conj H3 (conj H4 Hacc)))).
Qed.

(** X11: a shader file that cannot be opened is no error.  When neither
    file can be opened and both calls of [CompileShader] return,
    [CreateGraphicsPipeline] gives the empty string to [glShaderSource] for
    both shaders, compiles, links once and stores the program id as always,
    and prints nothing but the messages of compilation failures: for each
    shader that did not compile, the line that names its type, the log
    buffer (the info log cut to the length reported, or what the memory held
    when nothing was written), and a newline. *)
Theorem X11_missing_files_compile_empty env s :
  env_file env "./shaders/vert.glsl" = None ->
  env_file env "./shaders/frag.glsl" = None ->
  pipeline_ok env = true ->
  filter is_glShaderSource (trace_of (CreateGraphicsPipeline env s)) =
    [glShaderSource (env_glCreateShader env GL_VERTEX_SHADER) 1 EmptyString;
     glShaderSource (env_glCreateShader env GL_FRAGMENT_SHADER) 1 EmptyString] /\
  count_calls is_glCompileShader (trace_of (CreateGraphicsPipeline env s)) = 2%nat /\
  count_calls is_glLinkProgram (trace_of (CreateGraphicsPipeline env s)) = 1%nat /\
  result_of (CreateGraphicsPipeline env s) =
    Normal tt (set_gGraphicsPipelineShaderProgram (env_glCreateProgram env) s) /\
  filter is_cout (trace_of (CreateGraphicsPipeline env s)) =
    match env_compile_status env (env_glCreateShader env GL_VERTEX_SHADER)
            EmptyString with
    | Some result =>
        if result =? GL_FALSE then
          match env_info_log_length env
                  (env_glCreateShader env GL_VERTEX_SHADER) EmptyString with
          | Some len =>
              [cout ("ERROR: GL_VERTEX_SHADER compilation failed!" ++ newline);
               cout (buffer_text
                       (env_new_char env (env_glCreateShader env GL_VERTEX_SHADER)
                          len)
                       len
                       (env_info_log env (env_glCreateShader env GL_VERTEX_SHADER)
                          EmptyString));
               cout newline]
          | None => []
          end
        else []
    | None => []
    end ++
    match env_compile_status env (env_glCreateShader env GL_FRAGMENT_SHADER)
            EmptyString with
    | Some result =>
        if result =? GL_FALSE then
          match env_info_log_length env
                  (env_glCreateShader env GL_FRAGMENT_SHADER) EmptyString with
          | Some len =>
              [cout ("ERROR: GL_FRAGMENT_SHADER compilation failed!" ++ newline);
               cout (buffer_text
                       (env_new_char env (env_glCreateShader env GL_FRAGMENT_SHADER)
                          len)
                       len
                       (env_info_log env (env_glCreateShader env GL_FRAGMENT_SHADER)
                          EmptyString));
               cout newline]
          | None => []
          end
        else []
    | None => []
    end.
Proof.
  intros Hv Hf Hp. rewrite CreateGraphicsPipeline_spec.
  unfold trace_of, result_of; cbn [fst snd].
  revert Hp.
  unfold pipeline_ok, pipeline_stop, program_stop, pipeline_calls,
    shader_source, vert_path, frag_path.
  rewrite Hv, Hf.
  unfold program_calls, compile_calls, compile_stop, compile_value,
    count_calls.
  cbv zeta.
  change (c_str EmptyString) with EmptyString.
  compile_cases_at env (env_glCreateShader env GL_VERTEX_SHADER) EmptyString;
    compile_cases_at env (env_glCreateShader env GL_FRAGMENT_SHADER) EmptyString;
    intros Hp; try discriminate Hp; repeat split.
Qed.

(** In the world without files the empty vertex shader compiles, the empty
    fragment shader does not, and its log is printed. *)
Lemma X11_missing_files_compile_empty_witness :
  (env_file no_files_world "./shaders/vert.glsl" = None /\
   env_file no_files_world "./shaders/frag.glsl" = None /\
   pipeline_ok no_files_world = true) /\
  filter is_cout (trace_of (CreateGraphicsPipeline no_files_world initial_state)) =
    [cout ("ERROR: GL_FRAGMENT_SHADER compilation failed!" ++ newline);
     cout "no main()"; cout newline].
Proof.
  split; [repeat split|].
  exact (proj2 (proj2 (proj2 (proj2
    (X11_missing_files_compile_empty no_files_world initial_state
       eq_refl eq_refl eq_refl))))).
Defined.

(** ** The error routines *)

Lemma GLClearAllErrors_at_zero glGetError k : forall asked fuel,
  (forall j, (j < k)%nat -> glGetError (asked + j)%nat <> GL_NO_ERROR) ->
  glGetError (asked + k)%nat = GL_NO_ERROR ->
  (k < fuel)%nat ->
  GLClearAllErrors glGetError fuel asked = Some (asked + S k)%nat.
Proof.
  induction k as [|k IH]; intros asked fuel Hbefore Hat Hfuel;
    (destruct fuel as [|fuel]; [lia|]); cbn [GLClearAllErrors].
  - rewrite Nat.add_0_r in Hat. rewrite Hat. cbn. f_equal. lia.
  - assert (H0 : glGetError asked <> GL_NO_ERROR).
    { rewrite <- (Nat.add_0_r asked). apply Hbefore. lia. }
    apply Z.eqb_neq in H0. rewrite H0. cbn [negb].
    rewrite (IH (S asked) fuel).
    + f_equal. lia.
    + intros j Hj. replace (S asked + j)%nat with (asked + S j)%nat by lia.
      apply Hbefore. lia.
    + replace (S asked + k)%nat with (asked + S k)%nat by lia. exact Hat.
    + lia.
Qed.

Lemma GLClearAllErrors_no_zero glGetError fuel : forall asked,
  (forall j, (j < fuel)%nat -> glGetError (asked + j)%nat <> GL_NO_ERROR) ->
  GLClearAllErrors glGetError fuel asked = None.
Proof.
  induction fuel as [|fuel IH]; intros asked Hnone; [reflexivity|].
  cbn [GLClearAllErrors].
  assert (H0 : glGetError asked <> GL_NO_ERROR).
  { rewrite <- (Nat.add_0_r asked). apply Hnone. lia. }
  apply Z.eqb_neq in H0. rewrite H0. cbn [negb].
  apply IH. intros j Hj.
  replace (S asked + j)%nat with (asked + S j)%nat by lia.
  apply Hnone. lia.
Qed.

(** X12: [GLClearAllErrors] returns if and only if [glGetError] at some
    point answers [GL_NO_ERROR]; it then has asked exactly up to the first
    such answer, discarding the errors before it.  As long as every answer
    is an error it keeps asking. *)
Theorem X12_GLClearAllErrors_returns glGetError asked :
  ((exists fuel, GLClearAllErrors glGetError fuel asked <> None) <->
   (exists k, glGetError (asked + k)%nat = GL_NO_ERROR)) /\
  (forall k fuel,
     (forall j, (j < k)%nat -> glGetError (asked + j)%nat <> GL_NO_ERROR) ->
     glGetError (asked + k)%nat = GL_NO_ERROR ->
     (k < fuel)%nat ->
     GLClearAllErrors glGetError fuel asked = Some (asked + S k)%nat) /\
  (forall fuel,
     (forall j, (j < fuel)%nat -> glGetError (asked + j)%nat <> GL_NO_ERROR) ->
     GLClearAllErrors glGetError fuel asked = None).
Proof.
  split; [|split].
  - split.
    + intros [fuel Hr].
      destruct (existsb (fun j => glGetError (asked + j)%nat =? GL_NO_ERROR)
                        (seq 0 fuel)) eqn:E.
      * apply existsb_exists in E. destruct E as [k [_ Hk]].
        exists k. apply Z.eqb_eq. exact Hk.
      * exfalso. apply Hr. apply GLClearAllErrors_no_zero.
        intros j Hj Hz.
        assert (existsb (fun j => glGetError (asked + j)%nat =? GL_NO_ERROR)
                        (seq 0 fuel) = true).
        { apply existsb_exists. exists j.
          split; [apply in_seq; lia | apply Z.eqb_eq; exact Hz]. }
        congruence.
    + intros [k Hk]. apply Z.eqb_eq in Hk.
      destruct (first_true (fun j => glGetError (asked + j)%nat =? GL_NO_ERROR)
                  k Hk) as [k0 [_ [Hat Hbefore]]].
      exists (S k0).
      rewrite (GLClearAllErrors_at_zero glGetError k0 asked (S k0)).
      * discriminate.
      * intros j Hj. apply Z.eqb_neq. apply Hbefore. exact Hj.
      * apply Z.eqb_eq. exact Hat.
      * lia.
  - intros k fuel. apply GLClearAllErrors_at_zero.
  - intros fuel. apply GLClearAllErrors_no_zero.
Qed.

(** Two errors are pending, the third answer is [GL_NO_ERROR]. *)
Lemma X12_GLClearAllErrors_returns_witness :
  (sample_errors 0 <> GL_NO_ERROR /\ sample_errors 1 <> GL_NO_ERROR /\
   sample_errors 2 = GL_NO_ERROR /\ (2 < 10)%nat) /\
  GLClearAllErrors sample_errors 10 0 = Some 3%nat.
Proof.
  split; [split; [discriminate | split; [discriminate | split; [reflexivity | lia]]]|].
  refine (proj1 (proj2 (X12_GLClearAllErrors_returns sample_errors 0%nat))
            2%nat 10%nat _ eq_refl _).
  - intros j Hj. destruct j as [|[|j]]; [discriminate | discriminate | lia].
  - lia.
Defined.

(** X13: [GLCheckErrorStatus] after [GLClearAllErrors] reports nothing the
    clearing discarded.  It asks [glGetError] once; if the answer, the one
    that follows the first [GL_NO_ERROR], is an error, it prints that error,
    the line and the function and returns true, and otherwise it prints
    nothing and returns false; errors behind that answer stay pending. *)
Theorem X13_check_after_clear glGetError function line asked k fuel :
  (forall j, (j < k)%nat -> glGetError (asked + j)%nat <> GL_NO_ERROR) ->
  glGetError (asked + k)%nat = GL_NO_ERROR ->
  (k < fuel)%nat ->
  match GLClearAllErrors glGetError fuel asked with
  | None => False
  | Some asked' =>
      asked' = (asked + S k)%nat /\
      GLCheckErrorStatus glGetError function line asked' =
      (if glGetError (asked + S k)%nat =? GL_NO_ERROR then []
       else [cout "OpenGL Error:";
             cout (decimal (glGetError (asked + S k)%nat));
             cout (tab ++ "Line: "); cout (decimal line);
             cout (tab ++ "function: "); cout function; cout endl],
       negb (glGetError (asked + S k)%nat =? GL_NO_ERROR),
       S (asked + S k))
  end.
Proof.
  intros Hbefore Hat Hfuel.
  rewrite (GLClearAllErrors_at_zero glGetError k asked fuel Hbefore Hat Hfuel).
  split; [reflexivity|].
  unfold GLCheckErrorStatus, GL_NO_ERROR. cbv zeta.
  destruct (glGetError (asked + S k)%nat =? 0); reflexivity.
Qed.

(** With the sample answers the check that follows the clearing finds error
    0x0501 and prints it in decimal. *)
Lemma X13_check_after_clear_witness :
  (sample_errors 0 <> GL_NO_ERROR /\ sample_errors 1 <> GL_NO_ERROR /\
   sample_errors 2 = GL_NO_ERROR /\ (2 < 10)%nat) /\
  GLCheckErrorStatus sample_errors "glDrawElements" 443 3 =
    ([cout "OpenGL Error:"; cout "1281"; cout (tab ++ "Line: "); cout "443";
      cout (tab ++ "function: "); cout "glDrawElements"; cout endl],
     true, 4%nat).
Proof.
  split; [split; [discriminate | split; [discriminate | split; [reflexivity | lia]]]|].
  assert (H := X13_check_after_clear sample_errors "glDrawElements" 443
                 0%nat 2%nat 10%nat).
  cbn [GLClearAllErrors sample_errors Z.eqb negb GL_NO_ERROR Nat.add] in H.
  apply H.
  - intros j Hj. destruct j as [|[|j]]; [discriminate | discriminate | lia].
  - reflexivity.
  - lia.
Defined.

(** ** Runs that end in the shader build *)




(** ** What follows a NUL character in a shader file *)

Lemma c_str_idempotent text : c_str (c_str text) = c_str text.
Proof.
  induction text as [|c text IH]; [reflexivity|].
  cbn [c_str]. destruct (Ascii.eqb c "000"%char) eqn:E; [reflexivity|].
  cbn [c_str]. rewrite E, IH. reflexivity.
Qed.

(** X15: the shader source ends at the first NUL character.
    [CompileShader] gives [source.c_str()] to [glShaderSource] without a
    length, so OpenGL reads up to the first NUL: a text without one is given
    whole, a text with one is given up to it, and what follows it changes
    nothing in what [CompileShader] does. *)
Theorem X15_source_ends_at_NUL env :
  (forall source s,
     filter is_glShaderSource
       (trace_of (CompileShader env GL_VERTEX_SHADER source s)) =
       [glShaderSource (env_glCreateShader env GL_VERTEX_SHADER) 1 (c_str source)] /\
     filter is_glShaderSource
       (trace_of (CompileShader env GL_FRAGMENT_SHADER source s)) =
       [glShaderSource (env_glCreateShader env GL_FRAGMENT_SHADER) 1
          (c_str source)]) /\
  (forall text, has_NUL (c_str text) = false) /\
  (forall text, has_NUL text = false -> c_str text = text) /\
  (forall before after,
     has_NUL before = false ->
     c_str (before ++ String "000"%char after) = before /\
     forall ty s,
       CompileShader env ty (before ++ String "000"%char after) s =
       CompileShader env ty before s).
Proof.
  assert (Hwhole : forall text, has_NUL text = false -> c_str text = text).
  { induction text as [|c text IH]; [reflexivity|].
    cbn [has_NUL c_str]. destruct (Ascii.eqb c "000"%char); [discriminate|].
    cbn [orb]. intros H. rewrite IH by assumption. reflexivity. }
  assert (Hcut : forall before after, has_NUL before = false ->
                   c_str (before ++ String "000"%char after) = before).
  { induction before as [|c before IH]; intros after; [reflexivity|].
    cbn [has_NUL c_str append].
    destruct (Ascii.eqb c "000"%char); [discriminate|].
    cbn [orb]. intros H. rewrite IH by assumption. reflexivity. }
  split; [|split; [|split]].
  - intros source s.
    rewrite CompileShader_vertex, CompileShader_fragment.
    unfold trace_of, compile_calls; cbn [fst]. cbv zeta.
    split.
    + compile_cases env GL_VERTEX_SHADER source; reflexivity.
    + compile_cases env GL_FRAGMENT_SHADER source; reflexivity.
  - induction text as [|c text IH]; [reflexivity|].
    cbn [c_str]. destruct (Ascii.eqb c "000"%char) eqn:E; [reflexivity|].
    cbn [has_NUL]. rewrite E, IH. reflexivity.
  - exact Hwhole.
  - intros before after H. split; [apply Hcut; assumption|].
    intros ty s. unfold CompileShader. cbv zeta.
    rewrite Hcut, Hwhole by assumption. reflexivity.
Qed.

(** A source text with a NUL after its first line. *)
Lemma X15_source_ends_at_NUL_witness :
  has_NUL "void main() {}" = false /\
  c_str ("void main() {}" ++ String "000"%char "garbage") = "void main() {}"%string.
Proof.
  split; [reflexivity|].
  exact (proj1 (proj2 (proj2 (proj2 (X15_source_ends_at_NUL good_world)))
                  "void main() {}"%string "garbage"%string eq_refl)).
Defined.
